(** * OPD token allocation engine: a shallow embedding and its properties

    The development follows the JavaScript sources of the repository:
    - [src/utils/priority.js]               (module [Priority])
    - [src/models/{Slot,Token,Waiting}.js]  (modules [Slot], [Token], [Waiting])
    - [src/services/allocationService.js]   (module [AllocationService])
    - [src/services/cancellationService.js] (module [CancellationService])
    - [src/services/waitingQueueService.js] (module [WaitingQueueService])
    - [src/services/emergencyService.js]    (module [EmergencyService])
    - [src/controllers/tokenController.js], [cancellationController.js]
                                            (module [Controllers])

    Conventions of the embedding.
    - A MongoDB collection is a list of documents; the [_id] of a document
      is its index in the list, so a freshly saved document gets the id
      [length collection] and natural order is insertion order.
    - Dates are [Z] numbers of milliseconds; operations that read the clock
      ([new Date()], [Date.now()], or the [timestamps] option of a schema on
      [save]) take the current time [now] as an argument.
    - JavaScript numbers that hold counts, capacities and scores are [Z].
    - [Array.prototype.sort] is stable, and a MongoDB [sort] is taken to
      keep natural order among documents that compare equal.
    - In the query conditions [{ $lt: '$maxCapacity' }] and
      [{ $gte: '$maxCapacity' }] on [currentOccupancy] the operand is the
      string ['$maxCapacity'], not the field: a query document compares a
      path with a value.  Mongoose casts the value to the type of the
      path when the query is run, the string does not cast to a Number,
      and the query is rejected with a [CastError] before it reaches the
      collection.
    - A thrown [Error] is a result [Err msg] next to the store as it was
      when the exception left the function: writes made by [save()] before
      the [throw] stay.
    - Free-text payload fields that no decision reads ([tokenNumber],
      [reason], [notes], [day]) are left out of the records.
    - Capacities are taken to be integers: the schema default and the
      seed script give 10, and the only function that changes a capacity,
      [overrideSlotRules], stores a [Math.ceil]. *)

From Stdlib Require Import ZArith List String Bool Lia.
From Stdlib Require Import Sorting.Sorted Sorting.Permutation.
From stdpp Require Import base list strings.
Import ListNotations.

Local Open Scope string_scope.
Local Open Scope list_scope.
Local Open Scope Z_scope.

(** ** JavaScript values and plain-object property lookup *)

Module Js.

(** The values an expression [obj[key] || 0] over a plain object of
    numbers can produce: a number, or a member that the object inherits
    from [Object.prototype] (a function, or the prototype itself for
    [__proto__]). *)
Inductive value :=
| Num (n : Z)
| Inherited (name : string).

(** Own property names of [Object.prototype]; every object literal
    [{...}] has it as its prototype, and a bracket lookup [obj[key]]
    walks the prototype chain. *)
Definition objectPrototypeKeys : list string :=
  [ "constructor"; "__defineGetter__"; "__defineSetter__"; "hasOwnProperty";
    "__lookupGetter__"; "__lookupSetter__"; "isPrototypeOf";
    "propertyIsEnumerable"; "toString"; "valueOf"; "__proto__";
    "toLocaleString" ].

Fixpoint own (o : list (string * Z)) (key : string) : option Z :=
  match o with
  | [] => None
  | (k, v) :: o' => if String.eqb k key then Some v else own o' key
  end.

Definition inStrings (key : string) (l : list string) : bool :=
  existsb (String.eqb key) l.

(** [obj[key]]: [None] is [undefined]. *)
Definition get (o : list (string * Z)) (key : string) : option value :=
  match own o key with
  | Some n => Some (Num n)
  | None => if inStrings key objectPrototypeKeys
            then Some (Inherited key) else None
  end.

(** [v || 0]: [undefined] and [0] are falsy, functions and objects are
    truthy. *)
Definition orZero (v : option value) : value :=
  match v with
  | Some (Num n) => if n =? 0 then Num 0 else Num n
  | Some (Inherited k) => Inherited k
  | None => Num 0
  end.

(** Relational operators with a number on the left.  A function operand
    converts to [NaN], and every comparison with [NaN] is [false]. *)
Definition lt (a : Z) (b : value) : bool :=
  match b with Num n => a <? n | Inherited _ => false end.

Definition ge (a : Z) (b : value) : bool :=
  match b with Num n => a >=? n | Inherited _ => false end.

(** The product of two binary64 numbers whose exact value is [n / 2 ^ k]
    for an integer [n]: the result is the nearest double, which has [n]
    rounded to 53 significant bits, ties to even.  ([k] is small and the
    numbers are far from the overflow and underflow thresholds.) *)
Definition roundTo53Bits (n : Z) : Z :=
  let excess := Z.log2 (Z.abs n) - 52 in
  if excess <=? 0 then n
  else
    let unit := 2 ^ excess in
    let q := Z.abs n / unit in
    let r := Z.abs n mod unit in
    let q' := if 2 * r <? unit then q
              else if unit <? 2 * r then q + 1
              else if Z.even q then q else q + 1 in
    Z.sgn n * (q' * unit).

(** Stable sort with a comparator, as [Array.prototype.sort(cmp)] and as a
    MongoDB [sort] whose ties keep natural order: [x] stays in front of
    [y] unless [cmp x y > 0]. *)
Section Sort.
Context {A : Type} (cmp : A -> A -> Z).

Fixpoint insert (x : A) (l : list A) : list A :=
  match l with
  | [] => [x]
  | y :: l' => if cmp x y >? 0 then y :: insert x l' else x :: l
  end.

Fixpoint sort (l : list A) : list A :=
  match l with
  | [] => []
  | x :: l' => insert x (sort l')
  end.

(** The order a comparator stands for: [a] may come before [b]. *)
Definition notAfter (a b : A) : Prop := cmp a b <= 0.
End Sort.

End Js.

(** ** src/utils/priority.js *)

Module Priority.

Definition PRIORITY_LEVELS : list (string * Z) :=
  [ ("emergency", 100); ("paid_priority", 80); ("follow_up", 60);
    ("online", 40); ("walk_in", 20) ].

(** [PRIORITY_LEVELS[source] || 0] *)
Definition calculatePriorityScore (source : string) : Js.value :=
  Js.orZero (Js.get PRIORITY_LEVELS source).

(** [priorityB - priorityA] *)
Definition comparePriorities (priorityA priorityB : Z) : Z :=
  priorityB - priorityA.

(** [tokens.sort((a, b) => b.priorityScore - a.priorityScore)], for any
    kind of document with a [priorityScore]. *)
Definition sortByPriority {A : Type} (priorityScore : A -> Z)
    (tokens : list A) : list A :=
  Js.sort (fun a b => priorityScore b - priorityScore a) tokens.

(** The loop of [getSourceFromPriority] over
    [Object.entries(PRIORITY_LEVELS)], which lists the entries in insertion
    order: the first source whose score [=== priorityScore]. *)
Fixpoint firstSourceWithScore (entries : list (string * Z)) (priorityScore : Z)
    : option string :=
  match entries with
  | [] => None
  | (source, score) :: rest =>
      if score =? priorityScore then Some source
      else firstSourceWithScore rest priorityScore
  end.

(** Falls back to ['walk_in']. *)
Definition getSourceFromPriority (priorityScore : Z) : string :=
  default "walk_in" (firstSourceWithScore PRIORITY_LEVELS priorityScore).

End Priority.

(** The five categories of the scoring table, which are also the [enum] of
  the [source] field in the Token and Waiting schemas. *)
Definition knownSources : list string :=
[ "emergency"; "paid_priority"; "follow_up"; "online"; "walk_in" ].

Definition validSource (source : string) : bool :=
Js.inStrings source knownSources.

(** ** src/models: the three schemas *)

Module Token.

Inductive status_t := booked | checked_in | completed | no_show | cancelled.

Record t := mk {
  patientId : nat;
  doctorId : nat;
  slotId : nat;
  source : string;
  priorityScore : Z;
  status : status_t;
  appointmentTime : Z;
  isReallocation : bool;
  originalSlotId : option nat;
  cancellationReason : option string;
  checkedInAt : option Z;
  completedAt : option Z;
  updatedAt : Z
}.

(** [['booked', 'checked_in'].includes(status)], the filter
    [status: { $in: ['booked', 'checked_in'] }] *)
Definition isActive (tk : t) : bool :=
  match status tk with
  | booked | checked_in => true
  | _ => false
  end.

(** [['completed', 'cancelled', 'no_show'].includes(status)] *)
Definition isTerminal (tk : t) : bool :=
  match status tk with
  | completed | cancelled | no_show => true
  | _ => false
  end.

Definition statusOfString (s : string) : option status_t :=
  if String.eqb s "booked" then Some booked
  else if String.eqb s "checked_in" then Some checked_in
  else if String.eqb s "completed" then Some completed
  else if String.eqb s "no_show" then Some no_show
  else if String.eqb s "cancelled" then Some cancelled
  else None.

Definition setStatus (st : status_t) (tk : t) : t :=
  mk (patientId tk) (doctorId tk) (slotId tk) (source tk) (priorityScore tk)
     st (appointmentTime tk) (isReallocation tk) (originalSlotId tk)
     (cancellationReason tk) (checkedInAt tk) (completedAt tk) (updatedAt tk).

(** [token.status = 'cancelled'; token.cancellationReason = reason] *)
Definition setCancelled (reason : option string) (tk : t) : t :=
  mk (patientId tk) (doctorId tk) (slotId tk) (source tk) (priorityScore tk)
     cancelled (appointmentTime tk) (isReallocation tk) (originalSlotId tk)
     reason (checkedInAt tk) (completedAt tk) (updatedAt tk).

Definition setCheckedInAt (now : Z) (tk : t) : t :=
  mk (patientId tk) (doctorId tk) (slotId tk) (source tk) (priorityScore tk)
     (status tk) (appointmentTime tk) (isReallocation tk) (originalSlotId tk)
     (cancellationReason tk) (Some now) (completedAt tk) (updatedAt tk).

Definition setCompletedAt (now : Z) (tk : t) : t :=
  mk (patientId tk) (doctorId tk) (slotId tk) (source tk) (priorityScore tk)
     (status tk) (appointmentTime tk) (isReallocation tk) (originalSlotId tk)
     (cancellationReason tk) (checkedInAt tk) (Some now) (updatedAt tk).

(** The four assignments of a displacement:
    [slotId], [appointmentTime], [isReallocation = true], [originalSlotId]. *)
Definition relocate (newSlot : nat) (newTime : Z) (original : option nat)
    (tk : t) : t :=
  mk (patientId tk) (doctorId tk) newSlot (source tk) (priorityScore tk)
     (status tk) newTime true original
     (cancellationReason tk) (checkedInAt tk) (completedAt tk) (updatedAt tk).

(** The [timestamps] option of the schema: [updatedAt] is set by [save()]. *)
Definition stamp (now : Z) (tk : t) : t :=
  mk (patientId tk) (doctorId tk) (slotId tk) (source tk) (priorityScore tk)
     (status tk) (appointmentTime tk) (isReallocation tk) (originalSlotId tk)
     (cancellationReason tk) (checkedInAt tk) (completedAt tk) now.

#[global] Instance status_eq_dec : EqDecision status_t.
Proof. solve_decision. Defined.

#[global] Instance eq_dec : EqDecision t.
Proof. solve_decision. Defined.

End Token.

Module Slot.

Inductive status_t := available | full | closed | cancelled.

Record t := mk {
  doctorId : nat;
  startTime : Z;
  endTime : Z;
  maxCapacity : Z;
  currentOccupancy : Z;
  status : status_t;
  date : Z;
  allocatedTokens : list nat
}.

Definition isAvailable (s : t) : bool :=
  match status s with available => true | _ => false end.

Definition isFull (s : t) : bool :=
  match status s with full => true | _ => false end.

(** [status: { $in: ['available', 'full'] }] *)
Definition isAvailableOrFull (s : t) : bool :=
  match status s with available | full => true | _ => false end.

Definition setMaxCapacity (c : Z) (s : t) : t :=
  mk (doctorId s) (startTime s) (endTime s) c (currentOccupancy s)
     (status s) (date s) (allocatedTokens s).

Definition setStatus (st : status_t) (s : t) : t :=
  mk (doctorId s) (startTime s) (endTime s) (maxCapacity s)
     (currentOccupancy s) st (date s) (allocatedTokens s).

Definition setOccupancy (occ : Z) (toks : list nat) (s : t) : t :=
  mk (doctorId s) (startTime s) (endTime s) (maxCapacity s) occ
     (status s) (date s) toks.

(** [slot.allocatedTokens.push(id); slot.currentOccupancy += 1] *)
Definition push (id : nat) (s : t) : t :=
  setOccupancy (currentOccupancy s + 1) (allocatedTokens s ++ [id]) s.

(** [slot.allocatedTokens = slot.allocatedTokens.filter(x => !x.equals(id));
     slot.currentOccupancy -= 1] *)
Definition remove (id : nat) (s : t) : t :=
  setOccupancy (currentOccupancy s - 1)
    (List.filter (fun x => negb (Nat.eqb x id)) (allocatedTokens s)) s.

(** [if (slot.currentOccupancy >= slot.maxCapacity) slot.status = 'full'] *)
Definition markFullIfAtCapacity (s : t) : t :=
  if currentOccupancy s >=? maxCapacity s then setStatus full s else s.

(** [if (slot.status === 'full' && slot.currentOccupancy < slot.maxCapacity)
       slot.status = 'available'] *)
Definition reopenIfBelowCapacity (s : t) : t :=
  if isFull s && (currentOccupancy s <? maxCapacity s)
  then setStatus available s else s.

(** [if (slot.status === 'full') slot.status = 'available'] *)
Definition reopenIfFull (s : t) : t :=
  if isFull s then setStatus available s else s.

End Slot.

Module Waiting.

Inductive status_t := waiting | allocated | cancelled | expired.

Record t := mk {
  patientId : nat;
  doctorId : nat;
  source : string;
  priorityScore : Z;
  preferredDate : option Z;
  status : status_t;
  queuePosition : Z;
  allocatedTokenId : option nat;
  expiresAt : Z;
  createdAt : Z
}.

Definition isWaiting (w : t) : bool :=
  match status w with waiting => true | _ => false end.

Definition setQueuePosition (p : Z) (w : t) : t :=
  mk (patientId w) (doctorId w) (source w) (priorityScore w)
     (preferredDate w) (status w) p (allocatedTokenId w)
     (expiresAt w) (createdAt w).

Definition setStatus (st : status_t) (w : t) : t :=
  mk (patientId w) (doctorId w) (source w) (priorityScore w)
     (preferredDate w) st (queuePosition w) (allocatedTokenId w)
     (expiresAt w) (createdAt w).

Definition setAllocated (tokenId : nat) (w : t) : t :=
  mk (patientId w) (doctorId w) (source w) (priorityScore w)
     (preferredDate w) allocated (queuePosition w) (Some tokenId)
     (expiresAt w) (createdAt w).

End Waiting.

(** ** The store and its queries *)

Record DB := mkDB {
  slots : list Slot.t;
  tokens : list Token.t;
  waitings : list Waiting.t
}.

Definition withSlots (f : list Slot.t -> list Slot.t) (db : DB) : DB :=
  mkDB (f (slots db)) (tokens db) (waitings db).

Definition withTokens (f : list Token.t -> list Token.t) (db : DB) : DB :=
  mkDB (slots db) (f (tokens db)) (waitings db).

Definition withWaitings (f : list Waiting.t -> list Waiting.t) (db : DB) : DB :=
  mkDB (slots db) (tokens db) (f (waitings db)).

(** [doc.save()] of a document that was read from the collection. *)
Definition saveSlot (id : nat) (s : Slot.t) : DB -> DB :=
  withSlots (fun l => <[id := s]> l).

(** [token.save()] with [timestamps: true]: a document with no modified
    path is not written; otherwise it is written with [updatedAt = now]. *)
Definition saveToken (now : Z) (id : nat) (tk : Token.t) (db : DB) : DB :=
  match tokens db !! id with
  | Some stored =>
      if decide (stored = tk) then db
      else withTokens (fun l => <[id := Token.stamp now tk]> l) db
  | None => db
  end.

(** [doc.save()] that writes only the paths assigned since the document
    was read: the stored document is changed by [f]. *)
Definition updateWaiting (id : nat) (f : Waiting.t -> Waiting.t) : DB -> DB :=
  withWaitings (fun l => alter f id l).

(** [new Model({...}).save()]: the new document goes to the end and its
    index is its [_id]. *)
Definition insertToken (tk : Token.t) (db : DB) : nat * DB :=
  (length (tokens db), withTokens (fun l => l ++ [tk]) db).

Definition insertWaiting (w : Waiting.t) (db : DB) : nat * DB :=
  (length (waitings db), withWaitings (fun l => l ++ [w]) db).

Module Mongo.

(** Documents paired with their [_id]. *)
Definition enumerate {A : Type} (coll : list A) : list (nat * A) :=
  combine (seq 0 (length coll)) coll.

(** [Model.find(query)], in natural order. *)
Definition find {A : Type} (query : A -> bool) (coll : list A)
    : list (nat * A) :=
  List.filter (fun d => query (snd d)) (enumerate coll).

(** [Model.findOne(query)] *)
Definition findOne {A : Type} (query : A -> bool) (coll : list A)
    : option (nat * A) :=
  head (find query coll).

(** [Model.find(query).sort(order)] *)
Definition findSorted {A : Type} (order : A -> A -> Z) (query : A -> bool)
    (coll : list A) : list (nat * A) :=
  Js.sort (fun a b => order (snd a) (snd b)) (find query coll).

(** [Model.findOne(query).sort(order)] *)
Definition findOneSorted {A : Type} (order : A -> A -> Z) (query : A -> bool)
    (coll : list A) : option (nat * A) :=
  head (findSorted order query coll).

(** [Model.countDocuments(query)] *)
Definition countDocuments {A : Type} (query : A -> bool) (coll : list A) : Z :=
  Z.of_nat (length (find query coll)).

(** [.populate('allocatedTokens')]: each id is replaced by its document;
    ids without a document are dropped from the array. *)
Definition populate {A : Type} (coll : list A) (ids : list nat)
    : list (nat * A) :=
  omap (fun id => match coll !! id with
                  | Some d => Some (id, d)
                  | None => None
                  end) ids.

End Mongo.

(** [.sort({ date: 1, startTime: 1 })] *)
Definition byDateThenStart (a b : Slot.t) : Z :=
  if Slot.date a =? Slot.date b
  then Slot.startTime a - Slot.startTime b
  else Slot.date a - Slot.date b.

(** [.sort({ queuePosition: 1 })] *)
Definition byQueuePosition (a b : Waiting.t) : Z :=
  Waiting.queuePosition a - Waiting.queuePosition b.

(** [.sort({ priorityScore: -1, queuePosition: 1 })] *)
Definition byPriorityThenPosition (a b : Waiting.t) : Z :=
  if Waiting.priorityScore a =? Waiting.priorityScore b
  then Waiting.queuePosition a - Waiting.queuePosition b
  else Waiting.priorityScore b - Waiting.priorityScore a.

(** Outcome of an operation that can throw. *)
Inductive result (A : Type) :=
| Ok (a : A)
| Err (msg : string).
Arguments Ok {A} a.
Arguments Err {A} msg.

Definition isOk {A : Type} (r : result A) : bool :=
  match r with Ok _ => true | Err _ => false end.

(** Rethrow with a prefix: [throw new Error(`${prefix}: ${error.message}`)]. *)
Definition rethrow {A : Type} (prefix : string) (r : result A) : result A :=
  match r with
  | Ok a => Ok a
  | Err msg => Err (prefix ++ ": " ++ msg)%string
  end.

(** The operand ['$maxCapacity'] of the conditions
    [currentOccupancy: { $lt: '$maxCapacity' }] and [{ $gte: '$maxCapacity' }],
    cast to the type of the path [currentOccupancy], a Number.  The string
    is not a numeral, so the cast fails and the query that holds the
    condition is rejected with this [CastError] (the double quotes of the
    message are left out). *)
Definition castMaxCapacityOperand : result Z :=
  Err "Cast to Number failed for value $maxCapacity (type string) at path currentOccupancy for model Slot".

(** Schema validation run by [save()] on a new Token or Waiting document:
    [source] must be in the [enum] and [priorityScore] must be a Number. *)
Definition validatedScore (source : string) (score : Js.value) : option Z :=
  if validSource source
  then match score with Js.Num n => Some n | Js.Inherited _ => None end
  else None.

(** ** src/services/allocationService.js *)

Module TokenData.

Record t := mk {
  patientId : nat;
  doctorId : nat;
  source : string;
  preferredSlotId : option nat;
  appointmentTime : Z
}.

End TokenData.

Module AllocationService.

(** What [allocateToken] returns: [{ success, token, slotId }] or
    [{ success, waiting, message }]. *)
Inductive allocation :=
| Allocated (tokenId slotId : nat)
| Queued (waitingId : nat) (queuePosition : Z).

Definition getMinPriorityForReallocation (source : string) : Js.value :=
  Js.orZero
    (Js.get [ ("emergency", 90); ("paid_priority", 70); ("follow_up", 50);
              ("online", 30); ("walk_in", 10) ] source).

Definition tokenScore (d : nat * Token.t) : Z := Token.priorityScore (snd d).

(** The conditions of the two queries of [findAvailableSlot], with the
    operand of the comparison on [currentOccupancy] as the cast gives
    it. *)
Definition hasFreeCapacityFrom (doctorId : nat) (preferredTime : Z)
    (bound : Z) (s : Slot.t) : bool :=
  Nat.eqb (Slot.doctorId s) doctorId
  && (Slot.date s >=? preferredTime)
  && Slot.isAvailableOrFull s
  && (Slot.currentOccupancy s <? bound).

Definition isFullFrom (doctorId : nat) (preferredTime : Z) (bound : Z)
    (s : Slot.t) : bool :=
  Nat.eqb (Slot.doctorId s) doctorId
  && (Slot.date s >=? preferredTime)
  && Slot.isFull s
  && (Slot.currentOccupancy s >=? bound).

(** Each query casts its conditions when it is run; a [CastError] leaves
    the [try] as ["Failed to find available slot: ..."].  The slot is
    returned as the in-memory document: in the second branch its
    [allocatedTokens] have been populated and sorted in place by
    [sortByPriority]. *)
Definition findAvailableSlot (db : DB) (doctorId : nat) (preferredTime : Z)
    (source : string) : result (option (nat * Slot.t)) :=
  let minPriorityForReallocation := getMinPriorityForReallocation source in
  rethrow "Failed to find available slot"
    match castMaxCapacityOperand with
    | Err msg => Err msg
    | Ok bound =>
        match Mongo.findOneSorted byDateThenStart
                (hasFreeCapacityFrom doctorId preferredTime bound)
                (slots db) with
        | Some slot => Ok (Some slot)
        | None =>
            match castMaxCapacityOperand with
            | Err msg => Err msg
            | Ok bound' =>
                match Mongo.findOneSorted byDateThenStart
                        (isFullFrom doctorId preferredTime bound')
                        (slots db) with
                | Some (sid, slot) =>
                    let sorted :=
                      Priority.sortByPriority tokenScore
                        (Mongo.populate (tokens db)
                           (Slot.allocatedTokens slot)) in
                    match last sorted with
                    | Some lowestPriorityToken =>
                        if Js.lt (tokenScore lowestPriorityToken)
                                 minPriorityForReallocation
                        then Ok (Some
                                   (sid,
                                    Slot.setOccupancy
                                      (Slot.currentOccupancy slot)
                                      (map fst sorted) slot))
                        else Ok None
                    | None => Ok None
                    end
                | None => Ok None
                end
            end
        end
    end.

(** [findNextAvailableSlotAfter] has no [try] of its own: the
    [CastError] of its query goes to the caller. *)
Definition findNextAvailableSlotAfter (db : DB) (date : Z) (doctorId : nat)
    : result (option (nat * Slot.t)) :=
  match castMaxCapacityOperand with
  | Err msg => Err msg
  | Ok bound =>
      Ok (Mongo.findOneSorted byDateThenStart
            (fun s => Nat.eqb (Slot.doctorId s) doctorId
                      && (Slot.date s >? date)
                      && Slot.isAvailable s
                      && (Slot.currentOccupancy s <? bound))
            (slots db))
  end.

(** The tokens [Token.find({ slotId, status: { $in: [...] } })] returns. *)
Definition activeTokensOf (db : DB) (sid : nat) : list (nat * Token.t) :=
  Mongo.find (fun tk => Nat.eqb (Token.slotId tk) sid && Token.isActive tk)
    (tokens db).

(** Returns the store, the caller's slot document as the call leaves it,
    and the boolean.  The [catch] of the function logs the error and
    returns [false]. *)
Definition reallocateLowerPriorityToken (now : Z) (db : DB)
    (slot : nat * Slot.t) (newTokenPriority : Js.value) (doctorId : nat)
    : DB * Slot.t * bool :=
  let (sid, s) := slot in
  let sortedTokens := Priority.sortByPriority tokenScore (activeTokensOf db sid) in
  match last sortedTokens with
  | None => (db, s, false)
  | Some (lowId, lowestPriorityToken) =>
      if Js.ge (Token.priorityScore lowestPriorityToken) newTokenPriority
      then (db, s, false)
      else
        match findNextAvailableSlotAfter db (Slot.date s) doctorId with
        | Err _ => (db, s, false)
        | Ok None => (db, s, false)
        | Ok (Some (nid, nextSlot)) =>
            let db1 :=
              saveToken now lowId
                (Token.relocate nid (Slot.startTime nextSlot) (Some sid)
                   lowestPriorityToken) db in
            let s' := Slot.reopenIfBelowCapacity (Slot.remove lowId s) in
            let db2 := saveSlot sid s' db1 in
            let db3 :=
              saveSlot nid (Slot.markFullIfAtCapacity (Slot.push lowId nextSlot))
                db2 in
            (db3, s', true)
        end
  end.

Definition isWaitingFor (doctorId : nat) (w : Waiting.t) : bool :=
  Nat.eqb (Waiting.doctorId w) doctorId && Waiting.isWaiting w.

Definition sevenDays : Z := 7 * 24 * 60 * 60 * 1000.

Definition addToWaitingQueue (now : Z) (db : DB) (patientId doctorId : nat)
    (source : string) (priorityScore : Js.value) (preferredDate : option Z)
    : DB * result (nat * Z) :=
  let queueCount := Mongo.countDocuments (isWaitingFor doctorId) (waitings db) in
  match validatedScore source priorityScore with
  | None => (db, Err "Failed to add to waiting queue: Waiting validation failed")
  | Some score =>
      let waiting :=
        Waiting.mk patientId doctorId source score preferredDate
          Waiting.waiting (queueCount + 1) None (now + sevenDays) now in
      let (wid, db') := insertWaiting waiting db in
      (db', Ok (wid, queueCount + 1))
  end.

Fixpoint renumber (i : Z) (docs : list (nat * Waiting.t)) (db : DB) : DB :=
  match docs with
  | [] => db
  | (wid, _) :: rest =>
      renumber (i + 1) rest
        (updateWaiting wid (Waiting.setQueuePosition (i + 1)) db)
  end.

Definition updateQueuePositions (doctorId : nat) (db : DB) : DB :=
  renumber 0
    (Mongo.findSorted byQueuePosition (isWaitingFor doctorId) (waitings db)) db.

(** One round of the loop of [allocateFromWaitingQueue]; [None] is the
    [break] (no slot) or an exception caught by the [try] that encloses
    the loop, which logs it and ends the function. *)
Definition promote (now : Z) (doctorId : nat) (waiting : nat * Waiting.t)
    (db : DB) : option DB :=
  let (wid, w) := waiting in
  match findAvailableSlot db doctorId
          (default now (Waiting.preferredDate w)) (Waiting.source w) with
  | Err _ => None
  | Ok None => None
  | Ok (Some (sid, slot)) =>
      match validatedScore (Waiting.source w)
              (Js.Num (Waiting.priorityScore w)) with
      | None => None
      | Some score =>
          let token :=
            Token.mk (Waiting.patientId w) doctorId sid (Waiting.source w)
              score Token.booked (Slot.startTime slot) false None None
              None None now in
          let (tid, db1) := insertToken token db in
          let db2 :=
            saveSlot sid (Slot.markFullIfAtCapacity (Slot.push tid slot)) db1 in
          let db3 := updateWaiting wid (Waiting.setAllocated tid) db2 in
          Some (updateQueuePositions doctorId db3)
      end
  end.

Fixpoint promoteAll (now : Z) (doctorId : nat)
    (waitingPatients : list (nat * Waiting.t)) (db : DB) : DB :=
  match waitingPatients with
  | [] => db
  | waiting :: rest =>
      match promote now doctorId waiting db with
      | None => db
      | Some db' => promoteAll now doctorId rest db'
      end
  end.

Definition waitingPatients (db : DB) (doctorId : nat) : list (nat * Waiting.t) :=
  Mongo.findSorted byPriorityThenPosition (isWaitingFor doctorId) (waitings db).

Definition allocateFromWaitingQueue (now : Z) (doctorId : nat) (db : DB) : DB :=
  promoteAll now doctorId (waitingPatients db doctorId) db.

(** The step shared by cancellation and no-show:
    [Slot.findById(token.slotId)] and, if found, release and [save()]. *)
Definition releaseWith (reopen : Slot.t -> Slot.t) (tokenId sid : nat)
    (db : DB) : DB :=
  match slots db !! sid with
  | Some s => saveSlot sid (reopen (Slot.remove tokenId s)) db
  | None => db
  end.

Definition handleCancellation (now : Z) (tokenId : nat)
    (cancellationReason : option string) (db : DB) : DB * result unit :=
  match tokens db !! tokenId with
  | None => (db, Err "Cancellation handling failed: Token not found")
  | Some token =>
      if Token.isTerminal token
      then (db, Err "Cancellation handling failed: Cannot cancel a completed, already cancelled, or no-show token")
      else
        let db1 :=
          saveToken now tokenId (Token.setCancelled cancellationReason token) db in
        let db2 := releaseWith Slot.reopenIfFull tokenId (Token.slotId token) db1 in
        (allocateFromWaitingQueue now (Token.doctorId token) db2, Ok tt)
  end.

Definition handleNoShow (now : Z) (tokenId : nat) (db : DB) : DB * result unit :=
  match tokens db !! tokenId with
  | None => (db, Err "No-show handling failed: Token not found")
  | Some token =>
      let db1 := saveToken now tokenId (Token.setStatus Token.no_show token) db in
      let db2 := releaseWith Slot.reopenIfFull tokenId (Token.slotId token) db1 in
      (allocateFromWaitingQueue now (Token.doctorId token) db2, Ok tt)
  end.

(** The slot in progress: [startTime <= now <= endTime], available or full. *)
Definition isCurrentSlot (now : Z) (doctorId : nat) (s : Slot.t) : bool :=
  Nat.eqb (Slot.doctorId s) doctorId
  && (Slot.startTime s <=? now)
  && (Slot.endTime s >=? now)
  && Slot.isAvailableOrFull s.

Definition handleEmergency (now : Z) (patientId doctorId : nat) (db : DB)
    : DB * result nat :=
  match Mongo.findOne (isCurrentSlot now doctorId) (slots db) with
  | None => (db, Err "Emergency handling failed: No active slot for emergency")
  | Some (sid, currentSlot) =>
      let priorityScore := Priority.calculatePriorityScore "emergency" in
      let '(db1, slot1, reallocated) :=
        if Slot.currentOccupancy currentSlot >=? Slot.maxCapacity currentSlot
        then reallocateLowerPriorityToken now db (sid, currentSlot)
               priorityScore doctorId
        else (db, currentSlot, true) in
      if negb reallocated
      then (db1, Err "Emergency handling failed: Cannot accommodate emergency - unable to reallocate")
      else
        match validatedScore "emergency" priorityScore with
        | None => (db1, Err "Emergency handling failed: Token validation failed")
        | Some score =>
            let token :=
              Token.mk patientId doctorId sid "emergency" score Token.booked
                now false None None None None now in
            let (tid, db2) := insertToken token db1 in
            (saveSlot sid (Slot.markFullIfAtCapacity (Slot.push tid slot1)) db2,
             Ok tid)
        end
  end.

Definition allocateToken (now : Z) (tokenData : TokenData.t) (db : DB)
    : DB * result allocation :=
  let patientId := TokenData.patientId tokenData in
  let doctorId := TokenData.doctorId tokenData in
  let source := TokenData.source tokenData in
  let preferredSlotId := TokenData.preferredSlotId tokenData in
  let appointmentTime := TokenData.appointmentTime tokenData in
  (* Step 1 *)
  let priorityScore := Priority.calculatePriorityScore source in
  let queue (db' : DB) : DB * result allocation :=
    match addToWaitingQueue now db' patientId doctorId source priorityScore
            (Some appointmentTime) with
    | (db'', Ok (wid, pos)) => (db'', Ok (Queued wid pos))
    | (db'', Err msg) => (db'', Err ("Token allocation failed: " ++ msg)%string)
    end in
  (* Step 2 *)
  let found : option (nat * Slot.t) :=
    match preferredSlotId with
    | Some p => match slots db !! p with
                | Some s => Some (p, s)
                | None => None
                end
    | None => None
    end in
  let mismatch :=
    match found with
    | Some (_, s) => negb (Nat.eqb (Slot.doctorId s) doctorId)
    | None => false
    end in
  if mismatch
  then (db, Err "Token allocation failed: Slot does not belong to selected doctor")
  else
    let targetSlot :=
      match found with
      | Some (p, s) =>
          if Slot.currentOccupancy s >=? Slot.maxCapacity s
          then None else Some (p, s)
      | None => None
      end in
    (* Step 3 *)
    let targetSlot :=
      match targetSlot with
      | Some slot => Ok (Some slot)
      | None => findAvailableSlot db doctorId appointmentTime source
      end in
    match targetSlot with
    | Err msg => (db, Err ("Token allocation failed: " ++ msg)%string)
    | Ok None => queue db                                      (* Step 4 *)
    | Ok (Some (sid, slot)) =>
        (* Step 5 *)
        let '(db1, slot1, reallocated) :=
          if Slot.currentOccupancy slot >=? Slot.maxCapacity slot
          then reallocateLowerPriorityToken now db (sid, slot) priorityScore
                 doctorId
          else (db, slot, true) in
        if negb reallocated then queue db1
        else
          (* Step 6 *)
          match validatedScore source priorityScore with
          | None => (db1, Err "Token allocation failed: Token validation failed")
          | Some score =>
              let isReallocation :=
                match preferredSlotId with
                | Some p => negb (Nat.eqb p sid)
                | None => false
                end in
              let token :=
                Token.mk patientId doctorId sid source score Token.booked
                  appointmentTime isReallocation preferredSlotId None None
                  None now in
              let (tid, db2) := insertToken token db1 in
              (* Step 7 *)
              (saveSlot sid (Slot.markFullIfAtCapacity (Slot.push tid slot1)) db2,
               Ok (Allocated tid sid))
          end
    end.

End AllocationService.

(** ** src/services/cancellationService.js *)

Module CancellationService.

Definition msPerHour : Z := 1000 * 60 * 60.

(** The object [requestCancellation] returns.  [hoursUntilAppointment] is
    kept in milliseconds: [(appointmentTime - now) / msPerHour] is compared
    with [0], [0.5] and [24] only, and for integer milliseconds these
    comparisons are the integer ones below. *)
Record cancellationCheck := mkCheck {
  canCancel : bool;
  msUntilAppointment : Z;
  lateFeeMayApply : bool
}.

Definition requestCancellation (now : Z) (tokenId : nat) (db : DB)
    : result cancellationCheck :=
  match tokens db !! tokenId with
  | None => Err "Cancellation check failed: Token not found"
  | Some token =>
      if Token.isTerminal token
      then Err "Cancellation check failed: Cannot cancel a token that is already completed, cancelled, or no-show"
      else
        let untilAppointment := Token.appointmentTime token - now in
        if untilAppointment <? 0
        then Err "Cancellation check failed: Cannot cancel appointment that has already started"
        else Ok (mkCheck (2 * untilAppointment >? msPerHour)
                   untilAppointment
                   (untilAppointment <? 24 * msPerHour))
  end.

Definition processCancellation (now : Z) (tokenId : nat)
    (cancellationReason : option string) (db : DB) : DB * result unit :=
  match tokens db !! tokenId with
  | None => (db, Err "Cancellation processing failed: Token not found")
  | Some token =>
      let db1 :=
        saveToken now tokenId (Token.setCancelled cancellationReason token) db in
      (AllocationService.releaseWith Slot.reopenIfBelowCapacity tokenId
         (Token.slotId token) db1, Ok tt)
  end.

(** [refundPercentage] as a function of [appointmentTime - cancellationTime]
    in milliseconds. *)
Definition refundPercentage (msBeforeAppointment : Z) : Z :=
  if msBeforeAppointment >=? 24 * msPerHour then 100
  else if msBeforeAppointment >=? 12 * msPerHour then 75
  else if msBeforeAppointment >=? 6 * msPerHour then 50
  else 0.

(** [requestRefund] reads one token and writes nothing; it is given in
    store-passing form so that this can be stated. *)
Definition requestRefund (tokenId : nat) (db : DB) : DB * result Z :=
  match tokens db !! tokenId with
  | None => (db, Err "Refund processing failed: Token not found")
  | Some token =>
      match Token.status token with
      | Token.cancelled =>
          (db, Ok (refundPercentage
                     (Token.appointmentTime token - Token.updatedAt token)))
      | _ => (db, Err "Refund processing failed: Only cancelled tokens can request refunds")
      end
  end.

(** [!['completed', 'cancelled'].includes(token.status)] is the negation. *)
Definition isCompletedOrCancelled (tk : Token.t) : bool :=
  match Token.status tk with
  | Token.completed | Token.cancelled => true
  | _ => false
  end.

(** The loop of [bulkCancelSlot] over the slot's tokens; returns the store
    and [cancelledTokenIds]. *)
Fixpoint cancelEach (now : Z) (reason : option string) (ids : list nat)
    (db : DB) : DB * list nat :=
  match ids with
  | [] => (db, [])
  | tokenId :: rest =>
      match tokens db !! tokenId with
      | Some token =>
          if isCompletedOrCancelled token then cancelEach now reason rest db
          else
            let (db', cancelledTokenIds) :=
              cancelEach now reason rest
                (saveToken now tokenId (Token.setCancelled reason token) db) in
            (db', tokenId :: cancelledTokenIds)
      | None => cancelEach now reason rest db
      end
  end.

(** Returns [cancelledTokenCount].  The slot is read with
    [.populate('allocatedTokens')], so the loop runs over the listed tokens
    that exist. *)
Definition bulkCancelSlot (now : Z) (slotId : nat) (reason : option string)
    (db : DB) : DB * result Z :=
  match slots db !! slotId with
  | None => (db, Err "Bulk cancellation failed: Slot not found")
  | Some slot =>
      let listed :=
        map fst (Mongo.populate (tokens db) (Slot.allocatedTokens slot)) in
      let (db1, cancelledTokenIds) := cancelEach now reason listed db in
      (saveSlot slotId
         (Slot.setOccupancy 0 [] (Slot.setStatus Slot.cancelled slot)) db1,
       Ok (Z.of_nat (length cancelledTokenIds)))
  end.

End CancellationService.

(** ** src/services/waitingQueueService.js *)

Module WaitingQueueService.

Definition updateQueuePositions (doctorId : nat) (db : DB) : DB :=
  AllocationService.renumber 0
    (Mongo.findSorted byQueuePosition (AllocationService.isWaitingFor doctorId)
       (waitings db)) db.

(** [findByIdAndUpdate(waitingId, { status: 'cancelled',
    cancellationReason: reason })]: the Waiting schema has no path
    [cancellationReason], and an update drops the fields the schema does
    not have, so only the status is written. *)
Definition cancelWaiting (waitingId : nat) (reason : option string) (db : DB)
    : DB * result unit :=
  match waitings db !! waitingId with
  | None => (db, Err "Failed to cancel waiting: Waiting entry not found")
  | Some w =>
      let db1 :=
        updateWaiting waitingId (Waiting.setStatus Waiting.cancelled) db in
      (updateQueuePositions (Waiting.doctorId w) db1, Ok tt)
  end.

Definition isExpiredAt (now : Z) (w : Waiting.t) : bool :=
  Waiting.isWaiting w && (Waiting.expiresAt w <? now).

(** [Waiting.updateMany({ status: 'waiting', expiresAt: { $lt: now } },
                        { status: 'expired' })]; returns [modifiedCount]. *)
Definition cleanExpiredEntries (now : Z) (db : DB) : DB * Z :=
  (withWaitings
     (map (fun w => if isExpiredAt now w
                    then Waiting.setStatus Waiting.expired w else w)) db,
   Mongo.countDocuments (isExpiredAt now) (waitings db)).

(** [getQueuePosition]: the entry [findOne] returns and
    [estimateWaitTime]. *)
Definition estimateWaitTime (queuePosition : Z) : Z := (queuePosition - 1) * 15.

Definition getQueuePosition (patientId doctorId : nat) (db : DB)
    : option (Z * Z) :=
  match Mongo.findOne
          (fun w => Nat.eqb (Waiting.patientId w) patientId
                    && AllocationService.isWaitingFor doctorId w)
          (waitings db) with
  | Some (_, w) =>
      Some (Waiting.queuePosition w, estimateWaitTime (Waiting.queuePosition w))
  | None => None
  end.

(** The query of [movePatientInQueue] for the entries to shift: the
    doctor's waiting entries with a position between the old and the new
    one, other than the moved entry itself. *)
Definition affectedWaiting (doctorId waitingId : nat) (lo hi : Z) (db : DB)
    : list (nat * Waiting.t) :=
  List.filter (fun d => negb (Nat.eqb (fst d) waitingId))
    (Mongo.find
       (fun w => AllocationService.isWaitingFor doctorId w
                 && (Waiting.queuePosition w >=? lo)
                 && (Waiting.queuePosition w <=? hi))
       (waitings db)).

(** [for (const w of affectedWaiting) { w.queuePosition += delta; w.save() }] *)
Fixpoint shiftEach (delta : Z) (affected : list (nat * Waiting.t)) (db : DB)
    : DB :=
  match affected with
  | [] => db
  | (id, w) :: rest =>
      shiftEach delta rest
        (updateWaiting id
           (Waiting.setQueuePosition (Waiting.queuePosition w + delta)) db)
  end.

Definition movePatientInQueue (waitingId : nat) (newPosition : Z) (db : DB)
    : DB * result unit :=
  match waitings db !! waitingId with
  | None => (db, Err "Failed to move patient in queue: Waiting entry not found")
  | Some waiting =>
      let oldPosition := Waiting.queuePosition waiting in
      let db1 :=
        updateWaiting waitingId (Waiting.setQueuePosition newPosition) db in
      let affected :=
        affectedWaiting (Waiting.doctorId waiting) waitingId
          (Z.min oldPosition newPosition) (Z.max oldPosition newPosition) db1 in
      (shiftEach (if oldPosition <? newPosition then -1 else 1) affected db1,
       Ok tt)
  end.

End WaitingQueueService.

(** ** src/services/emergencyService.js *)

Module EmergencyService.

(** [Math.ceil(n / d)] for integers, [d > 0]. *)
Definition ceilDiv (n d : Z) : Z := - ((- n) / d).

(** [tokens.sort((a, b) => a.priorityScore - b.priorityScore)] *)
Definition sortAscending (tokens : list (nat * Token.t)) : list (nat * Token.t) :=
  Js.sort (fun a b => AllocationService.tokenScore a
                      - AllocationService.tokenScore b) tokens.

Definition fastTrackEmergency (now : Z) (patientId doctorId : nat) (db : DB)
    : DB * result nat :=
  match Mongo.findOne (AllocationService.isCurrentSlot now doctorId)
          (slots db) with
  | None => (db, Err "Fast-track failed: No active slot available")
  | Some (sid, currentSlot) =>
      let emergencyToken :=
        Token.mk patientId doctorId sid "emergency" 100 Token.booked now
          false None None None None now in
      let (eid, db1) := insertToken emergencyToken db in
      (* Handle slot capacity; the token saved above is among the active
         tokens that [Token.find] returns for the slot. *)
      let '(db2, currentSlot1) :=
        if Slot.currentOccupancy currentSlot >=? Slot.maxCapacity currentSlot
        then
          match head (sortAscending (AllocationService.activeTokensOf db1 sid)) with
          | Some (lowId, lowestPriority) =>
              match Mongo.findOneSorted byDateThenStart
                      (fun s => Nat.eqb (Slot.doctorId s) doctorId
                                && (Slot.date s >? Slot.date currentSlot)
                                && Slot.isAvailable s)
                      (slots db1) with
              | Some (nid, nextSlot) =>
                  let db' :=
                    saveToken now lowId
                      (Token.relocate nid (Slot.startTime nextSlot)
                         (Token.originalSlotId lowestPriority)
                         lowestPriority) db1 in
                  (saveSlot nid (Slot.push lowId nextSlot) db',
                   Slot.remove lowId currentSlot)
              | None => (db1, currentSlot)
              end
          | None => (db1, currentSlot)
          end
        else (db1, currentSlot) in
      (saveSlot sid (Slot.markFullIfAtCapacity (Slot.push eid currentSlot1)) db2,
       Ok eid)
  end.

(** [Math.ceil(slot.maxCapacity * 1.5)] and [Math.ceil(slot.maxCapacity * 1.25)]
    for an integer capacity: [1.5 = 3/2] and [1.25 = 5/4] are doubles, the
    exact products are [3 c / 2] and [5 c / 4], and the multiplication
    rounds them to the nearest double before [Math.ceil] is applied. *)
Definition overriddenCapacity (emergencyLevel : string) (maxCapacity : Z) : Z :=
  if String.eqb emergencyLevel "critical"
  then ceilDiv (Js.roundTo53Bits (3 * maxCapacity)) 2
  else if String.eqb emergencyLevel "high"
  then ceilDiv (Js.roundTo53Bits (5 * maxCapacity)) 4
  else maxCapacity.

(** Returns [originalCapacity] and [newCapacity]. *)
Definition overrideSlotRules (slotId : nat) (emergencyLevel : string) (db : DB)
    : DB * result (Z * Z) :=
  match slots db !! slotId with
  | None => (db, Err "Failed to override slot rules: Slot not found")
  | Some slot =>
      let originalCapacity := Slot.maxCapacity slot in
      let slot' :=
        Slot.setMaxCapacity (overriddenCapacity emergencyLevel originalCapacity)
          slot in
      (saveSlot slotId slot' db, Ok (originalCapacity, Slot.maxCapacity slot'))
  end.

(** [getCurrentSlot]: the slot in progress with [capacityInfo.isFull], or
    [None] for [{ success: false }]. *)
Definition getCurrentSlot (now : Z) (doctorId : nat) (db : DB)
    : option (nat * Slot.t * bool) :=
  match Mongo.findOne (AllocationService.isCurrentSlot now doctorId)
          (slots db) with
  | Some (sid, currentSlot) =>
      Some (sid,
            Slot.setOccupancy (Slot.currentOccupancy currentSlot)
              (map fst (Mongo.populate (tokens db)
                          (Slot.allocatedTokens currentSlot))) currentSlot,
            Slot.currentOccupancy currentSlot >=? Slot.maxCapacity currentSlot)
  | None => None
  end.

(** What [handleEmergencyReallocation] returns:
    [{ success, reallocationNeeded, reallocatedToken.tokenId }]. *)
Record reallocation := mkReallocation {
  success : bool;
  reallocationNeeded : bool;
  reallocatedToken : option nat
}.

(** The tokens come from [Token.find({ slotId })], with no condition on
    their status; the slot is read with [.populate('allocatedTokens')].
    The query for the next slot holds the condition
    [currentOccupancy: { $lt: '$maxCapacity' }]. *)
Definition handleEmergencyReallocation (now : Z) (slotId : nat)
    (newPatientPriority : Z) (db : DB) : DB * result reallocation :=
  match slots db !! slotId with
  | None => (db, Err "Emergency reallocation failed: Slot not found")
  | Some stored =>
      let slot :=
        Slot.setOccupancy (Slot.currentOccupancy stored)
          (map fst (Mongo.populate (tokens db) (Slot.allocatedTokens stored)))
          stored in
      if Slot.currentOccupancy slot <? Slot.maxCapacity slot
      then (db, Ok (mkReallocation true false None))
      else
        match head (sortAscending
                      (Mongo.find (fun tk => Nat.eqb (Token.slotId tk) slotId)
                         (tokens db))) with
        | None => (db, Ok (mkReallocation true false None))
        | Some (lowId, lowestPriorityToken) =>
            if Token.priorityScore lowestPriorityToken >=? newPatientPriority
            then (db, Ok (mkReallocation false false None))
            else
              match
                match castMaxCapacityOperand with
                | Err msg => Err msg
                | Ok bound =>
                    Ok (Mongo.findOneSorted byDateThenStart
                          (fun s =>
                             Nat.eqb (Slot.doctorId s) (Slot.doctorId slot)
                             && (Slot.date s >? Slot.date slot)
                             && Slot.isAvailable s
                             && (Slot.currentOccupancy s <? bound))
                          (slots db))
                end
              with
              | Err msg =>
                  (db, Err ("Emergency reallocation failed: " ++ msg)%string)
              | Ok None => (db, Ok (mkReallocation false false None))
              | Ok (Some (nid, nextSlot)) =>
                  let db1 :=
                    saveToken now lowId
                      (Token.relocate nid (Slot.startTime nextSlot)
                         (Some slotId) lowestPriorityToken) db in
                  let db2 := saveSlot slotId (Slot.remove lowId slot) db1 in
                  let db3 :=
                    saveSlot nid
                      (Slot.markFullIfAtCapacity (Slot.push lowId nextSlot))
                      db2 in
                  (db3, Ok (mkReallocation true true (Some lowId)))
              end
        end
  end.

End EmergencyService.

(** ** src/controllers: the handlers that change the store *)

Module Controllers.

(** [CancellationController.cancelToken]: the check, the cancellation, then
    promotion from the waiting queue; any exception becomes a 500 reply. *)
Definition cancelToken (now : Z) (tokenId : nat) (reason : option string)
    (db : DB) : DB * result unit :=
  match CancellationService.requestCancellation now tokenId db with
  | Err msg => (db, Err ("Token cancellation failed: " ++ msg)%string)
  | Ok _ =>
      match CancellationService.processCancellation now tokenId reason db with
      | (db1, Err msg) => (db1, Err ("Token cancellation failed: " ++ msg)%string)
      | (db1, Ok _) =>
          match tokens db1 !! tokenId with
          | Some token =>
              (AllocationService.allocateFromWaitingQueue now
                 (Token.doctorId token) db1, Ok tt)
          | None => (db1, Err "Token cancellation failed: token is null")
          end
      end
  end.

(** [TokenController.updateTokenStatus]: the body [status] is any string. *)
Definition updateTokenStatus (now : Z) (tokenId : nat) (status : string)
    (db : DB) : DB * result (Token.status_t * Token.status_t) :=
  match Token.statusOfString status with
  | None => (db, Err "Invalid status. Must be one of: booked, checked_in, completed, no_show, cancelled")
  | Some newStatus =>
      match tokens db !! tokenId with
      | None => (db, Err "Token not found")
      | Some token =>
          let oldStatus := Token.status token in
          let token1 := Token.setStatus newStatus token in
          let token2 :=
            match newStatus with
            | Token.checked_in => Token.setCheckedInAt now token1
            | Token.completed => Token.setCompletedAt now token1
            | _ => token1
            end in
          (saveToken now tokenId token2 db, Ok (oldStatus, newStatus))
      end
  end.

End Controllers.

(** ** Predicates used in the statements *)

(** The slot invariant of the data model:
    [currentOccupancy = |allocatedTokens| <= maxCapacity]. *)
Definition slotInvariant (s : Slot.t) : bool :=
  (Slot.currentOccupancy s =? Z.of_nat (length (Slot.allocatedTokens s)))
  && (Slot.currentOccupancy s <=? Slot.maxCapacity s).

Definition allSlotsInvariant (db : DB) : bool := forallb slotInvariant (slots db).

(** Queue positions of the entries of a doctor that are in status
    [waiting], in natural order. *)
Definition waitingPositions (db : DB) (doctorId : nat) : list Z :=
  map (fun d => Waiting.queuePosition (snd d))
    (Mongo.find (AllocationService.isWaitingFor doctorId) (waitings db)).

(** The positions are exactly [1..N], without duplicates or gaps. *)
Definition densePositions (positions : list Z) : Prop :=
  Permutation positions (map Z.of_nat (seq 1 (length positions))).

(** The position of a new entry as the specification words it: one plus
    the number of the doctor's waiting entries with a strictly higher
    score, or with an equal score and an earlier creation time. *)
Definition bandPosition (db : DB) (doctorId : nat) (score createdAt : Z) : Z :=
  1 + Mongo.countDocuments
        (fun w => AllocationService.isWaitingFor doctorId w
                  && ((Waiting.priorityScore w >? score)
                      || ((Waiting.priorityScore w =? score)
                          && (Waiting.createdAt w <? createdAt))))
        (waitings db).

(** Rank order of the waiting queue: higher score first, ties by lower
    queue position. *)
Definition ranksBefore (a b : nat * Waiting.t) : Prop :=
  Waiting.priorityScore (snd b) < Waiting.priorityScore (snd a)
  \/ (Waiting.priorityScore (snd a) = Waiting.priorityScore (snd b)
      /\ Waiting.queuePosition (snd a) <= Waiting.queuePosition (snd b)).

Definition waitingStatusOf (db : DB) (wid : nat) : option Waiting.status_t :=
  Waiting.status <$> waitings db !! wid.

(** Where [movePatientInQueue] puts an entry of the queue that stood at
    position [p], when the entry at [oldPosition] is moved to
    [newPosition]: the moved entry gets the new position, the entries
    between the two positions shift by one towards the old position. *)
Definition movedPosition (oldPosition newPosition p : Z) : Z :=
  if p =? oldPosition then newPosition
  else if (Z.min oldPosition newPosition <=? p)
          && (p <=? Z.max oldPosition newPosition)
       then p + (if oldPosition <? newPosition then -1 else 1)
       else p.

(** ** Concrete stores used by the examples *)

Module Examples.

(** A doctor (id 1) whose only slot, in progress at time 50, is full with
    one online booking. *)
Definition fullSlot : Slot.t := Slot.mk 1 0 100 1 1 Slot.full 0 [0%nat].
Definition onlineToken : Token.t :=
  Token.mk 5 1 0 "online" 40 Token.booked 0 false None None None None 0.
Definition oneFullSlot : DB := mkDB [fullSlot] [onlineToken] [].

(** Two full slots of capacity 1 and two online patients waiting. *)
Definition twoFullSlots : DB :=
  mkDB
    [ Slot.mk 1 10 20 1 1 Slot.full 10 [0%nat];
      Slot.mk 1 20 30 1 1 Slot.full 20 [1%nat] ]
    [ Token.mk 5 1 0 "walk_in" 20 Token.booked 10 false None None None None 0;
      Token.mk 6 1 1 "online" 40 Token.booked 20 false None None None None 0 ]
    [ Waiting.mk 7 1 "online" 40 (Some 0) Waiting.waiting 1 None 1000 1;
      Waiting.mk 8 1 "online" 40 (Some 0) Waiting.waiting 2 None 1000 2 ].

(** One walk-in patient is waiting for doctor 1. *)
Definition oneWalkInWaiting : DB :=
  mkDB [] []
    [ Waiting.mk 7 1 "walk_in" 20 None Waiting.waiting 1 None 1000 0 ].

(** Two walk-in patients wait for doctor 1; the first entry expires at
    time 5, the second at time 100. *)
Definition twoWaiting : DB :=
  mkDB [] []
    [ Waiting.mk 7 1 "walk_in" 20 None Waiting.waiting 1 None 5 0;
      Waiting.mk 8 1 "walk_in" 20 None Waiting.waiting 2 None 100 1 ].

(** A token that was cancelled at time 0, 25 hours before its appointment,
    and left its slot. *)
Definition cancelledToken : DB :=
  mkDB [ Slot.mk 1 90000000 90900000 1 0 Slot.available 86400000 [] ]
       [ Token.mk 5 1 0 "online" 40 Token.cancelled 90000000 false None None
           None None 0 ]
       [].

(** A booked token whose appointment is at time 100. *)
Definition bookedToken : DB :=
  mkDB [ Slot.mk 1 100 200 2 1 Slot.available 100 [0%nat] ]
       [ Token.mk 5 1 0 "online" 40 Token.booked 100 false None None None
           None 10 ]
       [].

(** A full slot at date 10 followed by a free slot at date 20; its only
    occupant has score [score]. *)
Definition fullSlotAt10 : Slot.t := Slot.mk 1 10 20 1 1 Slot.full 10 [0%nat].
Definition fullThenFree (score : Z) : DB :=
  mkDB
    [ fullSlotAt10;
      Slot.mk 1 20 30 1 0 Slot.available 20 [] ]
    [ Token.mk 5 1 0 "online" score Token.booked 10 false None None None None 0 ]
    [].

(** Three patients wait for doctor 1 at positions 1, 2 and 3; the first
    entry expires at time 5. *)
Definition threeWaiting : DB :=
  mkDB [] []
    [ Waiting.mk 7 1 "walk_in" 20 None Waiting.waiting 1 None 5 0;
      Waiting.mk 8 1 "walk_in" 20 None Waiting.waiting 2 None 100 1;
      Waiting.mk 9 1 "online" 40 None Waiting.waiting 3 None 100 2 ].

(** The patient of the full slot at date 10 has been seen; a free slot
    follows at date 20. *)
Definition seenThenFree : DB :=
  mkDB
    [ fullSlotAt10;
      Slot.mk 1 20 30 1 0 Slot.available 20 [] ]
    [ Token.mk 5 1 0 "online" 40 Token.completed 10 false None None None
        (Some 12) 12 ]
    [].

End Examples.

(** * Properties *)

(** ** The stable sort *)

Section SortFacts.
Context {A : Type} (cmp : A -> A -> Z).

Lemma insert_perm (x : A) (l : list A) :
  Permutation (Js.insert cmp x l) (x :: l).
Proof.
  induction l as [|y l IH]; simpl; [reflexivity|].
  destruct (cmp x y >? 0); [|reflexivity].
  rewrite IH. apply perm_swap.
Qed.

Lemma sort_perm (l : list A) : Permutation (Js.sort cmp l) l.
Proof.
  induction l as [|x l IH]; simpl; [reflexivity|].
  rewrite insert_perm. now constructor.
Qed.

Lemma sort_In (l : list A) (x : A) : In x (Js.sort cmp l) <-> In x l.
Proof.
  split; apply Permutation_in; [|symmetry]; apply sort_perm.
Qed.

Lemma sort_nil_inv (l : list A) : Js.sort cmp l = [] -> l = [].
Proof.
  intros H. apply Permutation_nil. rewrite <- H. apply sort_perm.
Qed.

Hypothesis cmp_trans :
  forall a b c, cmp a b <= 0 -> cmp b c <= 0 -> cmp a c <= 0.
Hypothesis cmp_total : forall a b, cmp a b > 0 -> cmp b a <= 0.

Lemma insert_sorted (x : A) (l : list A) :
  StronglySorted (Js.notAfter cmp) l -> StronglySorted (Js.notAfter cmp) (Js.insert cmp x l).
Proof.
  induction l as [|y l IH]; intros Hs; simpl.
  - repeat constructor.
  - inversion Hs as [|? ? Hs' Hall]; subst.
    destruct (cmp x y >? 0) eqn:E.
    + constructor; [now apply IH|].
      apply List.Forall_forall. intros z Hz.
      apply (Permutation_in _ (insert_perm x l)) in Hz.
      destruct Hz as [<-|Hz].
      * apply cmp_total. lia.
      * rewrite List.Forall_forall in Hall. now apply Hall.
    + constructor; [assumption|].
      assert (Hxy : cmp x y <= 0) by lia.
      constructor; [exact Hxy|].
      rewrite List.Forall_forall in Hall |- *. intros z Hz.
      eapply cmp_trans; [exact Hxy|]. now apply Hall.
Qed.

Lemma sort_sorted (l : list A) : StronglySorted (Js.notAfter cmp) (Js.sort cmp l).
Proof.
  induction l as [|x l IH]; simpl; [constructor|]. now apply insert_sorted.
Qed.

Lemma sorted_last (l : list A) (z : A) :
  StronglySorted (Js.notAfter cmp) l -> last l = Some z ->
  forall x, In x l -> x = z \/ cmp x z <= 0.
Proof.
  induction l as [|y l IH]; intros Hs Hl x Hx; [destruct Hx|].
  inversion Hs as [|? ? Hs' Hall]; subst.
  destruct l as [|y' l'].
  - simpl in Hl. destruct Hx as [->|[]]. left. congruence.
  - change (last (y' :: l') = Some z) in Hl.
    destruct Hx as [->|Hx].
    + right. rewrite List.Forall_forall in Hall. apply Hall.
      apply list_elem_of_In. eapply last_Some_elem_of. exact Hl.
    + now apply IH.
Qed.

End SortFacts.

(** ** Priority scores *)

Local Arguments String.eqb : simpl never.

Ltac case_strings :=
  repeat match goal with
    | |- context [String.eqb ?a ?b] =>
        destruct (String.eqb_spec a b); subst; simpl; try discriminate
    | H : context [String.eqb ?a ?b] |- _ =>
        destruct (String.eqb_spec a b); subst; simpl in H; try discriminate
    end.

Lemma calculatePriorityScore_table :
  map Priority.calculatePriorityScore knownSources
  = [Js.Num 100; Js.Num 80; Js.Num 60; Js.Num 40; Js.Num 20].
Proof. reflexivity. Qed.

(** X28.  A source that is neither one of the five categories nor the name
    of a member of [Object.prototype] scores 0, strictly below [walk_in]. *)
Lemma calculatePriorityScore_unknown (source : string) :
  validSource source = false ->
  Js.inStrings source Js.objectPrototypeKeys = false ->
  Priority.calculatePriorityScore source = Js.Num 0
  /\ Js.lt 0 (Priority.calculatePriorityScore "walk_in") = true.
Proof.
  intros Hv Hp. split; [|reflexivity].
  unfold Priority.calculatePriorityScore, Js.get. rewrite Hp.
  unfold validSource, knownSources, Js.inStrings in Hv.
  simpl in Hv. simpl.
  case_strings; reflexivity.
Qed.

Lemma calculatePriorityScore_unknown_witness :
  Priority.calculatePriorityScore "referral" = Js.Num 0
  /\ Js.lt 0 (Priority.calculatePriorityScore "walk_in") = true.
Proof. apply calculatePriorityScore_unknown; reflexivity. Defined.

(** C10, violated.  [calculatePriorityScore] is a total function, but
    for a source string that names a member every object inherits from
    [Object.prototype], such as ["constructor"], the lookup
    [PRIORITY_LEVELS[source]] finds that member, which is truthy, so the
    result is the inherited function and not the score 0; every comparison
    of a number with it is false, so such a request does not rank below
    [walk_in]. *)
Theorem calculatePriorityScore_constructor :
  validSource "constructor" = false
  /\ Priority.calculatePriorityScore "constructor" = Js.Inherited "constructor"
  /\ Priority.calculatePriorityScore "constructor" <> Js.Num 0
  /\ Js.ge 20 (Priority.calculatePriorityScore "constructor") = false.
Proof. repeat split; try reflexivity. discriminate. Qed.

(** ** Queries and writes on the store *)

Lemma combine_seq_In {A : Type} (l : list A) (n i : nat) (x : A) :
  In (i, x) (combine (seq n (length l)) l)
  <-> (n <= i)%nat /\ l !! (i - n)%nat = Some x.
Proof.
  revert n. induction l as [|y l IH]; intros n; simpl.
  - split; [tauto|]. intros [_ H]. discriminate.
  - rewrite IH. split.
    + intros [H|[Hle Hl]].
      * injection H as -> ->. split; [lia|]. now rewrite Nat.sub_diag.
      * split; [lia|]. replace (i - n)%nat with (S (i - S n)) by lia.
        exact Hl.
    + intros [Hle Hl]. destruct (Nat.eq_dec n i) as [->|Hne].
      * left. rewrite Nat.sub_diag in Hl. simpl in Hl. congruence.
      * right. split; [lia|].
        replace (i - n)%nat with (S (i - S n)) in Hl by lia. exact Hl.
Qed.

Lemma enumerate_In {A : Type} (l : list A) (i : nat) (x : A) :
  In (i, x) (Mongo.enumerate l) <-> l !! i = Some x.
Proof.
  unfold Mongo.enumerate. rewrite combine_seq_In, Nat.sub_0_r.
  split; [tauto|]. split; [lia|assumption].
Qed.

Lemma find_In {A : Type} (q : A -> bool) (l : list A) (i : nat) (x : A) :
  In (i, x) (Mongo.find q l) <-> l !! i = Some x /\ q x = true.
Proof.
  unfold Mongo.find. rewrite filter_In, enumerate_In. reflexivity.
Qed.

Lemma enumerate_fst {A : Type} (l : list A) :
  map fst (Mongo.enumerate l) = seq 0 (length l).
Proof.
  unfold Mongo.enumerate. generalize 0%nat.
  induction l as [|x l IH]; intros n; simpl; [reflexivity|].
  now rewrite IH.
Qed.

Lemma NoDup_map_filter {A B : Type} (f : A -> B) (p : A -> bool) (l : list A) :
  List.NoDup (map f l) -> List.NoDup (map f (List.filter p l)).
Proof.
  induction l as [|x l IH]; simpl; intros H; [constructor|].
  inversion H as [|? ? Hx Hl]; subst.
  destruct (p x); simpl; [|now apply IH].
  constructor; [|now apply IH].
  intros Hin. apply Hx. apply in_map_iff in Hin as [y [Hy Hin]].
  apply in_map_iff. exists y. split; [assumption|].
  apply filter_In in Hin. tauto.
Qed.

Lemma find_NoDup {A : Type} (q : A -> bool) (l : list A) :
  List.NoDup (map fst (Mongo.find q l)).
Proof.
  unfold Mongo.find. apply NoDup_map_filter. rewrite enumerate_fst.
  apply List.seq_NoDup.
Qed.

Lemma findSorted_In {A : Type} (order : A -> A -> Z) (q : A -> bool)
    (l : list A) (i : nat) (x : A) :
  In (i, x) (Mongo.findSorted order q l) <-> l !! i = Some x /\ q x = true.
Proof. unfold Mongo.findSorted. now rewrite sort_In, find_In. Qed.

Lemma findSorted_NoDup {A : Type} (order : A -> A -> Z) (q : A -> bool)
    (l : list A) :
  List.NoDup (map fst (Mongo.findSorted order q l)).
Proof.
  unfold Mongo.findSorted.
  eapply Permutation_NoDup; [|apply (find_NoDup q l)].
  apply Permutation_map. symmetry. apply sort_perm.
Qed.

Lemma saveToken_slots now id tk db : slots (saveToken now id tk db) = slots db.
Proof.
  unfold saveToken. destruct (tokens db !! id); [|reflexivity].
  now destruct (decide _).
Qed.

Lemma saveToken_waitings now id tk db :
  waitings (saveToken now id tk db) = waitings db.
Proof.
  unfold saveToken. destruct (tokens db !! id); [|reflexivity].
  now destruct (decide _).
Qed.

Lemma saveToken_length now id tk db :
  length (tokens (saveToken now id tk db)) = length (tokens db).
Proof.
  unfold saveToken. destruct (tokens db !! id); [|reflexivity].
  destruct (decide _); [reflexivity|]. simpl. apply length_insert.
Qed.

Lemma saveToken_other now id tk db j :
  j <> id -> tokens (saveToken now id tk db) !! j = tokens db !! j.
Proof.
  intros Hne. unfold saveToken. destruct (tokens db !! id); [|reflexivity].
  destruct (decide _); [reflexivity|]. simpl.
  now apply list_lookup_insert_ne.
Qed.

(** The stored document after [save()]: the assigned fields, possibly with
    a new [updatedAt]. *)
Lemma saveToken_same now id tk db stored :
  tokens db !! id = Some stored ->
  exists tk', tokens (saveToken now id tk db) !! id = Some tk'
              /\ (tk' = tk \/ tk' = Token.stamp now tk)
              /\ (stored <> tk -> tk' = Token.stamp now tk).
Proof.
  intros H. unfold saveToken. rewrite H.
  destruct (decide (stored = tk)) as [->|Hne].
  - exists tk. split; [assumption|]. split; [now left|congruence].
  - exists (Token.stamp now tk). simpl. split; [|split; [now right|trivial]].
    apply list_lookup_insert_eq. eapply lookup_lt_Some. exact H.
Qed.

(** ** Capacity override *)

Lemma ceilDiv_three_halves (c : Z) :
  let n := EmergencyService.ceilDiv (3 * c) 2 in
  2 * n - 1 <= 3 * c <= 2 * n.
Proof. unfold EmergencyService.ceilDiv. simpl. Z.div_mod_to_equations. lia. Qed.

Lemma ceilDiv_five_quarters (c : Z) :
  let n := EmergencyService.ceilDiv (5 * c) 4 in
  4 * n - 3 <= 5 * c <= 4 * n.
Proof. unfold EmergencyService.ceilDiv. simpl. Z.div_mod_to_equations. lia. Qed.

Lemma roundTo53Bits_small (n : Z) :
  0 <= n < 2 ^ 53 -> Js.roundTo53Bits n = n.
Proof.
  intros Hn. unfold Js.roundTo53Bits.
  destruct (Z.leb_spec (Z.log2 (Z.abs n) - 52) 0) as [_|Hbig]; [reflexivity|].
  exfalso. rewrite Z.abs_eq in Hbig by lia.
  destruct (Z.eq_dec n 0) as [->|Hnz]; [simpl in Hbig; lia|].
  assert (Hlog : Z.log2 n < 53) by (apply Z.log2_lt_pow2; lia).
  lia.
Qed.

(** C9, against the claim as stated: [overrideSlotRules] does not read the
    occupancy.  After two emergency fast-tracks into a full slot of
    capacity 1 the occupancy is 3, and the override for ['critical'] sets
    the capacity to 2. *)
Lemma overrideSlotRules_below_occupancy :
  exists slot',
    slots
      (fst (EmergencyService.overrideSlotRules 0 "critical"
              (fst (EmergencyService.fastTrackEmergency 50 8 1
                      (fst (EmergencyService.fastTrackEmergency 50 7 1
                              Examples.oneFullSlot)))))) !! 0%nat
    = Some slot'
    /\ Slot.maxCapacity slot' = 2
    /\ Slot.currentOccupancy slot' = 3
    /\ Slot.maxCapacity slot' < Slot.currentOccupancy slot'.
Proof. eexists. repeat split; reflexivity. Qed.

(** C9, as the code has it.  On a slot whose capacity is a non-negative
    integer below [2^53 / 5], [overrideSlotRules] with level ['critical']
    sets [maxCapacity] to 1.5 times its value and with level ['high'] to
    1.25 times its value, rounded up to an integer, and with any other
    level leaves it as it is; the capacity does not go down, the slot's
    occupancy and admitted tokens are untouched, and no other slot, no
    token and no waiting entry changes.  The occupancy is not read: the new
    capacity is at least the occupancy when the old one was. *)
Theorem overrideSlotRules_raises (slotId : nat) (emergencyLevel : string)
    (db : DB) (slot : Slot.t) :
  slots db !! slotId = Some slot ->
  0 <= Slot.maxCapacity slot ->
  5 * Slot.maxCapacity slot < 2 ^ 53 ->
  let db' := fst (EmergencyService.overrideSlotRules slotId emergencyLevel db) in
  exists slot',
    slots db' !! slotId = Some slot'
    /\ snd (EmergencyService.overrideSlotRules slotId emergencyLevel db)
       = Ok (Slot.maxCapacity slot, Slot.maxCapacity slot')
    /\ (emergencyLevel = "critical" ->
        2 * Slot.maxCapacity slot' - 1 <= 3 * Slot.maxCapacity slot
          <= 2 * Slot.maxCapacity slot')
    /\ (emergencyLevel = "high" ->
        4 * Slot.maxCapacity slot' - 3 <= 5 * Slot.maxCapacity slot
          <= 4 * Slot.maxCapacity slot')
    /\ (emergencyLevel <> "critical" -> emergencyLevel <> "high" ->
        Slot.maxCapacity slot' = Slot.maxCapacity slot)
    /\ Slot.maxCapacity slot <= Slot.maxCapacity slot'
    /\ Slot.currentOccupancy slot' = Slot.currentOccupancy slot
    /\ Slot.allocatedTokens slot' = Slot.allocatedTokens slot
    /\ (Slot.currentOccupancy slot <= Slot.maxCapacity slot ->
        Slot.currentOccupancy slot' <= Slot.maxCapacity slot')
    /\ (forall other, other <> slotId -> slots db' !! other = slots db !! other)
    /\ length (slots db') = length (slots db)
    /\ tokens db' = tokens db
    /\ waitings db' = waitings db.
Proof.
  intros Hl Hcap Hsafe db'. subst db'.
  unfold EmergencyService.overrideSlotRules. rewrite Hl. simpl.
  eexists. split.
  { apply list_lookup_insert_eq. eapply lookup_lt_Some. exact Hl. }
  pose proof (ceilDiv_three_halves (Slot.maxCapacity slot)) as H32.
  pose proof (ceilDiv_five_quarters (Slot.maxCapacity slot)) as H54.
  simpl in H32, H54.
  assert (Hcases :
    EmergencyService.overriddenCapacity emergencyLevel (Slot.maxCapacity slot)
    = if String.eqb emergencyLevel "critical"
      then EmergencyService.ceilDiv (3 * Slot.maxCapacity slot) 2
      else if String.eqb emergencyLevel "high"
      then EmergencyService.ceilDiv (5 * Slot.maxCapacity slot) 4
      else Slot.maxCapacity slot).
  { unfold EmergencyService.overriddenCapacity.
    rewrite !roundTo53Bits_small by lia. reflexivity. }
  rewrite Hcases.
  destruct (String.eqb_spec emergencyLevel "critical") as [Hc|Hc].
  - subst emergencyLevel.
    split; [reflexivity|]. split; [intros _; exact H32|].
    split; [intros [=]|]. split; [congruence|].
    split; [simpl; lia|]. split; [reflexivity|]. split; [reflexivity|].
    split; [simpl; lia|].
    split; [intros other Hne; now apply list_lookup_insert_ne|].
    split; [apply length_insert|]. split; reflexivity.
  - destruct (String.eqb_spec emergencyLevel "high") as [Hh|Hh].
    + subst emergencyLevel.
      split; [reflexivity|]. split; [intros [=]|].
      split; [intros _; exact H54|]. split; [congruence|].
      split; [simpl; lia|]. split; [reflexivity|]. split; [reflexivity|].
      split; [simpl; lia|].
      split; [intros other Hne; now apply list_lookup_insert_ne|].
      split; [apply length_insert|]. split; reflexivity.
    + split; [reflexivity|]. split; [congruence|]. split; [congruence|].
      split; [reflexivity|].
      split; [simpl; lia|]. split; [reflexivity|]. split; [reflexivity|].
      split; [simpl; lia|].
      split; [intros other Hne; now apply list_lookup_insert_ne|].
      split; [apply length_insert|]. split; reflexivity.
Qed.

Lemma overrideSlotRules_raises_witness :
  exists slot',
    slots (fst (EmergencyService.overrideSlotRules 0 "critical"
                  Examples.oneFullSlot)) !! 0%nat = Some slot'
    /\ Slot.maxCapacity slot' = 2.
Proof.
  destruct (overrideSlotRules_raises 0 "critical" Examples.oneFullSlot
              Examples.fullSlot eq_refl ltac:(simpl; lia) eq_refl)
    as [slot' [H1 [H2 _]]].
  exists slot'. split; [exact H1|].
  simpl in H2. injection H2 as H2. symmetry. exact H2.
Defined.

(** ** The slot searches *)

(** Every query that holds the condition on ['$maxCapacity'] is rejected
    when it is run, whatever the store holds. *)
Lemma findAvailableSlot_throws db doctorId preferredTime source :
  exists msg,
    AllocationService.findAvailableSlot db doctorId preferredTime source
    = Err msg.
Proof. eexists. reflexivity. Qed.

Lemma findNextAvailableSlotAfter_throws db date doctorId :
  exists msg,
    AllocationService.findNextAvailableSlotAfter db date doctorId = Err msg.
Proof. eexists. reflexivity. Qed.

(** Hence no displacement is carried out: the call answers [false] and
    has written nothing. *)
Lemma reallocate_never now db slot priority doctorId :
  AllocationService.reallocateLowerPriorityToken now db slot priority doctorId
  = (db, snd slot, false).
Proof.
  destruct slot as [sid s].
  unfold AllocationService.reallocateLowerPriorityToken.
  destruct (last _) as [[lowId low]|]; [|reflexivity].
  destruct (Js.ge _ _); [reflexivity|].
  destruct (findNextAvailableSlotAfter_throws db (Slot.date s) doctorId)
    as [msg ->].
  reflexivity.
Qed.

(** And no waiting entry is promoted: the first round of the loop ends in
    the [catch]. *)
Lemma promote_never now doctorId waiting db :
  AllocationService.promote now doctorId waiting db = None.
Proof.
  destruct waiting as [wid w]. unfold AllocationService.promote.
  destruct (findAvailableSlot_throws db doctorId
              (default now (Waiting.preferredDate w)) (Waiting.source w))
    as [msg ->].
  reflexivity.
Qed.

Lemma allocateFromWaitingQueue_unchanged now doctorId db :
  AllocationService.allocateFromWaitingQueue now doctorId db = db.
Proof.
  unfold AllocationService.allocateFromWaitingQueue.
  destruct (AllocationService.waitingPatients db doctorId) as [|w rest];
    simpl; [reflexivity|].
  now rewrite promote_never.
Qed.

(** ** The waiting queue: enqueueing *)

Lemma addToWaitingQueue_position now db patientId doctorId source priorityScore
    preferredDate db' wid pos :
  AllocationService.addToWaitingQueue now db patientId doctorId source
    priorityScore preferredDate = (db', Ok (wid, pos)) ->
  pos = Mongo.countDocuments (AllocationService.isWaitingFor doctorId)
          (waitings db) + 1
  /\ exists w, waitings db' !! wid = Some w
               /\ Waiting.queuePosition w = pos
               /\ Waiting.status w = Waiting.waiting
               /\ Waiting.doctorId w = doctorId
               /\ priorityScore = Js.Num (Waiting.priorityScore w).
Proof.
  unfold AllocationService.addToWaitingQueue, validatedScore.
  destruct (validSource source); [|discriminate].
  destruct priorityScore as [n|k]; [|discriminate].
  unfold insertWaiting. intros [= <- <- <-]. split; [reflexivity|].
  eexists. split.
  { simpl. apply list_lookup_middle. reflexivity. }
  simpl. repeat split; reflexivity.
Qed.

(** C4, counterexample.  With one walk-in entry (score 20) waiting for the
    doctor, an emergency request (score 100) that is queued at time 10
    receives position 2, whereas one plus the number of entries with a
    higher score, or an equal score and earlier creation, is 1. *)
Lemma addToWaitingQueue_ignores_priority_band :
  snd (AllocationService.addToWaitingQueue 10 Examples.oneWalkInWaiting 9 1
         "emergency" (Priority.calculatePriorityScore "emergency") None)
  = Ok (1%nat, 2)
  /\ bandPosition Examples.oneWalkInWaiting 1 100 10 = 1.
Proof. split; reflexivity. Qed.

(** C4, as the code has it.  A request that is placed in a doctor's
    waiting queue, by [addToWaitingQueue] directly or by [allocateToken]
    when admission fails, receives the position one plus the number of
    that doctor's entries in status [waiting], whatever their scores: it is
    appended after all of them. *)
Theorem addToWaitingQueue_appends (now : Z) (db db' : DB) (wid : nat) (pos : Z) :
  (forall patientId doctorId source priorityScore preferredDate,
     AllocationService.addToWaitingQueue now db patientId doctorId source
       priorityScore preferredDate = (db', Ok (wid, pos)) ->
     pos = Z.of_nat (length (Mongo.find (AllocationService.isWaitingFor doctorId)
                               (waitings db))) + 1
     /\ Waiting.queuePosition <$> waitings db' !! wid = Some pos)
  /\ (forall tokenData,
        AllocationService.allocateToken now tokenData db
        = (db', Ok (AllocationService.Queued wid pos)) ->
        pos = Z.of_nat (length (Mongo.find
                                  (AllocationService.isWaitingFor
                                     (TokenData.doctorId tokenData))
                                  (waitings db))) + 1
        /\ Waiting.queuePosition <$> waitings db' !! wid = Some pos).
Proof.
  assert (Hadd : forall patientId doctorId source priorityScore preferredDate,
     AllocationService.addToWaitingQueue now db patientId doctorId source
       priorityScore preferredDate = (db', Ok (wid, pos)) ->
     pos = Z.of_nat (length (Mongo.find (AllocationService.isWaitingFor doctorId)
                               (waitings db))) + 1
     /\ Waiting.queuePosition <$> waitings db' !! wid = Some pos).
  { intros patientId doctorId source priorityScore preferredDate H.
    apply addToWaitingQueue_position in H as [Hpos [w [Hw [Hq _]]]].
    split; [exact Hpos|]. rewrite Hw. simpl. now rewrite Hq. }
  split; [exact Hadd|].
  intros [patientId doctorId source preferredSlotId appointmentTime].
  unfold AllocationService.allocateToken. simpl.
  intros H.
  repeat case_match; simplify_eq; eapply Hadd; eassumption.
Qed.

Lemma addToWaitingQueue_appends_witness :
  2 = Z.of_nat (length (Mongo.find (AllocationService.isWaitingFor 1)
                          (waitings Examples.oneWalkInWaiting))) + 1.
Proof.
  destruct (addToWaitingQueue_appends 10 Examples.oneWalkInWaiting
              (fst (AllocationService.addToWaitingQueue 10
                      Examples.oneWalkInWaiting 9 1 "emergency"
                      (Js.Num 100) None)) 1 2) as [H _].
  destruct (H 9%nat 1%nat "emergency" (Js.Num 100) None eq_refl) as [Hp _].
  exact Hp.
Defined.

(** ** The waiting queue: expiry *)

Lemma not_dense_2 : ~ densePositions [2].
Proof.
  unfold densePositions. simpl. intros H.
  apply Permutation_length_1 in H. discriminate.
Qed.

(** C5, violated.  Two entries wait for doctor 1 at positions 1 and
    2, a dense numbering.  At time 10 the first one has expired;
    [cleanExpiredEntries] marks it [expired] and renumbers nothing, so the
    only entry still waiting keeps position 2 and the positions of the
    waiting entries are no longer [1..N]. *)
Theorem cleanExpiredEntries_leaves_gap :
  let db' := fst (WaitingQueueService.cleanExpiredEntries 10 Examples.twoWaiting) in
  densePositions (waitingPositions Examples.twoWaiting 1)
  /\ snd (WaitingQueueService.cleanExpiredEntries 10 Examples.twoWaiting) = 1
  /\ waitingPositions db' 1 = [2]
  /\ ~ densePositions (waitingPositions db' 1).
Proof.
  split; [unfold densePositions; simpl; reflexivity|].
  split; [reflexivity|]. split; [reflexivity|].
  exact not_dense_2.
Qed.

(** ** Lifecycle status *)

Lemma isTerminal_not_active (tk : Token.t) :
  Token.isTerminal tk = negb (Token.isActive tk).
Proof. unfold Token.isTerminal, Token.isActive. now destruct (Token.status tk). Qed.

Lemma releaseWith_tokens reopen tokenId sid db :
  tokens (AllocationService.releaseWith reopen tokenId sid db) = tokens db.
Proof.
  unfold AllocationService.releaseWith. now destruct (slots db !! sid).
Qed.

Lemma releaseWith_waitings reopen tokenId sid db :
  waitings (AllocationService.releaseWith reopen tokenId sid db) = waitings db.
Proof.
  unfold AllocationService.releaseWith. now destruct (slots db !! sid).
Qed.

Lemma stamp_status now tk : Token.status (Token.stamp now tk) = Token.status tk.
Proof. reflexivity. Qed.

Lemma saveToken_status now id tk db stored :
  tokens db !! id = Some stored ->
  Token.status <$> tokens (saveToken now id tk db) !! id
  = Some (Token.status tk).
Proof.
  intros H. destruct (saveToken_same now id tk db stored H)
    as [tk' [-> [[-> | ->] _]]]; reflexivity.
Qed.

(** C6, counterexample.  A token in the terminal state [cancelled] is
    moved back to [booked] by [updateTokenStatus]. *)
Lemma updateTokenStatus_resurrects :
  Token.status <$> tokens Examples.cancelledToken !! 0%nat
  = Some Token.cancelled
  /\ snd (Controllers.updateTokenStatus 5 0 "booked" Examples.cancelledToken)
     = Ok (Token.cancelled, Token.booked)
  /\ Token.status
       <$> tokens (fst (Controllers.updateTokenStatus 5 0 "booked"
                          Examples.cancelledToken)) !! 0%nat
     = Some Token.booked.
Proof. repeat split; reflexivity. Qed.

(** C6, as the code has it.  The cancellation operations do not change a
    token that is already [cancelled], [no_show] or [completed]:
    [handleCancellation] and the controller's [cancelToken] fail on it and
    leave the store as it was.  [updateTokenStatus], on the other hand,
    sets whichever of the five valid statuses it is given, whatever the
    current status is. *)
Theorem terminal_status_kept_by_cancellation (now : Z) (tokenId : nat)
    (db : DB) (token : Token.t) :
  tokens db !! tokenId = Some token ->
  (Token.isTerminal token = true ->
   forall reason,
     (exists msg, AllocationService.handleCancellation now tokenId reason db
                  = (db, Err msg))
     /\ (exists msg, Controllers.cancelToken now tokenId reason db
                     = (db, Err msg)))
  /\ (forall status newStatus,
        Token.statusOfString status = Some newStatus ->
        snd (Controllers.updateTokenStatus now tokenId status db)
        = Ok (Token.status token, newStatus)
        /\ Token.status
             <$> tokens (fst (Controllers.updateTokenStatus now tokenId status
                                db)) !! tokenId
           = Some newStatus).
Proof.
  intros Hl. split.
  - intros Ht reason. split.
    + unfold AllocationService.handleCancellation. rewrite Hl, Ht. eauto.
    + unfold Controllers.cancelToken, CancellationService.requestCancellation.
      rewrite Hl, Ht. eauto.
  - intros status newStatus Hs. unfold Controllers.updateTokenStatus.
    rewrite Hs, Hl. simpl. split; [reflexivity|].
    erewrite saveToken_status by exact Hl. now destruct newStatus.
Qed.

Lemma terminal_status_kept_by_cancellation_witness :
  (exists msg, AllocationService.handleCancellation 5 0 None
                 Examples.cancelledToken = (Examples.cancelledToken, Err msg))
  /\ Token.status
       <$> tokens (fst (Controllers.updateTokenStatus 5 0 "checked_in"
                          Examples.cancelledToken)) !! 0%nat
     = Some Token.checked_in.
Proof.
  destruct (terminal_status_kept_by_cancellation 5 0 Examples.cancelledToken
              _ eq_refl) as [H1 H2].
  split.
  - exact (proj1 (H1 eq_refl None)).
  - exact (proj2 (H2 "checked_in" Token.checked_in eq_refl)).
Defined.

(** ** Cancellation *)

(** C7, counterexample.  [handleCancellation] at time 200 cancels a booked
    token whose appointment started at time 100. *)
Lemma handleCancellation_after_start :
  Token.appointmentTime <$> tokens Examples.bookedToken !! 0%nat = Some 100
  /\ snd (AllocationService.handleCancellation 200 0 None Examples.bookedToken)
     = Ok tt
  /\ Token.status
       <$> tokens (fst (AllocationService.handleCancellation 200 0 None
                          Examples.bookedToken)) !! 0%nat
     = Some Token.cancelled.
Proof. repeat split; reflexivity. Qed.

Lemma processCancellation_found now tokenId reason db token :
  tokens db !! tokenId = Some token ->
  exists db1 token1,
    CancellationService.processCancellation now tokenId reason db = (db1, Ok tt)
    /\ tokens db1 !! tokenId = Some token1.
Proof.
  intros Hl. unfold CancellationService.processCancellation. rewrite Hl.
  destruct (saveToken_same now tokenId (Token.setCancelled reason token) db
              token Hl) as [tk' [Hs _]].
  eexists. exists tk'. split; [reflexivity|].
  now rewrite releaseWith_tokens.
Qed.

(** C7, as the code has it.  Through the controller ([cancelToken]: the check
    [requestCancellation], then [processCancellation]) a cancellation
    succeeds exactly when the token exists, is [booked] or [checked_in],
    and its appointment time has not passed; otherwise it is rejected with
    an error and the store is unchanged.  [handleCancellation] rejects a
    missing token and a token that is [cancelled], [completed] or
    [no_show], leaving the store unchanged, and succeeds on every [booked]
    or [checked_in] token: it does not look at the appointment time. *)
Theorem cancellation_guards (now : Z) (tokenId : nat) (reason : option string)
    (db : DB) :
  (isOk (snd (Controllers.cancelToken now tokenId reason db)) = true
   <-> exists token, tokens db !! tokenId = Some token
                     /\ Token.isActive token = true
                     /\ now <= Token.appointmentTime token)
  /\ (isOk (snd (Controllers.cancelToken now tokenId reason db)) = false ->
      fst (Controllers.cancelToken now tokenId reason db) = db)
  /\ (isOk (snd (AllocationService.handleCancellation now tokenId reason db))
      = true
      <-> exists token, tokens db !! tokenId = Some token
                        /\ Token.isActive token = true)
  /\ (isOk (snd (AllocationService.handleCancellation now tokenId reason db))
      = false ->
      fst (AllocationService.handleCancellation now tokenId reason db) = db).
Proof.
  unfold Controllers.cancelToken, CancellationService.requestCancellation,
    AllocationService.handleCancellation.
  destruct (tokens db !! tokenId) as [token|] eqn:Hl.
  2:{ simpl. repeat split; try discriminate; try reflexivity;
        intros [token [H _]]; discriminate. }
  rewrite isTerminal_not_active.
  destruct (Token.isActive token) eqn:Ha; simpl.
  2:{ repeat split; try discriminate; try reflexivity;
        intros [token' [[= <-] Ha']]; destruct_and?; congruence. }
  assert (Hservice :
    (true = true <-> exists token0, Some token = Some token0
                                    /\ Token.isActive token0 = true)).
  { split; [intros _; eauto|reflexivity]. }
  destruct (Z.ltb_spec (Token.appointmentTime token - now) 0) as [Hlt|Hge].
  - simpl. repeat split; try discriminate; try reflexivity;
      try (apply Hservice; reflexivity).
    intros [token' [[= <-] [_ H]]]. lia.
  - destruct (processCancellation_found now tokenId reason db token Hl)
      as [db1 [token1 [-> Hl1]]].
    rewrite Hl1. simpl. repeat split; try discriminate; try reflexivity;
      try (apply Hservice; reflexivity).
    intros _. exists token. repeat split; [assumption|lia].
Qed.

Lemma cancellation_guards_witness :
  isOk (snd (Controllers.cancelToken 50 0 None Examples.bookedToken)) = true
  /\ fst (Controllers.cancelToken 200 0 None Examples.bookedToken)
     = Examples.bookedToken.
Proof.
  split.
  - apply (proj1 (cancellation_guards 50 0 None Examples.bookedToken)).
    eexists. split; [reflexivity|]. split; [reflexivity|]. simpl. lia.
  - apply (proj1 (proj2 (cancellation_guards 200 0 None Examples.bookedToken))).
    reflexivity.
Defined.

(** ** The slot invariant *)

(** C1, violated.  Each store below satisfies
    [currentOccupancy = |allocatedTokens| <= maxCapacity] in every slot, and
    a public operation that is not a capacity override breaks it.
    - [fastTrackEmergency] on a full slot with no later slot to move an
      occupant to admits the emergency token all the same: occupancy 2,
      capacity 1.
    - [handleNoShow] called twice on one token decrements the occupancy
      twice: occupancy -1 with no admitted token. *)
Theorem slot_invariant_broken :
  (allSlotsInvariant Examples.oneFullSlot = true
   /\ snd (EmergencyService.fastTrackEmergency 50 9 1 Examples.oneFullSlot)
      = Ok 1%nat
   /\ (fun s => (Slot.currentOccupancy s, Slot.maxCapacity s,
                 Slot.allocatedTokens s))
        <$> slots (fst (EmergencyService.fastTrackEmergency 50 9 1
                          Examples.oneFullSlot)) !! 0%nat
      = Some (2, 1, [0%nat; 1%nat]))
  /\ (let db1 := fst (AllocationService.handleNoShow 50 0 Examples.oneFullSlot) in
      allSlotsInvariant db1 = true
      /\ snd (AllocationService.handleNoShow 60 0 db1) = Ok tt
      /\ (fun s => (Slot.currentOccupancy s, Slot.allocatedTokens s))
           <$> slots (fst (AllocationService.handleNoShow 60 0 db1)) !! 0%nat
         = Some (-1, [])).
Proof. repeat split; reflexivity. Qed.

(** ** Displacement *)

Lemma relocate_slotId nid time original tk :
  Token.slotId (Token.relocate nid time original tk) = nid.
Proof. reflexivity. Qed.


(** ** Promotion from the waiting queue *)

Lemma byPriorityThenPosition_ranks (a b : nat * Waiting.t) :
  byPriorityThenPosition (snd a) (snd b) <= 0 <-> ranksBefore a b.
Proof.
  unfold byPriorityThenPosition, ranksBefore.
  destruct (Z.eqb_spec (Waiting.priorityScore (snd a))
              (Waiting.priorityScore (snd b))); lia.
Qed.

Lemma StronglySorted_weaken {A : Type} (R S : A -> A -> Prop) (l : list A) :
  (forall a b, R a b -> S a b) -> StronglySorted R l -> StronglySorted S l.
Proof.
  intros HRS. induction 1 as [|x l Hs IH Hall]; constructor; [exact IH|].
  eapply List.Forall_impl; [|exact Hall]. intros b. apply HRS.
Qed.

(** The entries [allocateFromWaitingQueue] walks through are exactly the
    doctor's entries in status [waiting], each once, in rank order. *)
Lemma waitingPatients_ranked (db : DB) (doctorId : nat) :
  StronglySorted ranksBefore (AllocationService.waitingPatients db doctorId)
  /\ List.NoDup (map fst (AllocationService.waitingPatients db doctorId))
  /\ forall wid w,
       In (wid, w) (AllocationService.waitingPatients db doctorId)
       <-> waitings db !! wid = Some w
           /\ AllocationService.isWaitingFor doctorId w = true.
Proof.
  unfold AllocationService.waitingPatients. split; [|split].
  - unfold Mongo.findSorted.
    eapply StronglySorted_weaken;
      [|apply sort_sorted with
          (cmp := fun a b : nat * Waiting.t =>
                    byPriorityThenPosition (snd a) (snd b))].
    + intros a b. apply byPriorityThenPosition_ranks.
    + intros a b c. unfold byPriorityThenPosition.
      repeat match goal with
        | |- context [?x =? ?y] => destruct (Z.eqb_spec x y)
        end; lia.
    + intros a b. unfold byPriorityThenPosition.
      repeat match goal with
        | |- context [?x =? ?y] => destruct (Z.eqb_spec x y)
        end; lia.
  - apply findSorted_NoDup.
  - intros wid w. apply findSorted_In.
Qed.

Lemma updateWaiting_status_other id f db wid :
  wid <> id ->
  waitingStatusOf (updateWaiting id f db) wid = waitingStatusOf db wid.
Proof.
  intros Hne. unfold waitingStatusOf, updateWaiting. simpl.
  now rewrite list_lookup_alter_ne.
Qed.

Lemma updateWaiting_status_kept id f db wid :
  (forall w, Waiting.status (f w) = Waiting.status w) ->
  waitingStatusOf (updateWaiting id f db) wid = waitingStatusOf db wid.
Proof.
  intros Hf. destruct (Nat.eq_dec wid id) as [->|Hne];
    [|now apply updateWaiting_status_other].
  unfold waitingStatusOf, updateWaiting. simpl.
  rewrite list_lookup_alter_eq. destruct (waitings db !! id); simpl;
    [now rewrite Hf|reflexivity].
Qed.

Lemma renumber_status i docs db wid :
  waitingStatusOf (AllocationService.renumber i docs db) wid
  = waitingStatusOf db wid.
Proof.
  revert i db. induction docs as [|[id w] docs IH]; intros i db; simpl;
    [reflexivity|].
  rewrite IH. now apply updateWaiting_status_kept.
Qed.

Lemma renumber_tokens i docs db :
  tokens (AllocationService.renumber i docs db) = tokens db
  /\ slots (AllocationService.renumber i docs db) = slots db.
Proof.
  revert i db. induction docs as [|[id w] docs IH]; intros i db; simpl;
    [tauto|].
  destruct (IH (i + 1) (updateWaiting id (Waiting.setQueuePosition (i + 1)) db))
    as [-> ->]. tauto.
Qed.

Local Arguments AllocationService.promote : simpl never.

(** C3, violated.  [handleCancellation] and [handleNoShow] release the
    token's place and then run [allocateFromWaitingQueue] for the token's
    doctor.  The run lists the doctor's waiting entries in rank order
    (higher score first, ties by lower queue position) and asks
    [findAvailableSlot] for a slot for the first of them; that search holds
    the condition on ['$maxCapacity'] and throws, the [catch] around the
    loop logs the error and the run is over: nobody is promoted, whatever
    the store holds.  Two slots of capacity 1 are full and two online
    patients wait at positions 1 and 2.  When the token of the second slot
    is cancelled at time 5, or marked as a no-show, that slot is stored
    with occupancy 0 and status [available], no token is created, and both
    patients are still waiting at positions 1 and 2. *)
Theorem promotion_never_happens :
  (forall now doctorId db,
     StronglySorted ranksBefore (AllocationService.waitingPatients db doctorId)
     /\ AllocationService.allocateFromWaitingQueue now doctorId db = db)
  /\ (map fst (AllocationService.waitingPatients Examples.twoFullSlots 1)
      = [0%nat; 1%nat]
      /\ snd (AllocationService.handleCancellation 5 1 None
                Examples.twoFullSlots) = Ok tt
      /\ (fun s => (Slot.currentOccupancy s, Slot.maxCapacity s,
                    Slot.status s, Slot.allocatedTokens s))
           <$> slots (fst (AllocationService.handleCancellation 5 1 None
                             Examples.twoFullSlots)) !! 1%nat
         = Some (0, 1, Slot.available, [])
      /\ length (tokens (fst (AllocationService.handleCancellation 5 1 None
                                Examples.twoFullSlots))) = 2%nat
      /\ waitings (fst (AllocationService.handleCancellation 5 1 None
                          Examples.twoFullSlots))
         = waitings Examples.twoFullSlots
      /\ map (fun w => (Waiting.status w, Waiting.queuePosition w))
           (waitings Examples.twoFullSlots)
         = [(Waiting.waiting, 1); (Waiting.waiting, 2)])
  /\ (snd (AllocationService.handleNoShow 5 1 Examples.twoFullSlots) = Ok tt
      /\ (fun s => (Slot.currentOccupancy s, Slot.maxCapacity s,
                    Slot.status s, Slot.allocatedTokens s))
           <$> slots (fst (AllocationService.handleNoShow 5 1
                             Examples.twoFullSlots)) !! 1%nat
         = Some (0, 1, Slot.available, [])
      /\ length (tokens (fst (AllocationService.handleNoShow 5 1
                                Examples.twoFullSlots))) = 2%nat
      /\ waitings (fst (AllocationService.handleNoShow 5 1
                          Examples.twoFullSlots))
         = waitings Examples.twoFullSlots).
Proof.
  split.
  { intros now doctorId db. split.
    - apply waitingPatients_ranked.
    - apply allocateFromWaitingQueue_unchanged. }
  split; repeat split; reflexivity.
Qed.

(** ** Refunds *)

Lemma cancelled_token_saved now tokenId reason db token :
  tokens db !! tokenId = Some token ->
  Token.isActive token = true ->
  tokens (saveToken now tokenId (Token.setCancelled reason token) db) !! tokenId
  = Some (Token.stamp now (Token.setCancelled reason token)).
Proof.
  intros Hl Ha.
  destruct (saveToken_same now tokenId (Token.setCancelled reason token) db
              token Hl) as [tk' [-> [_ Hne]]].
  f_equal. apply Hne. intros Heq.
  unfold Token.isActive in Ha. rewrite Heq in Ha. discriminate.
Qed.

Lemma allocateFromWaitingQueue_keeps_token now doctorId db tokenId token :
  tokens db !! tokenId = Some token ->
  tokens (AllocationService.allocateFromWaitingQueue now doctorId db) !! tokenId
  = Some token.
Proof.
  intros Hl. now rewrite allocateFromWaitingQueue_unchanged.
Qed.

(** C8.  The refund percentage is a function of the time between the
    cancellation and the appointment alone: at least 24 hours gives 100, at
    least 12 hours 75, at least 6 hours 50, anything less 0.
    [requestRefund] takes that time from the cancelled token
    ([appointmentTime - updatedAt]), and after a cancellation made at time
    [now], by [handleCancellation] or by the controller's [cancelToken], it
    is [appointmentTime - now].  Whatever it answers, [requestRefund]
    leaves every slot, token and waiting entry as it was. *)
Theorem requestRefund_tier (tokenId : nat) (db : DB) :
  fst (CancellationService.requestRefund tokenId db) = db
  /\ (forall token,
        tokens db !! tokenId = Some token ->
        Token.status token = Token.cancelled ->
        let remaining := Token.appointmentTime token - Token.updatedAt token in
        exists pct,
          snd (CancellationService.requestRefund tokenId db) = Ok pct
          /\ pct = CancellationService.refundPercentage remaining
          /\ (24 * 3600000 <= remaining -> pct = 100)
          /\ (12 * 3600000 <= remaining < 24 * 3600000 -> pct = 75)
          /\ (6 * 3600000 <= remaining < 12 * 3600000 -> pct = 50)
          /\ (remaining < 6 * 3600000 -> pct = 0))
  /\ (forall now reason token,
        tokens db !! tokenId = Some token ->
        Token.isActive token = true ->
        snd (CancellationService.requestRefund tokenId
               (fst (AllocationService.handleCancellation now tokenId reason db)))
        = Ok (CancellationService.refundPercentage
                (Token.appointmentTime token - now))
        /\ (now <= Token.appointmentTime token ->
            snd (CancellationService.requestRefund tokenId
                   (fst (Controllers.cancelToken now tokenId reason db)))
            = Ok (CancellationService.refundPercentage
                    (Token.appointmentTime token - now)))).
Proof.
  split; [|split].
  - unfold CancellationService.requestRefund.
    destruct (tokens db !! tokenId) as [token|]; [|reflexivity].
    now destruct (Token.status token).
  - intros token Hl Hs. cbv zeta.
    unfold CancellationService.requestRefund. rewrite Hl, Hs. simpl.
    eexists. split; [reflexivity|]. split; [reflexivity|].
    unfold CancellationService.refundPercentage, CancellationService.msPerHour.
    repeat split; intros H;
      repeat match goal with
        | |- context [?a >=? ?b] => destruct (Z.geb_spec a b); try lia
        end.
  - intros now reason token Hl Ha.
    pose proof (cancelled_token_saved now tokenId reason db token Hl Ha) as Hs.
    split.
    + unfold AllocationService.handleCancellation.
      rewrite Hl, isTerminal_not_active, Ha. simpl.
      unfold CancellationService.requestRefund.
      erewrite allocateFromWaitingQueue_keeps_token;
        [|rewrite releaseWith_tokens; exact Hs].
      reflexivity.
    + intros Hnow.
      unfold Controllers.cancelToken, CancellationService.requestCancellation,
        CancellationService.processCancellation.
      rewrite Hl, isTerminal_not_active, Ha. simpl.
      destruct (Z.ltb_spec (Token.appointmentTime token - now) 0); [lia|].
      rewrite releaseWith_tokens, Hs. simpl.
      unfold CancellationService.requestRefund.
      erewrite allocateFromWaitingQueue_keeps_token;
        [|rewrite releaseWith_tokens; exact Hs].
      reflexivity.
Qed.

Lemma requestRefund_tier_witness :
  (exists pct,
     snd (CancellationService.requestRefund 0 Examples.cancelledToken) = Ok pct
     /\ pct = 100)
  /\ snd (CancellationService.requestRefund 0
            (fst (AllocationService.handleCancellation 64 0 None
                    Examples.bookedToken)))
     = Ok 0.
Proof.
  destruct (requestRefund_tier 0 Examples.cancelledToken) as [_ [H _]].
  destruct (requestRefund_tier 0 Examples.bookedToken) as [_ [_ H']].
  split.
  - destruct (H _ eq_refl eq_refl) as [pct [H1 [H2 _]]].
    exists pct. split; [exact H1|]. rewrite H2. reflexivity.
  - exact (proj1 (H' 64 None _ eq_refl eq_refl)).
Defined.

(** ** Renumbering the waiting queue *)

Lemma renumber_length i docs db :
  length (waitings (AllocationService.renumber i docs db))
  = length (waitings db).
Proof.
  revert i db. induction docs as [|[id w] docs IH]; intros i db; simpl;
    [reflexivity|].
  rewrite IH. unfold updateWaiting. simpl. apply length_alter.
Qed.

Lemma renumber_outside i docs db id :
  ~ In id (map fst docs) ->
  waitings (AllocationService.renumber i docs db) !! id = waitings db !! id.
Proof.
  revert i db. induction docs as [|[id0 w] docs IH]; intros i db Hnot; simpl;
    [reflexivity|].
  simpl in Hnot. rewrite IH by tauto.
  unfold updateWaiting. simpl. apply list_lookup_alter_ne. tauto.
Qed.

Lemma renumber_inside i docs db k id w0 :
  List.NoDup (map fst docs) ->
  map fst docs !! k = Some id ->
  waitings db !! id = Some w0 ->
  waitings (AllocationService.renumber i docs db) !! id
  = Some (Waiting.setQueuePosition (i + 1 + Z.of_nat k) w0).
Proof.
  revert i db k. induction docs as [|[id0 w] docs IH]; intros i db k Hnd Hk Hw;
    [discriminate|].
  simpl in Hnd. inversion Hnd as [|? ? Hnot Hnd']; subst.
  destruct k as [|k]; simpl in Hk |- *.
  - injection Hk as ->. rewrite renumber_outside by exact Hnot.
    unfold updateWaiting. simpl. rewrite list_lookup_alter_eq, Hw. simpl.
    do 2 f_equal. lia.
  - assert (Hne : id0 <> id).
    { intros ->. apply Hnot. apply list_elem_of_In.
      eapply list_elem_of_lookup_2. exact Hk. }
    rewrite (IH (i + 1) (updateWaiting id0 (Waiting.setQueuePosition (i + 1)) db)
               k Hnd' Hk).
    + do 2 f_equal. lia.
    + unfold updateWaiting. simpl. now rewrite list_lookup_alter_ne.
Qed.

Lemma find_ids_related {A : Type} (q : A -> bool) (l l' : list A) (n : nat) :
  Forall2 (fun x x' => q x = q x') l l' ->
  map fst (List.filter (fun d => q (snd d)) (combine (seq n (length l')) l'))
  = map fst (List.filter (fun d => q (snd d)) (combine (seq n (length l)) l)).
Proof.
  intros H. revert n. induction H as [|x x' l l' Hq H IH]; intros n; simpl;
    [reflexivity|].
  rewrite Hq. destruct (q x'); simpl; now rewrite IH.
Qed.

Lemma find_snd_lookup {A : Type} (q : A -> bool) (l : list A) (f : A -> Z) :
  map (fun d => f (snd d)) (Mongo.find q l)
  = map (fun id => default 0 (f <$> l !! id)) (map fst (Mongo.find q l)).
Proof.
  rewrite map_map. apply map_ext_in. intros [id x] Hin.
  apply find_In in Hin as [Hl _]. simpl. now rewrite Hl.
Qed.

Lemma seq_positions (n : nat) :
  map Z.of_nat (seq 1 n) = map (fun k => 0 + 1 + Z.of_nat k) (seq 0 n).
Proof.
  rewrite <- seq_shift, map_map. apply map_ext. intros k. lia.
Qed.

(** After [updateQueuePositions] the doctor's waiting entries are numbered
    [1..N]: the renumbering that promotion and withdrawal end with is
    dense. *)
Lemma updateQueuePositions_dense (doctorId : nat) (db : DB) :
  densePositions
    (waitingPositions (AllocationService.updateQueuePositions doctorId db)
       doctorId).
Proof.
  unfold AllocationService.updateQueuePositions.
  set (q := AllocationService.isWaitingFor doctorId).
  set (docs := Mongo.findSorted byQueuePosition q (waitings db)).
  set (db' := AllocationService.renumber 0 docs db).
  assert (Hnd : List.NoDup (map fst docs)) by apply findSorted_NoDup.
  assert (Hdocs : forall id w, In (id, w) docs ->
                               waitings db !! id = Some w /\ q w = true).
  { intros id w. apply findSorted_In. }
  assert (Hperm : Permutation (map fst (Mongo.find q (waitings db)))
                    (map fst docs)).
  { apply Permutation_map. symmetry. apply sort_perm. }
  assert (Hrel : Forall2 (fun x x' => q x = q x') (waitings db) (waitings db')).
  { apply Forall2_same_length_lookup. split.
    - symmetry. apply renumber_length.
    - intros i x x' Hx Hx'.
      destruct (in_dec Nat.eq_dec i (map fst docs)) as [Hin|Hout].
      + apply list_elem_of_In, list_elem_of_lookup_1 in Hin as [k Hk].
        unfold db' in Hx'.
        rewrite (renumber_inside 0 docs db k i x Hnd Hk Hx) in Hx'.
        injection Hx' as <-. reflexivity.
      + unfold db' in Hx'. rewrite renumber_outside in Hx' by exact Hout.
        congruence. }
  assert (Hids : map fst (Mongo.find q (waitings db'))
                 = map fst (Mongo.find q (waitings db))).
  { unfold Mongo.find, Mongo.enumerate. now apply find_ids_related. }
  unfold densePositions, waitingPositions. fold q.
  rewrite find_snd_lookup, Hids, !length_map.
  assert (Hlen : length (Mongo.find q (waitings db)) = length docs).
  { symmetry. apply Permutation_length. apply sort_perm. }
  rewrite Hlen, (Permutation_map _ Hperm).
  replace (map (fun id => default 0 (Waiting.queuePosition <$> waitings db' !! id))
             (map fst docs))
    with (map (fun k => 0 + 1 + Z.of_nat k) (seq 0 (length docs))).
  { now rewrite seq_positions. }
  apply list_eq. intros k. rewrite !list_lookup_fmap.
  destruct (docs !! k) as [[id w]|] eqn:Hk; simpl.
  - rewrite lookup_seq_lt by (eapply lookup_lt_Some; exact Hk). simpl.
    assert (Hk' : map fst docs !! k = Some id).
    { rewrite list_lookup_fmap, Hk. reflexivity. }
    destruct (Hdocs id w) as [Hw _].
    { apply list_elem_of_In. eapply list_elem_of_lookup_2. exact Hk. }
    unfold db'. rewrite (renumber_inside 0 docs db k id w Hnd Hk' Hw).
    reflexivity.
  - rewrite lookup_seq_ge; [reflexivity|].
    now apply lookup_ge_None.
Qed.

(** Withdrawal ends with that renumbering. *)
Lemma cancelWaiting_dense (waitingId : nat) (reason : option string) (db : DB)
    (w : Waiting.t) :
  waitings db !! waitingId = Some w ->
  densePositions
    (waitingPositions (fst (WaitingQueueService.cancelWaiting waitingId reason db))
       (Waiting.doctorId w)).
Proof.
  intros Hl. unfold WaitingQueueService.cancelWaiting. rewrite Hl. simpl.
  apply updateQueuePositions_dense.
Qed.

(** ** Booking leaves the stored tokens alone *)

Lemma findOneSorted_Some {A : Type} (order : A -> A -> Z) (q : A -> bool)
    (l : list A) (i : nat) (x : A) :
  Mongo.findOneSorted order q l = Some (i, x) -> l !! i = Some x /\ q x = true.
Proof.
  unfold Mongo.findOneSorted. intros H. apply (findSorted_In order).
  apply list_elem_of_In. apply head_Some_elem_of. exact H.
Qed.

Local Arguments AllocationService.reallocateLowerPriorityToken : simpl never.
Local Arguments AllocationService.findAvailableSlot : simpl never.
Local Arguments AllocationService.addToWaitingQueue : simpl never.

(** The two outcomes of [allocateToken].  It books when the request names
    a stored slot of the doctor that has room and the new token passes
    validation; in every other case it ends in an error before anything
    is written, because without a usable preferred slot it runs the slot
    search. *)
Lemma allocateToken_outcome now patientId doctorId source preferredSlotId
    appointmentTime db db' r :
  AllocationService.allocateToken now
    (TokenData.mk patientId doctorId source preferredSlotId appointmentTime) db
  = (db', r) ->
  (db' = db /\ exists msg, r = Err msg)
  \/ (exists p slot score,
        preferredSlotId = Some p
        /\ slots db !! p = Some slot
        /\ Slot.doctorId slot = doctorId
        /\ (Slot.currentOccupancy slot >=? Slot.maxCapacity slot) = false
        /\ validatedScore source (Priority.calculatePriorityScore source)
           = Some score
        /\ db' = saveSlot p
                   (Slot.markFullIfAtCapacity
                      (Slot.push (length (tokens db)) slot))
                   (withTokens
                      (fun l =>
                         l ++ [Token.mk patientId doctorId p source score
                                 Token.booked appointmentTime false (Some p)
                                 None None None now]) db)
        /\ r = Ok (AllocationService.Allocated (length (tokens db)) p)).
Proof.
  unfold AllocationService.allocateToken. simpl.
  destruct (findAvailableSlot_throws db doctorId appointmentTime source)
    as [msg Hthrow].
  destruct preferredSlotId as [p|].
  - destruct (slots db !! p) as [slot|] eqn:Hp.
    + destruct (Nat.eqb_spec (Slot.doctorId slot) doctorId) as [Hdoc|Hdoc];
        simpl.
      * destruct (Slot.currentOccupancy slot >=? Slot.maxCapacity slot)
          eqn:Hfull.
        -- rewrite Hthrow. intros [= <- <-]. left. eauto.
        -- rewrite Hfull. simpl.
           destruct (validatedScore source
                       (Priority.calculatePriorityScore source))
             as [score|] eqn:Hscore.
           ++ unfold insertToken. rewrite Nat.eqb_refl. simpl.
              intros [= <- <-]. right. exists p, slot, score.
              repeat split; try assumption; reflexivity.
           ++ intros [= <- <-]. left. eauto.
      * intros [= <- <-]. left. eauto.
    + rewrite Hthrow. intros [= <- <-]. left. eauto.
  - rewrite Hthrow. intros [= <- <-]. left. eauto.
Qed.

(** X1.  [allocateToken] never changes a token that is already stored: it
    writes only when it books into the preferred slot, where it adds a
    token and moves none, and in every other case it fails before any
    write. *)
Lemma allocateToken_keeps_tokens now tokenData db db' r tid tk :
  AllocationService.allocateToken now tokenData db = (db', r) ->
  tokens db !! tid = Some tk ->
  tokens db' !! tid = Some tk.
Proof.
  destruct tokenData as [patientId doctorId source preferredSlotId appointmentTime].
  intros H Hl.
  apply allocateToken_outcome in H
    as [[-> _]|(p & slot & score & _ & _ & _ & _ & _ & -> & _)];
    [exact Hl|].
  simpl. now apply lookup_app_l_Some.
Qed.

(** ** Where the slot invariant is kept *)

Lemma push_keeps_invariant tid slot :
  slotInvariant slot = true ->
  (Slot.currentOccupancy slot >=? Slot.maxCapacity slot) = false ->
  slotInvariant (Slot.markFullIfAtCapacity (Slot.push tid slot)) = true.
Proof.
  unfold slotInvariant, Slot.markFullIfAtCapacity. intros Hinv Hfree.
  apply andb_prop in Hinv as [Hlen _]. rewrite Z.geb_leb in Hfree.
  assert (Hpush : slotInvariant (Slot.push tid slot) = true).
  { unfold slotInvariant. simpl. rewrite length_app. simpl.
    apply Z.eqb_eq in Hlen. apply Z.leb_gt in Hfree.
    apply andb_true_intro. split; [apply Z.eqb_eq|apply Z.leb_le]; lia. }
  destruct (_ >=? _); exact Hpush.
Qed.

Lemma forallb_insert {A : Type} (P : A -> bool) (l : list A) (i : nat) (y : A) :
  forallb P l = true -> P y = true -> forallb P (<[i := y]> l) = true.
Proof.
  revert i. induction l as [|x l IH]; intros i Hl Hy; [reflexivity|].
  simpl in Hl. apply andb_prop in Hl as [Hx Hl].
  destruct i as [|i]; simpl; apply andb_true_intro; split;
    try assumption. now apply IH.
Qed.

Lemma forallb_lookup {A : Type} (P : A -> bool) (l : list A) (i : nat) (x : A) :
  forallb P l = true -> l !! i = Some x -> P x = true.
Proof.
  intros Hl Hx. rewrite forallb_forall in Hl. apply Hl.
  apply list_elem_of_In. eapply list_elem_of_lookup_2. exact Hx.
Qed.

(** X2.  Booking keeps the slot invariant: [allocateToken] adds a token only
    to a slot whose occupancy is below its capacity, and changes no other
    slot. *)
Lemma allocateToken_keeps_invariant now tokenData db db' r :
  AllocationService.allocateToken now tokenData db = (db', r) ->
  allSlotsInvariant db = true ->
  allSlotsInvariant db' = true.
Proof.
  destruct tokenData as [patientId doctorId source preferredSlotId appointmentTime].
  unfold allSlotsInvariant. intros H Hinv.
  apply allocateToken_outcome in H
    as [[-> _]|(p & slot & score & _ & Hp & _ & Hroom & _ & -> & _)];
    [exact Hinv|].
  simpl. apply forallb_insert; [exact Hinv|].
  apply push_keeps_invariant; [|exact Hroom].
  eapply forallb_lookup; eassumption.
Qed.

(** * Further properties of the services *)

(** ** Booking *)

Lemma allocateToken_keeps_tokens_witness :
  tokens (fst (AllocationService.allocateToken 5
                 (TokenData.mk 9 1 "paid_priority" (Some 0%nat) 0)
                 Examples.oneFullSlot)) !! 0%nat
  = Some Examples.onlineToken.
Proof.
  eapply allocateToken_keeps_tokens; [apply surjective_pairing|reflexivity].
Defined.

Lemma allocateToken_keeps_invariant_witness :
  allSlotsInvariant
    (fst (AllocationService.allocateToken 5
            (TokenData.mk 9 1 "online" (Some 0%nat) 100)
            Examples.bookedToken)) = true.
Proof.
  eapply allocateToken_keeps_invariant; [apply surjective_pairing|reflexivity].
Defined.

(** X3.  A request whose source is not one of the five categories never
    gets a token or a waiting entry: [allocateToken] throws and the store
    is exactly as before. *)
Theorem allocateToken_rejects_unknown_source (now : Z) (tokenData : TokenData.t)
    (db : DB) :
  validSource (TokenData.source tokenData) = false ->
  exists msg, AllocationService.allocateToken now tokenData db = (db, Err msg).
Proof.
  destruct tokenData as [patientId doctorId source preferredSlotId appointmentTime].
  simpl. intros Hv.
  destruct (AllocationService.allocateToken now _ db) as [db' r] eqn:E.
  apply allocateToken_outcome in E
    as [[-> [msg ->]]|(p & slot & score & _ & _ & _ & _ & Hscore & _)].
  - now exists msg.
  - unfold validatedScore in Hscore. rewrite Hv in Hscore. discriminate.
Qed.

Lemma allocateToken_rejects_unknown_source_witness :
  exists msg,
    AllocationService.allocateToken 5
      (TokenData.mk 9 1 "constructor" None 0) Examples.bookedToken
    = (Examples.bookedToken, Err msg).
Proof. apply allocateToken_rejects_unknown_source. reflexivity. Defined.

(** X4.  When [allocateToken] answers with a token, the token is new (its
    id is the next free one), booked, carries the request's source with the
    table score of that source, and sits in a slot of the requested doctor
    whose occupancy was below its capacity; that slot gains exactly this
    token, every other slot and the waiting queue are unchanged. *)
Theorem allocateToken_allocated (now : Z) (tokenData : TokenData.t)
    (db db' : DB) (tid sid : nat) :
  AllocationService.allocateToken now tokenData db
  = (db', Ok (AllocationService.Allocated tid sid)) ->
  tid = length (tokens db)
  /\ exists slot token,
       slots db !! sid = Some slot
       /\ Slot.doctorId slot = TokenData.doctorId tokenData
       /\ Slot.currentOccupancy slot < Slot.maxCapacity slot
       /\ tokens db' = tokens db ++ [token]
       /\ Token.slotId token = sid
       /\ Token.status token = Token.booked
       /\ Token.patientId token = TokenData.patientId tokenData
       /\ Token.source token = TokenData.source tokenData
       /\ validSource (Token.source token) = true
       /\ Priority.calculatePriorityScore (Token.source token)
          = Js.Num (Token.priorityScore token)
       /\ slots db'
          = <[sid := Slot.markFullIfAtCapacity (Slot.push tid slot)]> (slots db)
       /\ waitings db' = waitings db.
Proof.
  destruct tokenData as [patientId doctorId source preferredSlotId appointmentTime].
  intros E.
  apply allocateToken_outcome in E
    as [[_ [msg [=]]]
       |(p & slot & score & _ & Hp & Hdoc & Hroom & Hscore & -> & [= -> ->])].
  rewrite Z.geb_leb in Hroom. apply Z.leb_gt in Hroom.
  unfold validatedScore in Hscore.
  destruct (validSource source) eqn:Hv; [|discriminate].
  destruct (Priority.calculatePriorityScore source) as [n|k] eqn:Hcalc;
    [|discriminate].
  injection Hscore as ->.
  split; [reflexivity|]. eexists slot, _.
  split; [exact Hp|]. split; [exact Hdoc|]. split; [exact Hroom|].
  split; [reflexivity|]. simpl.
  repeat split; try reflexivity; assumption.
Qed.

Lemma allocateToken_allocated_witness :
  exists slot token,
    slots Examples.bookedToken !! 0%nat = Some slot
    /\ Slot.currentOccupancy slot < Slot.maxCapacity slot
    /\ tokens (fst (AllocationService.allocateToken 5
                      (TokenData.mk 9 1 "online" (Some 0%nat) 100)
                      Examples.bookedToken))
       = tokens Examples.bookedToken ++ [token]
    /\ Token.priorityScore token = 40.
Proof.
  destruct (allocateToken_allocated 5
              (TokenData.mk 9 1 "online" (Some 0%nat) 100)
              Examples.bookedToken
              (fst (AllocationService.allocateToken 5
                      (TokenData.mk 9 1 "online" (Some 0%nat) 100)
                      Examples.bookedToken)) 1 0 eq_refl)
    as (_ & slot & token & H1 & _ & H3 & H4 & _ & _ & _ & _ & _ & H10 & _).
  exists slot, token. split; [exact H1|]. split; [exact H3|].
  split; [exact H4|].
  assert (Hlast : last (tokens Examples.bookedToken ++ [token]) = Some token)
    by apply last_snoc.
  rewrite <- H4 in Hlast. vm_compute in Hlast. injection Hlast as <-.
  reflexivity.
Defined.

(** ** The waiting queue *)

Lemma StronglySorted_lookup_lt {A : Type} (R : A -> A -> Prop) (l : list A)
    (a b : nat) (x y : A) :
  StronglySorted R l -> l !! a = Some x -> l !! b = Some y -> (a < b)%nat ->
  R x y.
Proof.
  intros Hs. revert a b. induction Hs as [|z l Hs IH Hall]; intros a b Ha Hb Hlt;
    [discriminate|].
  destruct b as [|b]; [lia|]. simpl in Hb. destruct a as [|a]; simpl in Ha.
  - injection Ha as ->. rewrite List.Forall_forall in Hall. apply Hall.
    apply list_elem_of_In. eapply list_elem_of_lookup_2. exact Hb.
  - apply (IH a b); [assumption|assumption|lia].
Qed.

Lemma byQueuePosition_sorted (q : Waiting.t -> bool) (l : list Waiting.t) :
  StronglySorted
    (fun a b : nat * Waiting.t =>
       Waiting.queuePosition (snd a) <= Waiting.queuePosition (snd b))
    (Mongo.findSorted byQueuePosition q l).
Proof.
  unfold Mongo.findSorted.
  eapply StronglySorted_weaken;
    [|apply sort_sorted with
        (cmp := fun a b : nat * Waiting.t =>
                  byQueuePosition (snd a) (snd b))].
  - intros a b. unfold Js.notAfter, byQueuePosition. lia.
  - intros a b c. unfold byQueuePosition. lia.
  - intros a b. unfold byQueuePosition. lia.
Qed.

(** Where a waiting entry of the doctor ends up after the renumbering. *)
Lemma updateQueuePositions_position doctorId db wid w :
  waitings db !! wid = Some w ->
  AllocationService.isWaitingFor doctorId w = true ->
  exists k : nat,
    Mongo.findSorted byQueuePosition (AllocationService.isWaitingFor doctorId)
      (waitings db) !! k = Some (wid, w)
    /\ waitings (AllocationService.updateQueuePositions doctorId db) !! wid
       = Some (Waiting.setQueuePosition (1 + Z.of_nat k) w).
Proof.
  intros Hl Hq. unfold AllocationService.updateQueuePositions.
  set (docs := Mongo.findSorted byQueuePosition
                 (AllocationService.isWaitingFor doctorId) (waitings db)).
  assert (Hin : In (wid, w) docs) by (apply findSorted_In; tauto).
  apply list_elem_of_In, list_elem_of_lookup_1 in Hin as [k Hk].
  exists k. split; [exact Hk|].
  rewrite (renumber_inside 0 docs db k wid w).
  - do 2 f_equal.
  - apply findSorted_NoDup.
  - rewrite list_lookup_fmap, Hk. reflexivity.
  - exact Hl.
Qed.

Lemma updateQueuePositions_untouched doctorId db wid w :
  waitings db !! wid = Some w ->
  AllocationService.isWaitingFor doctorId w = false ->
  waitings (AllocationService.updateQueuePositions doctorId db) !! wid = Some w.
Proof.
  intros Hl Hq. unfold AllocationService.updateQueuePositions.
  rewrite renumber_outside; [exact Hl|].
  intros Hin. apply in_map_iff in Hin as [[wid' w'] [Heq Hin]].
  simpl in Heq. subst wid'. apply findSorted_In in Hin as [Hl' Hq'].
  congruence.
Qed.

(** X5.  [updateQueuePositions] numbers the doctor's waiting entries
    [1..N] without gaps or duplicates; it changes no status, no slot and no
    token, and leaves alone every entry that is not waiting for that
    doctor. *)
Theorem updateQueuePositions_renumbers (doctorId : nat) (db : DB) :
  let db' := WaitingQueueService.updateQueuePositions doctorId db in
  densePositions (waitingPositions db' doctorId)
  /\ (forall wid, waitingStatusOf db' wid = waitingStatusOf db wid)
  /\ slots db' = slots db
  /\ tokens db' = tokens db
  /\ (forall wid w,
        waitings db !! wid = Some w ->
        AllocationService.isWaitingFor doctorId w = false ->
        waitings db' !! wid = Some w).
Proof.
  intros db'. subst db'.
  change (WaitingQueueService.updateQueuePositions doctorId db)
    with (AllocationService.updateQueuePositions doctorId db).
  split; [apply updateQueuePositions_dense|].
  split; [intros wid; apply renumber_status|].
  split; [apply renumber_tokens|]. split; [apply renumber_tokens|].
  apply updateQueuePositions_untouched.
Qed.

(** X6.  The renumbering keeps the order of the queue: of two waiting
    entries of the doctor, the one with the lower position before still has
    the lower position afterwards. *)
Theorem updateQueuePositions_keeps_order (doctorId : nat) (db : DB)
    (i j : nat) (wi wj : Waiting.t) :
  waitings db !! i = Some wi ->
  waitings db !! j = Some wj ->
  AllocationService.isWaitingFor doctorId wi = true ->
  AllocationService.isWaitingFor doctorId wj = true ->
  Waiting.queuePosition wi < Waiting.queuePosition wj ->
  exists wi' wj',
    waitings (WaitingQueueService.updateQueuePositions doctorId db) !! i
    = Some wi'
    /\ waitings (WaitingQueueService.updateQueuePositions doctorId db) !! j
       = Some wj'
    /\ Waiting.queuePosition wi' < Waiting.queuePosition wj'.
Proof.
  intros Hi Hj Hqi Hqj Hlt.
  change (WaitingQueueService.updateQueuePositions doctorId db)
    with (AllocationService.updateQueuePositions doctorId db).
  destruct (updateQueuePositions_position doctorId db i wi Hi Hqi)
    as [ki [Hki ->]].
  destruct (updateQueuePositions_position doctorId db j wj Hj Hqj)
    as [kj [Hkj ->]].
  eexists _, _. split; [reflexivity|]. split; [reflexivity|]. simpl.
  destruct (Nat.lt_trichotomy ki kj) as [Hk|[Hk|Hk]]; [lia| |].
  - subst kj. rewrite Hki in Hkj. injection Hkj as -> ->. lia.
  - pose proof (StronglySorted_lookup_lt _ _ _ _ _ _
                  (byQueuePosition_sorted _ _) Hkj Hki Hk) as Hle.
    simpl in Hle. lia.
Qed.

Lemma updateQueuePositions_keeps_order_witness :
  exists wi' wj',
    waitings (WaitingQueueService.updateQueuePositions 1
                (fst (WaitingQueueService.cleanExpiredEntries 10
                        Examples.threeWaiting))) !! 1%nat = Some wi'
    /\ waitings (WaitingQueueService.updateQueuePositions 1
                   (fst (WaitingQueueService.cleanExpiredEntries 10
                           Examples.threeWaiting))) !! 2%nat = Some wj'
    /\ Waiting.queuePosition wi' < Waiting.queuePosition wj'.
Proof.
  eapply updateQueuePositions_keeps_order; try reflexivity.
Defined.

Lemma enumerate_snoc {A : Type} (l : list A) (x : A) :
  Mongo.enumerate (l ++ [x]) = Mongo.enumerate l ++ [(length l, x)].
Proof.
  unfold Mongo.enumerate.
  assert (H : forall n : nat,
             combine (seq n (length (l ++ [x]))) (l ++ [x])
             = combine (seq n (length l)) l ++ [((n + length l)%nat, x)]).
  { induction l as [|y l IH]; intros n; simpl.
    - rewrite Nat.add_0_r. reflexivity.
    - rewrite IH. simpl. rewrite Nat.add_succ_r. reflexivity. }
  apply H.
Qed.

Lemma find_snoc {A : Type} (q : A -> bool) (l : list A) (x : A) :
  Mongo.find q (l ++ [x])
  = Mongo.find q l ++ (if q x then [(length l, x)] else []).
Proof.
  unfold Mongo.find. rewrite enumerate_snoc, List.filter_app. reflexivity.
Qed.

Lemma densePositions_snoc (positions : list Z) :
  densePositions positions ->
  densePositions (positions ++ [Z.of_nat (length positions) + 1]).
Proof.
  unfold densePositions. intros Hd.
  rewrite length_app. simpl. rewrite seq_app, map_app. simpl.
  apply Permutation_app; [exact Hd|].
  replace (Z.of_nat (S (length positions))) with (Z.of_nat (length positions) + 1)
    by lia.
  reflexivity.
Qed.

(** X7.  Enqueueing keeps the doctor's queue dense: if the waiting entries
    of the doctor were numbered [1..N], they are numbered [1..N+1] with the
    new entry added, and the positions of every other doctor's queue are
    unchanged. *)
Theorem addToWaitingQueue_keeps_dense (now : Z) (db db' : DB)
    (patientId doctorId : nat) (source : string) (priorityScore : Js.value)
    (preferredDate : option Z) (wid : nat) (pos : Z) :
  AllocationService.addToWaitingQueue now db patientId doctorId source
    priorityScore preferredDate = (db', Ok (wid, pos)) ->
  densePositions (waitingPositions db doctorId) ->
  densePositions (waitingPositions db' doctorId)
  /\ length (waitingPositions db' doctorId)
     = S (length (waitingPositions db doctorId))
  /\ forall other, other <> doctorId ->
       waitingPositions db' other = waitingPositions db other.
Proof.
  unfold AllocationService.addToWaitingQueue, insertWaiting.
  destruct (validatedScore source priorityScore) as [score|]; [|discriminate].
  intros [= <- <- <-] Hd.
  assert (Hpos : waitingPositions
                   (withWaitings
                      (fun l => l ++ [Waiting.mk patientId doctorId source score
                                        preferredDate Waiting.waiting
                                        (Mongo.countDocuments
                                           (AllocationService.isWaitingFor doctorId)
                                           (waitings db) + 1)
                                        None
                                        (now + AllocationService.sevenDays) now])
                      db) doctorId
                 = waitingPositions db doctorId
                   ++ [Z.of_nat (length (waitingPositions db doctorId)) + 1]).
  { unfold waitingPositions, withWaitings. simpl. rewrite find_snoc.
    unfold AllocationService.isWaitingFor at 2. simpl.
    rewrite Nat.eqb_refl. simpl. rewrite map_app, length_map. reflexivity. }
  split; [|split].
  - rewrite Hpos. apply densePositions_snoc. exact Hd.
  - rewrite Hpos, length_app. simpl. lia.
  - intros other Hne. unfold waitingPositions, withWaitings. simpl.
    rewrite find_snoc. unfold AllocationService.isWaitingFor at 2. simpl.
    destruct (Nat.eqb_spec doctorId other) as [->|_]; [congruence|].
    simpl. rewrite app_nil_r. reflexivity.
Qed.

Lemma addToWaitingQueue_keeps_dense_witness :
  densePositions
    (waitingPositions
       (fst (AllocationService.addToWaitingQueue 0 Examples.oneWalkInWaiting
               9 1 "online" (Js.Num 40) None)) 1)
  /\ length
       (waitingPositions
          (fst (AllocationService.addToWaitingQueue 0 Examples.oneWalkInWaiting
                  9 1 "online" (Js.Num 40) None)) 1)
     = 2%nat.
Proof.
  destruct (addToWaitingQueue_keeps_dense 0 Examples.oneWalkInWaiting
              (fst (AllocationService.addToWaitingQueue 0
                      Examples.oneWalkInWaiting 9 1 "online" (Js.Num 40) None))
              9 1 "online" (Js.Num 40) None 1 2) as [Hd [Hl _]].
  - reflexivity.
  - unfold densePositions. simpl. reflexivity.
  - split; [exact Hd|exact Hl].
Defined.

Lemma find_nil {A : Type} (q : A -> bool) (l : list A) :
  (forall i x, l !! i = Some x -> q x = false) -> Mongo.find q l = [].
Proof.
  intros Hq. destruct (Mongo.find q l) as [|[i x] rest] eqn:E; [reflexivity|].
  assert (Hin : In (i, x) (Mongo.find q l)) by (rewrite E; now left).
  apply find_In in Hin as [Hl Hx]. rewrite (Hq i x Hl) in Hx. discriminate.
Qed.

(** X9.  [cancelWaiting] reports an unknown id as an error and leaves the
    store as it is; for a stored entry it sets the status to [cancelled],
    whatever the status was, and changes nothing else in the entry: the
    reason it is given is not stored, and the outcome does not depend on
    it.  Every other entry keeps its status, no slot or token changes, and
    the doctor's queue is left numbered [1..N]. *)
Theorem cancelWaiting_withdraws (waitingId : nat) (reason : option string)
    (db : DB) :
  match waitings db !! waitingId with
  | None =>
      exists msg,
        WaitingQueueService.cancelWaiting waitingId reason db = (db, Err msg)
  | Some w =>
      exists db',
        WaitingQueueService.cancelWaiting waitingId reason db = (db', Ok tt)
        /\ waitings db' !! waitingId
           = Some (Waiting.setStatus Waiting.cancelled w)
        /\ (forall other,
              WaitingQueueService.cancelWaiting waitingId other db
              = (db', Ok tt))
        /\ (forall wid, wid <> waitingId ->
              waitingStatusOf db' wid = waitingStatusOf db wid)
        /\ densePositions (waitingPositions db' (Waiting.doctorId w))
        /\ slots db' = slots db
        /\ tokens db' = tokens db
  end.
Proof.
  destruct (waitings db !! waitingId) as [w|] eqn:Hl.
  - unfold WaitingQueueService.cancelWaiting. rewrite Hl.
    change (WaitingQueueService.updateQueuePositions (Waiting.doctorId w))
      with (AllocationService.updateQueuePositions (Waiting.doctorId w)).
    set (db1 := updateWaiting waitingId (Waiting.setStatus Waiting.cancelled) db).
    assert (Hl1 : waitings db1 !! waitingId
                  = Some (Waiting.setStatus Waiting.cancelled w)).
    { unfold db1, updateWaiting. simpl.
      rewrite list_lookup_alter_eq, Hl. reflexivity. }
    exists (AllocationService.updateQueuePositions (Waiting.doctorId w) db1).
    split; [reflexivity|]. split.
    { apply updateQueuePositions_untouched; [exact Hl1|].
      unfold AllocationService.isWaitingFor. simpl. apply andb_false_r. }
    split; [reflexivity|]. split.
    { intros wid Hne. unfold AllocationService.updateQueuePositions.
      rewrite renumber_status. now apply updateWaiting_status_other. }
    split; [apply updateQueuePositions_dense|].
    unfold AllocationService.updateQueuePositions.
    destruct (renumber_tokens 0
                (Mongo.findSorted byQueuePosition
                   (AllocationService.isWaitingFor (Waiting.doctorId w))
                   (waitings db1)) db1) as [-> ->].
    split; reflexivity.
  - unfold WaitingQueueService.cancelWaiting. rewrite Hl. eexists. reflexivity.
Qed.

(** X10.  After [cleanExpiredEntries] no entry is both waiting and past its
    expiry time, the entries that were not are untouched, slots and tokens
    are untouched, and a second run at the same time changes nothing and
    counts zero. *)
Theorem cleanExpiredEntries_sweeps (now : Z) (db : DB) :
  let db' := fst (WaitingQueueService.cleanExpiredEntries now db) in
  (forall wid w', waitings db' !! wid = Some w' ->
                  WaitingQueueService.isExpiredAt now w' = false)
  /\ (forall wid w, waitings db !! wid = Some w ->
        WaitingQueueService.isExpiredAt now w = false ->
        waitings db' !! wid = Some w)
  /\ (forall wid w, waitings db !! wid = Some w ->
        WaitingQueueService.isExpiredAt now w = true ->
        waitingStatusOf db' wid = Some Waiting.expired)
  /\ slots db' = slots db
  /\ tokens db' = tokens db
  /\ WaitingQueueService.cleanExpiredEntries now db' = (db', 0).
Proof.
  intros db'. subst db'. unfold WaitingQueueService.cleanExpiredEntries.
  simpl.
  set (f := fun w => if WaitingQueueService.isExpiredAt now w
                     then Waiting.setStatus Waiting.expired w else w).
  assert (Hf : forall w, WaitingQueueService.isExpiredAt now (f w) = false).
  { intros w. unfold f.
    destruct (WaitingQueueService.isExpiredAt now w) eqn:E; [|exact E].
    reflexivity. }
  assert (Hclean : forall wid w', map f (waitings db) !! wid = Some w' ->
                                  WaitingQueueService.isExpiredAt now w' = false).
  { intros wid w'. rewrite list_lookup_fmap.
    destruct (waitings db !! wid) as [w|]; simpl; [|discriminate].
    intros [= <-]. apply Hf. }
  split; [exact Hclean|]. split.
  { intros wid w Hl Hw. rewrite list_lookup_fmap, Hl. simpl. unfold f.
    now rewrite Hw. }
  split.
  { intros wid w Hl Hw. unfold waitingStatusOf. simpl.
    rewrite list_lookup_fmap, Hl. simpl. unfold f. now rewrite Hw. }
  split; [reflexivity|]. split; [reflexivity|].
  unfold Mongo.countDocuments. rewrite (find_nil _ _ Hclean). simpl.
  f_equal. unfold withWaitings. simpl. f_equal.
  rewrite map_map. apply map_ext_in. intros w _.
  unfold f at 1. now rewrite Hf.
Qed.

(** *** Moving an entry *)

Lemma shiftEach_outside delta affected db id :
  ~ In id (map fst affected) ->
  waitings (WaitingQueueService.shiftEach delta affected db) !! id
  = waitings db !! id.
Proof.
  revert db. induction affected as [|[id0 w] rest IH]; intros db Hnot; simpl;
    [reflexivity|].
  simpl in Hnot. rewrite IH by tauto.
  unfold updateWaiting. simpl. apply list_lookup_alter_ne. tauto.
Qed.

Lemma shiftEach_inside delta affected db id w w0 :
  List.NoDup (map fst affected) ->
  In (id, w) affected ->
  waitings db !! id = Some w0 ->
  waitings (WaitingQueueService.shiftEach delta affected db) !! id
  = Some (Waiting.setQueuePosition (Waiting.queuePosition w + delta) w0).
Proof.
  revert db. induction affected as [|[id0 w1] rest IH]; intros db Hnd Hin Hl;
    [destruct Hin|].
  simpl in Hnd. inversion Hnd as [|? ? Hnot Hnd']; subst. simpl.
  destruct Hin as [[= -> ->]|Hin].
  - rewrite shiftEach_outside by exact Hnot.
    unfold updateWaiting. simpl. rewrite list_lookup_alter_eq, Hl. reflexivity.
  - assert (Hne : id0 <> id).
    { intros ->. apply Hnot. apply in_map_iff. exists (id, w). tauto. }
    apply IH; [exact Hnd'|exact Hin|].
    unfold updateWaiting. simpl. now rewrite list_lookup_alter_ne.
Qed.

Lemma shiftEach_rest delta affected db :
  slots (WaitingQueueService.shiftEach delta affected db) = slots db
  /\ tokens (WaitingQueueService.shiftEach delta affected db) = tokens db
  /\ length (waitings (WaitingQueueService.shiftEach delta affected db))
     = length (waitings db)
  /\ forall wid,
       waitingStatusOf (WaitingQueueService.shiftEach delta affected db) wid
       = waitingStatusOf db wid.
Proof.
  revert db. induction affected as [|[id w] rest IH]; intros db; simpl.
  - repeat split; reflexivity.
  - destruct (IH (updateWaiting id
                    (Waiting.setQueuePosition (Waiting.queuePosition w + delta))
                    db)) as (-> & -> & -> & Hst).
    repeat split; try reflexivity.
    + unfold updateWaiting. simpl. apply length_alter.
    + intros wid. rewrite Hst. now apply updateWaiting_status_kept.
Qed.

Lemma find_map_related {A : Type} (q : A -> bool) (f : A -> Z) (g : Z -> Z)
    (l l' : list A) :
  Forall2 (fun x x' => q x = q x' /\ (q x = true -> f x' = g (f x))) l l' ->
  map (fun d => f (snd d)) (Mongo.find q l')
  = map g (map (fun d => f (snd d)) (Mongo.find q l)).
Proof.
  unfold Mongo.find, Mongo.enumerate. generalize 0%nat.
  intros n H. revert n.
  induction H as [|x x' l l' [Hq Hf] H IH]; intros n; simpl; [reflexivity|].
  rewrite <- Hq. destruct (q x) eqn:E; simpl.
  - rewrite IH, Hf by reflexivity. reflexivity.
  - apply IH.
Qed.

Lemma positions_NoDup (n : nat) : List.NoDup (map Z.of_nat (seq 1 n)).
Proof.
  apply Finite.Injective_map_NoDup; [|apply List.seq_NoDup].
  intros a b. apply Nat2Z.inj.
Qed.

Lemma positions_In (n : nat) (p : Z) :
  In p (map Z.of_nat (seq 1 n)) <-> 1 <= p <= Z.of_nat n.
Proof.
  rewrite in_map_iff. split.
  - intros [k [<- Hk]]. apply in_seq in Hk. lia.
  - intros Hp. exists (Z.to_nat p). split; [lia|]. apply in_seq. lia.
Qed.

Lemma dense_bounds (positions : list Z) (p : Z) :
  densePositions positions -> In p positions ->
  1 <= p <= Z.of_nat (length positions).
Proof.
  intros Hd Hin. apply positions_In. eapply Permutation_in; eassumption.
Qed.

Lemma waiting_position_In db doctorId i x :
  waitings db !! i = Some x ->
  AllocationService.isWaitingFor doctorId x = true ->
  In (Waiting.queuePosition x) (waitingPositions db doctorId).
Proof.
  intros Hl Hq. unfold waitingPositions. apply in_map_iff.
  exists (i, x). split; [reflexivity|]. apply find_In. tauto.
Qed.

Lemma dense_distinct db doctorId i j x y :
  densePositions (waitingPositions db doctorId) ->
  waitings db !! i = Some x -> waitings db !! j = Some y ->
  AllocationService.isWaitingFor doctorId x = true ->
  AllocationService.isWaitingFor doctorId y = true ->
  Waiting.queuePosition x = Waiting.queuePosition y ->
  i = j.
Proof.
  intros Hd Hi Hj Hqi Hqj Heq.
  assert (Hnd : List.NoDup (waitingPositions db doctorId)).
  { eapply Permutation_NoDup; [symmetry; exact Hd|apply positions_NoDup]. }
  assert (Hini : In (i, x) (Mongo.find (AllocationService.isWaitingFor doctorId)
                              (waitings db))) by (apply find_In; tauto).
  assert (Hinj : In (j, y) (Mongo.find (AllocationService.isWaitingFor doctorId)
                              (waitings db))) by (apply find_In; tauto).
  apply list_elem_of_In, list_elem_of_lookup_1 in Hini as [ki Hki].
  apply list_elem_of_In, list_elem_of_lookup_1 in Hinj as [kj Hkj].
  assert (Hpi : waitingPositions db doctorId !! ki
                = Some (Waiting.queuePosition x)).
  { unfold waitingPositions. rewrite list_lookup_fmap, Hki. reflexivity. }
  assert (Hpj : waitingPositions db doctorId !! kj
                = Some (Waiting.queuePosition x)).
  { unfold waitingPositions. rewrite list_lookup_fmap, Hkj. simpl.
    now rewrite Heq. }
  assert (ki = kj)
    by exact (NoDup_lookup _ _ _ _ (proj2 (NoDup_ListNoDup _) Hnd) Hpi Hpj).
  subst kj. congruence.
Qed.

Lemma movedPosition_permutes (oldPosition newPosition : Z) (n : nat) :
  1 <= oldPosition <= Z.of_nat n ->
  1 <= newPosition <= Z.of_nat n ->
  Permutation (map (movedPosition oldPosition newPosition)
                 (map Z.of_nat (seq 1 n)))
    (map Z.of_nat (seq 1 n)).
Proof.
  intros Ho Hn. apply NoDup_Permutation_bis.
  - apply List.NoDup_map_NoDup_ForallPairs; [|apply positions_NoDup].
    intros a b Ha Hb. apply positions_In in Ha, Hb.
    unfold movedPosition.
    repeat match goal with
           | |- context [?a =? ?b] => destruct (Z.eqb_spec a b)
           | |- context [?a <=? ?b] => destruct (Z.leb_spec a b)
           | |- context [?a <? ?b] => destruct (Z.ltb_spec a b)
           end; simpl; lia.
  - rewrite !length_map. lia.
  - intros p Hp. apply in_map_iff in Hp as [a [<- Ha]].
    apply positions_In in Ha. apply positions_In.
    unfold movedPosition.
    repeat match goal with
           | |- context [?a =? ?b] => destruct (Z.eqb_spec a b)
           | |- context [?a <=? ?b] => destruct (Z.leb_spec a b)
           | |- context [?a <? ?b] => destruct (Z.ltb_spec a b)
           end; simpl; lia.
Qed.

Lemma movePatientInQueue_positions waitingId newPosition db w :
  waitings db !! waitingId = Some w ->
  Waiting.isWaiting w = true ->
  densePositions (waitingPositions db (Waiting.doctorId w)) ->
  Forall2
    (fun x x' =>
       AllocationService.isWaitingFor (Waiting.doctorId w) x
       = AllocationService.isWaitingFor (Waiting.doctorId w) x'
       /\ (AllocationService.isWaitingFor (Waiting.doctorId w) x = true ->
           Waiting.queuePosition x'
           = movedPosition (Waiting.queuePosition w) newPosition
               (Waiting.queuePosition x)))
    (waitings db)
    (waitings
       (fst (WaitingQueueService.movePatientInQueue waitingId newPosition db))).
Proof.
  intros Hl Hw Hd.
  assert (Hqw : AllocationService.isWaitingFor (Waiting.doctorId w) w = true).
  { unfold AllocationService.isWaitingFor. now rewrite Nat.eqb_refl, Hw. }
  unfold WaitingQueueService.movePatientInQueue. rewrite Hl. cbv zeta.
  set (old := Waiting.queuePosition w).
  set (db1 := updateWaiting waitingId (Waiting.setQueuePosition newPosition) db).
  set (affected :=
         WaitingQueueService.affectedWaiting (Waiting.doctorId w) waitingId
           (Z.min old newPosition) (Z.max old newPosition) db1).
  set (delta := if old <? newPosition then -1 else 1). simpl.
  assert (Hnd : List.NoDup (map fst affected)).
  { unfold affected, WaitingQueueService.affectedWaiting.
    apply NoDup_map_filter, find_NoDup. }
  assert (Haff : forall i y, In (i, y) affected <->
            i <> waitingId /\ waitings db1 !! i = Some y
            /\ AllocationService.isWaitingFor (Waiting.doctorId w) y = true
            /\ Z.min old newPosition <= Waiting.queuePosition y
               <= Z.max old newPosition).
  { intros i y. unfold affected, WaitingQueueService.affectedWaiting.
    rewrite filter_In, find_In. simpl.
    rewrite negb_true_iff, Nat.eqb_neq, !andb_true_iff, Z.geb_leb, !Z.leb_le.
    tauto. }
  apply Forall2_same_length_lookup. split.
  { destruct (shiftEach_rest delta affected db1) as (_ & _ & -> & _).
    unfold db1, updateWaiting. simpl. symmetry. apply length_alter. }
  intros i x x' Hx Hx'.
  destruct (Nat.eq_dec i waitingId) as [->|Hne].
  - assert (x = w) by congruence. subst x.
    rewrite shiftEach_outside in Hx'.
    2:{ intros Hin. apply in_map_iff in Hin as [[i y] [Hfst Hin]].
        simpl in Hfst. subst i. apply Haff in Hin. tauto. }
    unfold db1, updateWaiting in Hx'. simpl in Hx'.
    rewrite list_lookup_alter_eq, Hl in Hx'. injection Hx' as <-.
    split; [reflexivity|]. intros _. simpl.
    unfold movedPosition. fold old. now rewrite Z.eqb_refl.
  - assert (Hx1 : waitings db1 !! i = Some x).
    { unfold db1, updateWaiting. simpl. now rewrite list_lookup_alter_ne. }
    assert (Hdist : AllocationService.isWaitingFor (Waiting.doctorId w) x = true ->
                    Waiting.queuePosition x <> old).
    { intros Hqx Heq. apply Hne.
      exact (dense_distinct db (Waiting.doctorId w) i waitingId x w
               Hd Hx Hl Hqx Hqw Heq). }
    destruct (in_dec Nat.eq_dec i (map fst affected)) as [Hin|Hout].
    + apply in_map_iff in Hin as [[i' y] [Hfst Hin]]. simpl in Hfst. subst i'.
      pose proof (proj1 (Haff i y) Hin) as (_ & Hy & Hqy & Hrange).
      assert (y = x) by congruence. subst y.
      rewrite (shiftEach_inside delta affected db1 i x x Hnd Hin Hx1) in Hx'.
      injection Hx' as <-. split; [reflexivity|]. intros _. simpl.
      unfold movedPosition. fold old.
      destruct (Z.eqb_spec (Waiting.queuePosition x) old) as [Heq|_];
        [now apply Hdist in Heq|].
      destruct (Z.leb_spec (Z.min old newPosition) (Waiting.queuePosition x));
        [|lia].
      destruct (Z.leb_spec (Waiting.queuePosition x) (Z.max old newPosition));
        [|lia].
      reflexivity.
    + rewrite shiftEach_outside in Hx' by exact Hout.
      assert (x' = x) by congruence. subst x'.
      split; [reflexivity|]. intros Hqx.
      unfold movedPosition. fold old.
      destruct (Z.eqb_spec (Waiting.queuePosition x) old) as [Heq|_];
        [now apply Hdist in Heq|].
      destruct (Z.leb_spec (Z.min old newPosition) (Waiting.queuePosition x));
        [|reflexivity].
      destruct (Z.leb_spec (Waiting.queuePosition x) (Z.max old newPosition));
        [|reflexivity].
      exfalso. apply Hout. apply in_map_iff. exists (i, x).
      split; [reflexivity|]. apply Haff. tauto.
Qed.

(** X11.  Moving a waiting entry of a queue numbered [1..N] to a position
    within [1..N] gives it that position and leaves the queue numbered
    [1..N]; no status, slot or token changes. *)
Theorem movePatientInQueue_keeps_dense (waitingId : nat) (newPosition : Z)
    (db : DB) (w : Waiting.t) :
  waitings db !! waitingId = Some w ->
  Waiting.isWaiting w = true ->
  densePositions (waitingPositions db (Waiting.doctorId w)) ->
  1 <= newPosition
    <= Z.of_nat (length (waitingPositions db (Waiting.doctorId w))) ->
  exists db',
    WaitingQueueService.movePatientInQueue waitingId newPosition db
    = (db', Ok tt)
    /\ waitings db' !! waitingId
       = Some (Waiting.setQueuePosition newPosition w)
    /\ waitingPositions db' (Waiting.doctorId w)
       = map (movedPosition (Waiting.queuePosition w) newPosition)
           (waitingPositions db (Waiting.doctorId w))
    /\ densePositions (waitingPositions db' (Waiting.doctorId w))
    /\ (forall wid, waitingStatusOf db' wid = waitingStatusOf db wid)
    /\ slots db' = slots db
    /\ tokens db' = tokens db.
Proof.
  intros Hl Hw Hd Hnew.
  assert (Hqw : AllocationService.isWaitingFor (Waiting.doctorId w) w = true).
  { unfold AllocationService.isWaitingFor. now rewrite Nat.eqb_refl, Hw. }
  pose proof (movePatientInQueue_positions waitingId newPosition db w Hl Hw Hd)
    as Hrel.
  assert (Hpos : waitingPositions
                   (fst (WaitingQueueService.movePatientInQueue waitingId
                           newPosition db)) (Waiting.doctorId w)
                 = map (movedPosition (Waiting.queuePosition w) newPosition)
                     (waitingPositions db (Waiting.doctorId w))).
  { unfold waitingPositions. now apply find_map_related. }
  revert Hpos. clear Hrel.
  unfold WaitingQueueService.movePatientInQueue. rewrite Hl. cbv zeta. simpl.
  match goal with
  | |- context [WaitingQueueService.shiftEach ?d ?a ?b] =>
      set (delta := d); set (affected := a); set (db1 := b)
  end.
  intros Hpos. exists (WaitingQueueService.shiftEach delta affected db1).
  destruct (shiftEach_rest delta affected db1) as (Hs & Ht & _ & Hst).
  split; [reflexivity|]. split.
  { rewrite shiftEach_outside.
    - unfold db1, updateWaiting. simpl.
      rewrite list_lookup_alter_eq, Hl. reflexivity.
    - intros Hin. apply in_map_iff in Hin as [[i y] [Hfst Hin]].
      simpl in Hfst. subst i. unfold affected,
        WaitingQueueService.affectedWaiting in Hin.
      apply filter_In in Hin as [_ Hin]. simpl in Hin.
      rewrite Nat.eqb_refl in Hin. discriminate. }
  split; [exact Hpos|]. split.
  { unfold densePositions. rewrite Hpos, length_map.
    etransitivity; [apply Permutation_map; exact Hd|].
    apply movedPosition_permutes; [|exact Hnew].
    apply dense_bounds; [exact Hd|].
    eapply waiting_position_In; eassumption. }
  split.
  { intros wid. rewrite Hst. now apply updateWaiting_status_kept. }
  split; [rewrite Hs|rewrite Ht]; reflexivity.
Qed.

Lemma movePatientInQueue_keeps_dense_witness :
  exists db',
    WaitingQueueService.movePatientInQueue 2 1 Examples.threeWaiting
    = (db', Ok tt)
    /\ waitingPositions db' 1 = [2; 3; 1].
Proof.
  destruct (movePatientInQueue_keeps_dense 2 1 Examples.threeWaiting
              (Waiting.mk 9 1 "online" 40 None Waiting.waiting 3 None
                 100 2))
    as (db' & Hrun & _ & Hpos & _).
  - reflexivity.
  - reflexivity.
  - unfold densePositions. simpl. reflexivity.
  - simpl. lia.
  - exists db'. split; [exact Hrun|]. exact Hpos.
Defined.

(** ** Displacement and emergencies *)

Lemma markFull_fields (s : Slot.t) :
  Slot.currentOccupancy (Slot.markFullIfAtCapacity s) = Slot.currentOccupancy s
  /\ Slot.maxCapacity (Slot.markFullIfAtCapacity s) = Slot.maxCapacity s
  /\ Slot.allocatedTokens (Slot.markFullIfAtCapacity s) = Slot.allocatedTokens s.
Proof.
  unfold Slot.markFullIfAtCapacity. destruct (_ >=? _); repeat split.
Qed.

Lemma reopenIfBelowCapacity_fields (s : Slot.t) :
  Slot.currentOccupancy (Slot.reopenIfBelowCapacity s) = Slot.currentOccupancy s
  /\ Slot.maxCapacity (Slot.reopenIfBelowCapacity s) = Slot.maxCapacity s
  /\ Slot.allocatedTokens (Slot.reopenIfBelowCapacity s)
     = Slot.allocatedTokens s.
Proof.
  unfold Slot.reopenIfBelowCapacity. destruct (_ && _); repeat split.
Qed.

Lemma findOne_Some {A : Type} (q : A -> bool) (l : list A) (i : nat) (x : A) :
  Mongo.findOne q l = Some (i, x) -> l !! i = Some x /\ q x = true.
Proof.
  unfold Mongo.findOne. intros H. apply (find_In q).
  apply list_elem_of_In. apply head_Some_elem_of. exact H.
Qed.

Lemma findOne_None {A : Type} (q : A -> bool) (l : list A) (i : nat) (x : A) :
  Mongo.findOne q l = None -> l !! i = Some x -> q x = false.
Proof.
  unfold Mongo.findOne. intros H Hl.
  destruct (q x) eqn:Hq; [|reflexivity].
  assert (Hin : In (i, x) (Mongo.find q l)) by (apply find_In; tauto).
  destruct (Mongo.find q l); [destruct Hin|discriminate].
Qed.

Lemma emergency_score :
  validatedScore "emergency" (Priority.calculatePriorityScore "emergency")
  = Some 100.
Proof. reflexivity. Qed.

(** X13.  [handleEmergency] either fails and leaves the store as it is, or
    books a new emergency token with score 100 into the slot in progress.
    It books only when that slot has room: a full slot would take the
    emergency only after one of its tokens has been moved out, and that
    never happens.  So the slot in progress gains exactly the new token,
    no other slot, no stored token and no waiting entry changes, and no
    slot that was within its capacity is pushed beyond it. *)
Theorem handleEmergency_within_capacity (now : Z) (patientId doctorId : nat)
    (db db' : DB) (r : result nat) :
  AllocationService.handleEmergency now patientId doctorId db = (db', r) ->
  match r with
  | Err _ => db' = db
  | Ok tid =>
      tid = length (tokens db)
      /\ waitings db' = waitings db
      /\ exists sid cur cur',
           Mongo.findOne (AllocationService.isCurrentSlot now doctorId)
             (slots db) = Some (sid, cur)
           /\ Slot.currentOccupancy cur < Slot.maxCapacity cur
           /\ tokens db'
              = tokens db
                ++ [Token.mk patientId doctorId sid "emergency" 100
                      Token.booked now false None None None None now]
           /\ tokens db' !! tid
              = Some (Token.mk patientId doctorId sid "emergency" 100
                        Token.booked now false None None None None now)
           /\ cur' = Slot.markFullIfAtCapacity (Slot.push tid cur)
           /\ slots db' !! sid = Some cur'
           /\ In tid (Slot.allocatedTokens cur')
           /\ (forall i, i <> sid -> slots db' !! i = slots db !! i)
           /\ ((forall i s, slots db !! i = Some s ->
                            Slot.currentOccupancy s <= Slot.maxCapacity s) ->
               forall i s, slots db' !! i = Some s ->
                           Slot.currentOccupancy s <= Slot.maxCapacity s)
  end.
Proof.
  unfold AllocationService.handleEmergency.
  destruct (Mongo.findOne _ _) as [[sid cur]|] eqn:Hcur;
    [|intros [= <- <-]; reflexivity].
  cbv zeta. rewrite emergency_score.
  pose proof (findOne_Some _ _ _ _ Hcur) as [Hsid _].
  pose proof (lookup_lt_Some _ _ _ Hsid) as Hlt.
  destruct (Slot.currentOccupancy cur >=? Slot.maxCapacity cur) eqn:Hfull.
  - rewrite reallocate_never. simpl. intros [= <- <-]. reflexivity.
  - simpl. unfold insertToken. simpl. intros [= <- <-].
    rewrite Z.geb_leb in Hfull. apply Z.leb_gt in Hfull.
    split; [reflexivity|]. split; [reflexivity|].
    eexists sid, cur, _. split; [reflexivity|]. split; [exact Hfull|].
    split; [reflexivity|]. split.
    { apply list_lookup_middle. reflexivity. }
    split; [reflexivity|].
    split; [now apply list_lookup_insert_eq|]. split.
    { destruct (markFull_fields (Slot.push (length (tokens db)) cur))
        as (_ & _ & ->).
      simpl. apply in_or_app. right. now left. }
    split.
    { intros i Hne. apply list_lookup_insert_ne. congruence. }
    intros Hcap i s Hi.
    apply list_lookup_insert_Some in Hi as [(_ & <- & _)|[_ Hi]].
    { destruct (markFull_fields (Slot.push (length (tokens db)) cur))
        as (-> & -> & _).
      simpl. lia. }
    now apply (Hcap i).
Qed.

Lemma handleEmergency_within_capacity_witness :
  exists cur',
    snd (AllocationService.handleEmergency 150 9 1 Examples.bookedToken)
    = Ok 1%nat
    /\ slots (fst (AllocationService.handleEmergency 150 9 1
                     Examples.bookedToken)) !! 0%nat = Some cur'
    /\ In 1%nat (Slot.allocatedTokens cur')
    /\ Slot.currentOccupancy cur' = 2
    /\ Slot.maxCapacity cur' = 2.
Proof.
  pose proof (handleEmergency_within_capacity 150 9 1 Examples.bookedToken
                _ (Ok 1%nat) eq_refl) as (_ & _ & sid & cur & cur' & H).
  destruct H as (Hcur & _ & _ & _ & Hcur' & Hsid & Hin & _).
  injection Hcur as <- <-.
  exists cur'. split; [reflexivity|]. split; [exact Hsid|].
  split; [exact Hin|]. rewrite Hcur'. split; reflexivity.
Defined.

Lemma saveToken_relocate_keeps now lowId nid time original low db j tk :
  tokens db !! lowId = Some low ->
  tokens db !! j = Some tk ->
  exists tk',
    tokens (saveToken now lowId (Token.relocate nid time original low) db) !! j
    = Some tk'
    /\ Token.patientId tk' = Token.patientId tk
    /\ Token.source tk' = Token.source tk
    /\ Token.priorityScore tk' = Token.priorityScore tk
    /\ Token.status tk' = Token.status tk
    /\ (Token.slotId tk' = Token.slotId tk \/ Token.isReallocation tk' = true).
Proof.
  intros Hlow Hj. destruct (Nat.eq_dec j lowId) as [->|Hne].
  - assert (tk = low) by congruence. subst tk.
    destruct (saveToken_same now lowId (Token.relocate nid time original low)
                db low Hlow) as [tk' [Hl [Hshape _]]].
    exists tk'. split; [exact Hl|].
    destruct Hshape as [-> | ->]; simpl; tauto.
  - exists tk. rewrite saveToken_other by exact Hne. tauto.
Qed.

Lemma head_sortAscending_In (l : list (nat * Token.t)) (d : nat * Token.t) :
  head (EmergencyService.sortAscending l) = Some d -> In d l.
Proof.
  intros H. unfold EmergencyService.sortAscending in H.
  eapply sort_In. apply list_elem_of_In. eapply head_Some_elem_of. exact H.
Qed.

(** X14.  [fastTrackEmergency] fails, writing nothing, exactly when the
    doctor has no slot in progress.  Otherwise it always books: a new token
    with source [emergency], score 100 and status [booked] is stored and
    put last in the list of the slot in progress, whatever the occupancy of
    that slot; the waiting queue is not touched. *)
Theorem fastTrackEmergency_books (now : Z) (patientId doctorId : nat)
    (db : DB) :
  match Mongo.findOne (AllocationService.isCurrentSlot now doctorId)
          (slots db) with
  | None =>
      exists msg,
        EmergencyService.fastTrackEmergency now patientId doctorId db
        = (db, Err msg)
  | Some (sid, cur) =>
      exists db' token cur',
        EmergencyService.fastTrackEmergency now patientId doctorId db
        = (db', Ok (length (tokens db)))
        /\ length (tokens db') = S (length (tokens db))
        /\ tokens db' !! length (tokens db) = Some token
        /\ Token.patientId token = patientId
        /\ Token.source token = "emergency"
        /\ Token.priorityScore token = 100
        /\ Token.status token = Token.booked
        /\ (Token.slotId token = sid \/ Token.isReallocation token = true)
        /\ slots db' !! sid = Some cur'
        /\ last (Slot.allocatedTokens cur') = Some (length (tokens db))
        /\ waitings db' = waitings db
  end.
Proof.
  destruct (Mongo.findOne _ _) as [[sid cur]|] eqn:Hcur.
  2:{ unfold EmergencyService.fastTrackEmergency. rewrite Hcur.
      eexists. reflexivity. }
  apply findOne_Some in Hcur as Hsid. destruct Hsid as [Hsid _].
  pose proof (lookup_lt_Some _ _ _ Hsid) as Hlt.
  unfold EmergencyService.fastTrackEmergency. rewrite Hcur.
  unfold insertToken. cbv zeta.
  set (emergencyToken :=
         Token.mk patientId doctorId sid "emergency" 100 Token.booked now
           false None None None None now).
  set (db1 := withTokens (fun l => l ++ [emergencyToken]) db).
  assert (He : tokens db1 !! length (tokens db) = Some emergencyToken).
  { unfold db1. simpl. apply list_lookup_middle. reflexivity. }
  assert (Hlen1 : length (tokens db1) = S (length (tokens db))).
  { unfold db1. simpl. rewrite length_app. simpl. lia. }
  assert (Hplain :
    exists db' token cur',
      (saveSlot sid
         (Slot.markFullIfAtCapacity (Slot.push (length (tokens db)) cur)) db1,
       Ok (length (tokens db)))
      = (db', Ok (length (tokens db)))
      /\ length (tokens db') = S (length (tokens db))
      /\ tokens db' !! length (tokens db) = Some token
      /\ Token.patientId token = patientId
      /\ Token.source token = "emergency"
      /\ Token.priorityScore token = 100
      /\ Token.status token = Token.booked
      /\ (Token.slotId token = sid \/ Token.isReallocation token = true)
      /\ slots db' !! sid = Some cur'
      /\ last (Slot.allocatedTokens cur') = Some (length (tokens db))
      /\ waitings db' = waitings db).
  { eexists _, emergencyToken, _. split; [reflexivity|].
    split; [exact Hlen1|]. split; [exact He|].
    do 4 (split; [reflexivity|]). split; [now left|].
    split; [simpl; now apply list_lookup_insert_eq|].
    split; [|reflexivity].
    destruct (markFull_fields (Slot.push (length (tokens db)) cur))
      as (_ & _ & ->).
    simpl. apply last_snoc. }
  destruct (Slot.currentOccupancy cur >=? Slot.maxCapacity cur);
    [|exact Hplain].
  destruct (head _) as [[lowId low]|] eqn:Hhead; [|exact Hplain].
  destruct (Mongo.findOneSorted _ _ _) as [[nid next]|]; [|exact Hplain].
  clear Hplain.
  apply head_sortAscending_In, find_In in Hhead as [Hlow _].
  destruct (saveToken_relocate_keeps now lowId nid (Slot.startTime next)
              (Token.originalSlotId low) low db1 (length (tokens db))
              emergencyToken Hlow He)
    as (token & Htok & Hp & Hsrc & Hscore & Hst & Hslot).
  eexists _, token, _. split; [reflexivity|].
  split; [simpl; now rewrite saveToken_length|].
  split; [exact Htok|].
  do 4 (split; [assumption|]). split; [exact Hslot|].
  split.
  { simpl. apply list_lookup_insert_eq.
    now rewrite length_insert, saveToken_slots. }
  split; [|simpl; now rewrite saveToken_waitings].
  destruct (markFull_fields
              (Slot.push (length (tokens db)) (Slot.remove lowId cur)))
    as (_ & _ & ->).
  simpl. apply last_snoc.
Qed.

(** X15.  When the slot in progress is counted as full but none of its
    tokens is active any more, and the doctor has a later available slot,
    [fastTrackEmergency] moves the emergency token it has just created:
    the stored token points to the later slot, and both slots list it. *)
Theorem fastTrackEmergency_moves_itself (now : Z) (patientId doctorId : nat)
    (db : DB) (sid nid : nat) (cur next : Slot.t) :
  Mongo.findOne (AllocationService.isCurrentSlot now doctorId) (slots db)
  = Some (sid, cur) ->
  Slot.maxCapacity cur <= Slot.currentOccupancy cur ->
  AllocationService.activeTokensOf db sid = [] ->
  Mongo.findOneSorted byDateThenStart
    (fun s => Nat.eqb (Slot.doctorId s) doctorId
              && (Slot.date s >? Slot.date cur)
              && Slot.isAvailable s)
    (slots db) = Some (nid, next) ->
  exists db' token cur' next',
    EmergencyService.fastTrackEmergency now patientId doctorId db
    = (db', Ok (length (tokens db)))
    /\ tokens db' !! length (tokens db) = Some token
    /\ Token.source token = "emergency"
    /\ Token.slotId token = nid
    /\ nid <> sid
    /\ slots db' !! sid = Some cur'
    /\ In (length (tokens db)) (Slot.allocatedTokens cur')
    /\ slots db' !! nid = Some next'
    /\ In (length (tokens db)) (Slot.allocatedTokens next').
Proof.
  intros Hcur Hfull Hnone Hnext.
  pose proof (findOne_Some _ _ _ _ Hcur) as [Hsid _].
  pose proof (findOneSorted_Some _ _ _ _ _ Hnext) as [Hnid Hq].
  rewrite !andb_true_iff in Hq. destruct Hq as [[_ Hdate] _].
  assert (Hne : nid <> sid).
  { intros ->. assert (next = cur) by congruence. subst next. lia. }
  unfold EmergencyService.fastTrackEmergency. rewrite Hcur.
  unfold insertToken. cbv zeta.
  set (emergencyToken :=
         Token.mk patientId doctorId sid "emergency" 100 Token.booked now
           false None None None None now).
  set (db1 := withTokens (fun l => l ++ [emergencyToken]) db).
  assert (He : tokens db1 !! length (tokens db) = Some emergencyToken).
  { unfold db1. simpl. apply list_lookup_middle. reflexivity. }
  assert (Hact : AllocationService.activeTokensOf db1 sid
                 = [(length (tokens db), emergencyToken)]).
  { unfold AllocationService.activeTokensOf, db1. simpl.
    rewrite find_snoc. fold (AllocationService.activeTokensOf db sid).
    rewrite Hnone. simpl. now rewrite Nat.eqb_refl. }
  destruct (Z.geb_spec (Slot.currentOccupancy cur) (Slot.maxCapacity cur));
    [|lia].
  rewrite Hact. simpl head.
  change (slots db1) with (slots db). rewrite Hnext.
  destruct (saveToken_same now (length (tokens db))
              (Token.relocate nid (Slot.startTime next)
                 (Token.originalSlotId emergencyToken) emergencyToken)
              db1 emergencyToken He) as [token [Htok [Hshape _]]].
  eexists _, token, _, _. split; [reflexivity|].
  split; [exact Htok|].
  split; [destruct Hshape as [-> | ->]; reflexivity|].
  split; [destruct Hshape as [-> | ->]; reflexivity|].
  split; [exact Hne|]. split.
  { simpl. apply list_lookup_insert_eq.
    rewrite length_insert, saveToken_slots. eapply lookup_lt_Some. exact Hsid. }
  split.
  { destruct (markFull_fields
                (Slot.push (length (tokens db))
                   (Slot.remove (length (tokens db)) cur))) as (_ & _ & ->).
    simpl. apply in_or_app. right. now left. }
  split.
  { simpl. rewrite list_lookup_insert_ne by congruence.
    apply list_lookup_insert_eq. rewrite saveToken_slots.
    eapply lookup_lt_Some. exact Hnid. }
  simpl. apply in_or_app. right. now left.
Qed.

Lemma fastTrackEmergency_moves_itself_witness :
  exists db' token,
    EmergencyService.fastTrackEmergency 15 9 1 Examples.seenThenFree
    = (db', Ok 1%nat)
    /\ tokens db' !! 1%nat = Some token
    /\ Token.source token = "emergency"
    /\ Token.slotId token = 1%nat.
Proof.
  destruct (fastTrackEmergency_moves_itself 15 9 1 Examples.seenThenFree 0 1
              Examples.fullSlotAt10
              (Slot.mk 1 20 30 1 0 Slot.available 20 []))
    as (db' & token & cur' & next' & H).
  - reflexivity.
  - simpl. lia.
  - reflexivity.
  - reflexivity.
  - exists db', token. tauto.
Defined.

Lemma sortAscending_head (l : list (nat * Token.t)) (d : nat * Token.t) :
  head (EmergencyService.sortAscending l) = Some d ->
  In d l
  /\ forall x, In x l ->
       AllocationService.tokenScore d <= AllocationService.tokenScore x.
Proof.
  intros H. split; [now apply head_sortAscending_In|].
  intros x Hx. unfold EmergencyService.sortAscending in H.
  set (cmp := fun a b : nat * Token.t =>
                AllocationService.tokenScore a - AllocationService.tokenScore b)
    in H.
  pose proof (sort_sorted cmp ltac:(unfold cmp; intros; lia)
                ltac:(unfold cmp; intros; lia) l) as Hs.
  apply (sort_In cmp) in Hx.
  destruct (Js.sort cmp l) as [|y rest]; [discriminate|].
  injection H as ->. destruct Hx as [<-|Hx]; [lia|].
  inversion Hs as [|? ? _ Hall]; subst.
  rewrite List.Forall_forall in Hall. specialize (Hall x Hx).
  unfold Js.notAfter, cmp in Hall. lia.
Qed.

(** X16.  [handleEmergencyReallocation] never writes and never reports a
    reallocation.  For an unknown slot it throws.  For a slot with room, or
    a slot no token points to, it answers that no reallocation is needed.
    For a slot at or over its capacity it answers with a refusal when
    every token that points to the slot scores at least the new patient's
    score, and when some token scores strictly below it, the search for
    the slot to move that token to is rejected and the call throws. *)
Theorem handleEmergencyReallocation_never_moves (now : Z) (slotId : nat)
    (newPatientPriority : Z) (db : DB) :
  let out :=
    EmergencyService.handleEmergencyReallocation now slotId newPatientPriority
      db in
  fst out = db
  /\ match slots db !! slotId with
     | None => exists msg, snd out = Err msg
     | Some slot =>
         (Slot.currentOccupancy slot < Slot.maxCapacity slot ->
          snd out = Ok (EmergencyService.mkReallocation true false None))
         /\ (Slot.maxCapacity slot <= Slot.currentOccupancy slot ->
             (forall tid tk, tokens db !! tid = Some tk ->
                             Token.slotId tk <> slotId) ->
             snd out = Ok (EmergencyService.mkReallocation true false None))
         /\ (Slot.maxCapacity slot <= Slot.currentOccupancy slot ->
             forall tid tk,
               tokens db !! tid = Some tk -> Token.slotId tk = slotId ->
               (forall tid' tk',
                  tokens db !! tid' = Some tk' -> Token.slotId tk' = slotId ->
                  newPatientPriority <= Token.priorityScore tk') ->
               snd out = Ok (EmergencyService.mkReallocation false false None))
         /\ (Slot.maxCapacity slot <= Slot.currentOccupancy slot ->
             forall tid tk,
               tokens db !! tid = Some tk -> Token.slotId tk = slotId ->
               Token.priorityScore tk < newPatientPriority ->
               exists msg, snd out = Err msg)
     end.
Proof.
  intros out. subst out.
  unfold EmergencyService.handleEmergencyReallocation.
  destruct (slots db !! slotId) as [stored|] eqn:Hslot;
    [|split; [reflexivity|eexists; reflexivity]].
  simpl.
  destruct (Z.ltb_spec (Slot.currentOccupancy stored) (Slot.maxCapacity stored))
    as [Hroom|Hfull].
  { split; [reflexivity|]. split; [reflexivity|].
    split; [intros; lia|]. split; intros; lia. }
  assert (Hfind : forall tid tk,
            tokens db !! tid = Some tk -> Token.slotId tk = slotId ->
            In (tid, tk)
              (Mongo.find (fun tk => Nat.eqb (Token.slotId tk) slotId)
                 (tokens db))).
  { intros tid tk Htk Hs. apply find_In. split; [exact Htk|].
    now apply Nat.eqb_eq. }
  destruct (head _) as [[lowId low]|] eqn:Hhead.
  2:{ assert (Hnone : forall tid tk, tokens db !! tid = Some tk ->
                                     Token.slotId tk <> slotId).
      { intros tid tk Htk Hs. pose proof (Hfind tid tk Htk Hs) as Hin.
        unfold EmergencyService.sortAscending in Hhead.
        apply head_None, sort_nil_inv in Hhead.
        rewrite Hhead in Hin. destruct Hin. }
      split; [reflexivity|]. split; [intros; lia|].
      split; [reflexivity|].
      split; intros _ tid tk Htk Hs; exfalso; eapply Hnone; eassumption. }
  apply sortAscending_head in Hhead as [Hin Hmin].
  apply find_In in Hin as [Hlow Hsid]. apply Nat.eqb_eq in Hsid.
  destruct (Z.geb_spec (Token.priorityScore low) newPatientPriority)
    as [Hge|Hlt].
  - split; [reflexivity|]. split; [intros; lia|].
    split; [intros _ Hno; exfalso; eapply Hno; eassumption|].
    split; [reflexivity|].
    intros _ tid tk Htk Hs Hbelow. exfalso.
    pose proof (Hmin (tid, tk) (Hfind tid tk Htk Hs)) as Hle.
    unfold AllocationService.tokenScore in Hle. simpl in Hle. lia.
  - split; [reflexivity|]. split; [intros; lia|].
    split; [intros _ Hno; exfalso; eapply Hno; eassumption|].
    split.
    + intros _ tid tk Htk Hs Hall. exfalso.
      pose proof (Hall lowId low Hlow Hsid). lia.
    + intros. eexists. reflexivity.
Qed.

Lemma handleEmergencyReallocation_never_moves_witness :
  snd (EmergencyService.handleEmergencyReallocation 5 0 40
         (Examples.fullThenFree 40))
  = Ok (EmergencyService.mkReallocation false false None)
  /\ fst (EmergencyService.handleEmergencyReallocation 5 0 100
            (Examples.fullThenFree 40)) = Examples.fullThenFree 40
  /\ exists msg,
       snd (EmergencyService.handleEmergencyReallocation 5 0 100
              (Examples.fullThenFree 40)) = Err msg.
Proof.
  pose proof (handleEmergencyReallocation_never_moves 5 0 40
                (Examples.fullThenFree 40)) as H40.
  pose proof (handleEmergencyReallocation_never_moves 5 0 100
                (Examples.fullThenFree 40)) as H100.
  cbv zeta in H40, H100.
  destruct H40 as [_ H40]. destruct H100 as [Hdb100 H100].
  change (slots (Examples.fullThenFree 40) !! 0%nat)
    with (Some Examples.fullSlotAt10) in H40, H100.
  destruct H40 as (_ & _ & Hrefuse & _).
  destruct H100 as (_ & _ & _ & Hthrow).
  split; [|split; [exact Hdb100|]].
  - apply (Hrefuse ltac:(simpl; lia) 0%nat
             (Token.mk 5 1 0 "online" 40 Token.booked 10 false None None None
                None 0) eq_refl eq_refl).
    intros [|tid'] tk' Htk' _; [|discriminate Htk'].
    injection Htk' as <-. simpl. lia.
  - apply (Hthrow ltac:(simpl; lia) 0%nat
             (Token.mk 5 1 0 "online" 40 Token.booked 10 false None None None
                None 0) eq_refl eq_refl).
    simpl. lia.
Defined.

(** ** Cancelling a whole slot *)

Lemma populate_In {A : Type} (coll : list A) (ids : list nat) (i : nat) :
  In i (map fst (Mongo.populate coll ids))
  <-> In i ids /\ exists x, coll !! i = Some x.
Proof.
  unfold Mongo.populate. rewrite in_map_iff. split.
  - intros [[j x] [Hfst Hin]]. simpl in Hfst. subst j.
    apply list_elem_of_In, list_elem_of_omap in Hin as [y [Hy Hf]].
    destruct (coll !! y) as [d|] eqn:Hd; [|discriminate].
    injection Hf as -> ->. split; [now apply list_elem_of_In|].
    now exists x.
  - intros [Hin [x Hx]]. exists (i, x). split; [reflexivity|].
    apply list_elem_of_In, list_elem_of_omap. exists i.
    split; [now apply list_elem_of_In|]. now rewrite Hx.
Qed.

Lemma setCancelled_saved now id reason token db :
  tokens db !! id = Some token ->
  CancellationService.isCompletedOrCancelled token = false ->
  tokens (saveToken now id (Token.setCancelled reason token) db) !! id
  = Some (Token.stamp now (Token.setCancelled reason token)).
Proof.
  intros Hl Hcc.
  destruct (saveToken_same now id (Token.setCancelled reason token) db token Hl)
    as [tk' [-> [_ Hne]]].
  f_equal. apply Hne. intros Heq.
  unfold CancellationService.isCompletedOrCancelled in Hcc.
  rewrite Heq in Hcc. discriminate.
Qed.

Lemma cancelEach_spec now reason ids :
  forall db db' cancelledTokenIds,
    CancellationService.cancelEach now reason ids db
    = (db', cancelledTokenIds) ->
    slots db' = slots db
    /\ waitings db' = waitings db
    /\ (forall j tk, tokens db !! j = Some tk ->
          (In j ids -> CancellationService.isCompletedOrCancelled tk = false ->
           tokens db' !! j = Some (Token.stamp now (Token.setCancelled reason tk)))
          /\ (~ In j ids \/ CancellationService.isCompletedOrCancelled tk = true ->
              tokens db' !! j = Some tk))
    /\ List.NoDup cancelledTokenIds
    /\ (forall j, In j cancelledTokenIds <->
          In j ids
          /\ exists tk, tokens db !! j = Some tk
               /\ CancellationService.isCompletedOrCancelled tk = false).
Proof.
  induction ids as [|i rest IH]; intros db db' cs; simpl.
  - intros [= <- <-]. split; [reflexivity|]. split; [reflexivity|].
    split; [intros j tk Hj; tauto|]. split; [constructor|].
    intros j. simpl. tauto.
  - destruct (tokens db !! i) as [token|] eqn:Hi.
    + destruct (CancellationService.isCompletedOrCancelled token) eqn:Hcc.
      * intros H. apply IH in H as (Hs & Hw & Htok & Hnd & Hcs).
        split; [exact Hs|]. split; [exact Hw|]. split.
        { intros j tk Hj. destruct (Htok j tk Hj) as [H1 H2]. split.
          - intros [<-|Hin] Hnot; [congruence|]. now apply H1.
          - intros [Hout|Hyes]; apply H2; tauto. }
        split; [exact Hnd|].
        intros j. rewrite Hcs. split.
        { intros [Hin Htk]. tauto. }
        intros [[<-|Hin] [tk [Hj Hnot]]]; [congruence|].
        split; [exact Hin|]. now exists tk.
      * destruct (CancellationService.cancelEach now reason rest
                    (saveToken now i (Token.setCancelled reason token) db))
          as [db2 cs2] eqn:Hrec.
        intros [= <- <-].
        apply IH in Hrec as (Hs & Hw & Htok & Hnd & Hcs).
        pose proof (setCancelled_saved now i reason token db Hi Hcc) as Hsaved.
        assert (Hkept : tokens db2 !! i
                        = Some (Token.stamp now (Token.setCancelled reason token))).
        { apply (Htok i _ Hsaved). right. reflexivity. }
        split; [now rewrite Hs, saveToken_slots|].
        split; [now rewrite Hw, saveToken_waitings|]. split.
        { intros j tk Hj. destruct (Nat.eq_dec j i) as [->|Hne].
          - assert (tk = token) by congruence. subst tk. split.
            + intros _ _. exact Hkept.
            + intros [Hout|Hyes]; [exfalso; apply Hout; now left|congruence].
          - assert (Hj1 : tokens (saveToken now i
                                    (Token.setCancelled reason token) db) !! j
                          = Some tk) by (now rewrite saveToken_other).
            destruct (Htok j tk Hj1) as [H1 H2]. split.
            + intros [Heq|Hin] Hnot; [congruence|]. now apply H1.
            + intros [Hout|Hyes]; apply H2; tauto. }
        split.
        { constructor; [|exact Hnd]. intros Hin.
          apply Hcs in Hin as [_ [tk [Htk Hnot]]].
          rewrite Hsaved in Htk. injection Htk as <-. discriminate Hnot. }
        intros j. simpl. rewrite Hcs. split.
        { intros [<-|[Hin [tk [Htk Hnot]]]].
          - split; [now left|]. now exists token.
          - split; [now right|]. exists tk. split; [|exact Hnot].
            destruct (Nat.eq_dec j i) as [->|Hne].
            + rewrite Hsaved in Htk. injection Htk as <-. discriminate Hnot.
            + now rewrite saveToken_other in Htk. }
        intros [Hin [tk [Htk Hnot]]].
        destruct (Nat.eq_dec i j) as [Heq|Hne]; [now left|]. right.
        split; [destruct Hin; [contradiction|assumption]|].
        exists tk. split; [|exact Hnot].
        rewrite saveToken_other by congruence. exact Htk.
    + intros H. apply IH in H as (Hs & Hw & Htok & Hnd & Hcs).
      split; [exact Hs|]. split; [exact Hw|]. split.
      { intros j tk Hj. destruct (Htok j tk Hj) as [H1 H2]. split.
        - intros [<-|Hin] Hnot; [congruence|]. now apply H1.
        - intros [Hout|Hyes]; apply H2; tauto. }
      split; [exact Hnd|].
      intros j. rewrite Hcs. split.
      { intros [Hin Htk]. tauto. }
      intros [[<-|Hin] [tk [Hj Hnot]]]; [congruence|].
      split; [exact Hin|]. now exists tk.
Qed.

(** X17.  [bulkCancelSlot] reports an unknown slot as an error and writes
    nothing.  Otherwise the slot is stored as cancelled and empty; every
    token the slot lists that is neither completed nor cancelled becomes
    cancelled with the reason; every other token and the waiting queue are
    left as they are; and the count returned is the number of distinct
    tokens cancelled. *)
Theorem bulkCancelSlot_cancels_listed (now : Z) (slotId : nat)
    (reason : option string) (db : DB) :
  match slots db !! slotId with
  | None =>
      exists msg,
        CancellationService.bulkCancelSlot now slotId reason db = (db, Err msg)
  | Some slot =>
      exists db' cancelledTokenIds,
        CancellationService.bulkCancelSlot now slotId reason db
        = (db', Ok (Z.of_nat (length cancelledTokenIds)))
        /\ slots db'
           = <[slotId := Slot.setOccupancy 0 []
                           (Slot.setStatus Slot.cancelled slot)]> (slots db)
        /\ waitings db' = waitings db
        /\ (forall j tk,
              tokens db !! j = Some tk ->
              In j (Slot.allocatedTokens slot) ->
              CancellationService.isCompletedOrCancelled tk = false ->
              tokens db' !! j
              = Some (Token.stamp now (Token.setCancelled reason tk)))
        /\ (forall j tk,
              tokens db !! j = Some tk ->
              ~ In j (Slot.allocatedTokens slot)
              \/ CancellationService.isCompletedOrCancelled tk = true ->
              tokens db' !! j = Some tk)
        /\ List.NoDup cancelledTokenIds
        /\ (forall j, In j cancelledTokenIds <->
              In j (Slot.allocatedTokens slot)
              /\ exists tk, tokens db !! j = Some tk
                   /\ CancellationService.isCompletedOrCancelled tk = false)
  end.
Proof.
  destruct (slots db !! slotId) as [slot|] eqn:Hslot.
  2:{ unfold CancellationService.bulkCancelSlot. rewrite Hslot.
      eexists. reflexivity. }
  unfold CancellationService.bulkCancelSlot. rewrite Hslot. cbv zeta.
  destruct (CancellationService.cancelEach now reason _ db) as [db1 cs] eqn:Hrun.
  apply cancelEach_spec in Hrun as (Hs & Hw & Htok & Hnd & Hcs).
  exists (saveSlot slotId
            (Slot.setOccupancy 0 [] (Slot.setStatus Slot.cancelled slot)) db1),
    cs.
  split; [reflexivity|]. split; [simpl; now rewrite Hs|].
  split; [exact Hw|]. split.
  { intros j tk Hj Hin Hnot. apply (Htok j tk Hj); [|exact Hnot].
    apply populate_In. split; [exact Hin|]. now exists tk. }
  split.
  { intros j tk Hj Hor. apply (Htok j tk Hj).
    destruct Hor as [Hout|Hyes]; [left|now right].
    intros Hin. apply populate_In in Hin. tauto. }
  split; [exact Hnd|].
  intros j. rewrite Hcs, populate_In. split.
  - intros [[Hin _] Htk]. tauto.
  - intros [Hin [tk [Hj Hnot]]]. split; [split; [exact Hin|]|]; now exists tk.
Qed.

(** ** The priority utilities *)

Lemma getSourceFromPriority_cases (score : Z) :
  Priority.getSourceFromPriority score
  = if 100 =? score then "emergency"
    else if 80 =? score then "paid_priority"
    else if 60 =? score then "follow_up"
    else if 40 =? score then "online"
    else "walk_in".
Proof.
  unfold Priority.getSourceFromPriority, Priority.PRIORITY_LEVELS.
  cbn [Priority.firstSourceWithScore].
  repeat match goal with
         | |- context [?a =? score] => destruct (Z.eqb_spec a score)
         end; reflexivity.
Qed.

(** X18.  [getSourceFromPriority] inverts the scoring table: for each of
    the five categories it returns the category from its score.  Its
    result is always one of the five categories, and scoring the result
    gives back the score exactly for the five table scores; every other
    score (0 included) comes back as [walk_in]. *)
Theorem getSourceFromPriority_inverts_table :
  (forall source score,
     validSource source = true ->
     Priority.calculatePriorityScore source = Js.Num score ->
     Priority.getSourceFromPriority score = source)
  /\ (forall score, validSource (Priority.getSourceFromPriority score) = true)
  /\ (forall score,
        Priority.calculatePriorityScore (Priority.getSourceFromPriority score)
        = Js.Num score
        <-> In score [100; 80; 60; 40; 20])
  /\ (forall score,
        ~ In score [100; 80; 60; 40; 20] ->
        Priority.getSourceFromPriority score = "walk_in").
Proof.
  split; [|split; [|split]].
  - intros source score Hv Hs.
    unfold validSource, knownSources, Js.inStrings in Hv. simpl in Hv.
    repeat match type of Hv with
           | context [String.eqb ?a ?b] =>
               destruct (String.eqb_spec a b) as [->|_];
                 [injection Hs as <-; reflexivity|]
           end.
    discriminate Hv.
  - intros score. rewrite getSourceFromPriority_cases.
    repeat match goal with
           | |- context [?a =? score] => destruct (Z.eqb_spec a score)
           end; reflexivity.
  - intros score. rewrite getSourceFromPriority_cases.
    repeat match goal with
           | |- context [?a =? score] => destruct (Z.eqb_spec a score)
           end; subst; (split; intros H).
    all: try (cbv in H; inversion H; subst; simpl; tauto).
    all: try reflexivity.
    simpl in H. intuition (subst; first [reflexivity|congruence|lia]).
  - intros score Hout. rewrite getSourceFromPriority_cases.
    repeat match goal with
           | |- context [?a =? score] => destruct (Z.eqb_spec a score)
           end; try reflexivity; exfalso; apply Hout; simpl; tauto.
Qed.

Lemma insert_filter {A : Type} (score : A -> Z) (p : Z) (x : A) (l : list A) :
  List.filter (fun y => score y =? p)
    (Js.insert (fun a b => score b - score a) x l)
  = List.filter (fun y => score y =? p) (x :: l).
Proof.
  induction l as [|y l IH]; simpl; [reflexivity|].
  destruct (Z.gtb_spec (score y - score x) 0) as [Hgt|Hle]; simpl.
  - rewrite IH. simpl.
    destruct (Z.eqb_spec (score x) p), (Z.eqb_spec (score y) p);
      try reflexivity.
    lia.
  - reflexivity.
Qed.

(** X19.  [sortByPriority] returns the same documents, ordered by
    non-increasing score, and it is stable: documents of equal score keep
    the order they had. *)
Theorem sortByPriority_stable {A : Type} (score : A -> Z) (l : list A) :
  Permutation (Priority.sortByPriority score l) l
  /\ StronglySorted (fun a b => score b <= score a)
       (Priority.sortByPriority score l)
  /\ forall p,
       List.filter (fun y => score y =? p) (Priority.sortByPriority score l)
       = List.filter (fun y => score y =? p) l.
Proof.
  unfold Priority.sortByPriority. split; [apply sort_perm|]. split.
  - eapply StronglySorted_weaken; [|apply sort_sorted; intros; lia].
    intros a b. unfold Js.notAfter. lia.
  - intros p. induction l as [|x l IH]; simpl; [reflexivity|].
    rewrite insert_filter. simpl. now rewrite IH.
Qed.

(** ** Booking: the answers *)





(** ** Releasing a place *)

Lemma release_then_promote_dense now reopen tokenId sid saved doctorId db :
  densePositions (waitingPositions db doctorId) ->
  densePositions
    (waitingPositions
       (AllocationService.allocateFromWaitingQueue now doctorId
          (AllocationService.releaseWith reopen tokenId sid
             (saveToken now tokenId saved db))) doctorId).
Proof.
  intros Hd. rewrite allocateFromWaitingQueue_unchanged.
  unfold waitingPositions.
  rewrite releaseWith_waitings, saveToken_waitings. exact Hd.
Qed.

(** X22.  Every way of giving up a place keeps the doctor's waiting queue
    numbered [1..N]: the cancellation and the no-show of the allocation
    service, and the controller's [cancelToken]. *)
Theorem release_paths_keep_dense (now : Z) (tokenId : nat)
    (reason : option string) (db : DB) (token : Token.t) :
  tokens db !! tokenId = Some token ->
  densePositions (waitingPositions db (Token.doctorId token)) ->
  densePositions
    (waitingPositions
       (fst (AllocationService.handleCancellation now tokenId reason db))
       (Token.doctorId token))
  /\ densePositions
       (waitingPositions (fst (AllocationService.handleNoShow now tokenId db))
          (Token.doctorId token))
  /\ densePositions
       (waitingPositions (fst (Controllers.cancelToken now tokenId reason db))
          (Token.doctorId token)).
Proof.
  intros Hl Hd. split; [|split].
  - unfold AllocationService.handleCancellation. rewrite Hl.
    destruct (Token.isTerminal token); [exact Hd|]. simpl.
    now apply release_then_promote_dense.
  - unfold AllocationService.handleNoShow. rewrite Hl. simpl.
    now apply release_then_promote_dense.
  - unfold Controllers.cancelToken.
    destruct (CancellationService.requestCancellation now tokenId db);
      [|exact Hd].
    unfold CancellationService.processCancellation. rewrite Hl.
    rewrite releaseWith_tokens.
    destruct (saveToken_same now tokenId (Token.setCancelled reason token) db
                token Hl) as [tk' [-> [Hshape _]]].
    simpl.
    replace (Token.doctorId tk') with (Token.doctorId token)
      by (destruct Hshape as [-> | ->]; reflexivity).
    now apply release_then_promote_dense.
Qed.

Lemma release_paths_keep_dense_witness :
  densePositions
    (waitingPositions
       (fst (AllocationService.handleCancellation 5 1 None
               Examples.twoFullSlots)) 1).
Proof.
  apply (proj1 (release_paths_keep_dense 5 1 None Examples.twoFullSlots
                  (Token.mk 6 1 1 "online" 40 Token.booked 20 false None None
                     None None 0)
                  eq_refl
                  ltac:(unfold densePositions; simpl; reflexivity))).
Defined.

(** X23.  [updateTokenStatus] rejects a status word outside the five and an
    unknown token, writing nothing.  Otherwise it stores the new status
    whatever the old one was, stamps the check-in or completion time, and
    reports the old and new status; it never changes a slot or the waiting
    queue, so a token cancelled or marked no-show this way keeps its place
    in the slot. *)
Theorem updateTokenStatus_sets (now : Z) (tokenId : nat) (status : string)
    (db : DB) :
  match Token.statusOfString status, tokens db !! tokenId with
  | Some newStatus, Some token =>
      exists db' token',
        Controllers.updateTokenStatus now tokenId status db
        = (db', Ok (Token.status token, newStatus))
        /\ tokens db' !! tokenId = Some token'
        /\ Token.status token' = newStatus
        /\ Token.slotId token' = Token.slotId token
        /\ (newStatus = Token.checked_in -> Token.checkedInAt token' = Some now)
        /\ (newStatus = Token.completed -> Token.completedAt token' = Some now)
        /\ (forall j, j <> tokenId -> tokens db' !! j = tokens db !! j)
        /\ slots db' = slots db
        /\ waitings db' = waitings db
  | _, _ =>
      exists msg,
        Controllers.updateTokenStatus now tokenId status db = (db, Err msg)
  end.
Proof.
  unfold Controllers.updateTokenStatus.
  destruct (Token.statusOfString status) as [newStatus|];
    [|eexists; reflexivity].
  destruct (tokens db !! tokenId) as [token|] eqn:Hl;
    [|eexists; reflexivity].
  match goal with
  | |- context [saveToken now tokenId ?tk db] => set (token2 := tk)
  end.
  destruct (saveToken_same now tokenId token2 db token Hl)
    as [token' [Hl' [Hshape _]]].
  exists (saveToken now tokenId token2 db), token'.
  split; [reflexivity|]. split; [exact Hl'|].
  split; [destruct Hshape as [-> | ->]; unfold token2;
          destruct newStatus; reflexivity|].
  split; [destruct Hshape as [-> | ->]; unfold token2;
          destruct newStatus; reflexivity|].
  split; [intros ->; destruct Hshape as [-> | ->]; reflexivity|].
  split; [intros ->; destruct Hshape as [-> | ->]; reflexivity|].
  split; [intros j Hne; now apply saveToken_other|].
  split; [apply saveToken_slots|apply saveToken_waitings].
Qed.

(** X24.  The refund percentage is one of 0, 50, 75 and 100, and it never
    decreases when the cancellation is made earlier. *)
Theorem refundPercentage_monotone (a b : Z) :
  a <= b ->
  CancellationService.refundPercentage a <= CancellationService.refundPercentage b
  /\ In (CancellationService.refundPercentage a) [0; 50; 75; 100].
Proof.
  intros Hab. unfold CancellationService.refundPercentage,
    CancellationService.msPerHour.
  repeat match goal with
         | |- context [?x >=? ?y] => destruct (Z.geb_spec x y)
         end; simpl; split; try lia; tauto.
Qed.

Lemma refundPercentage_monotone_witness :
  CancellationService.refundPercentage (7 * CancellationService.msPerHour)
  <= CancellationService.refundPercentage (13 * CancellationService.msPerHour)
  /\ In (CancellationService.refundPercentage (7 * CancellationService.msPerHour))
       [0; 50; 75; 100].
Proof.
  apply refundPercentage_monotone. unfold CancellationService.msPerHour. lia.
Defined.

Lemma filter_absent (x : nat) (l : list nat) :
  ~ In x l -> List.filter (fun y => negb (Nat.eqb y x)) l = l.
Proof.
  induction l as [|a l IH]; intros Hout; simpl; [reflexivity|].
  destruct (Nat.eqb_spec a x) as [->|_]; simpl.
  - exfalso. apply Hout. now left.
  - rewrite IH; [reflexivity|]. intros Hin. apply Hout. now right.
Qed.

Lemma filter_remove_length (x : nat) (l : list nat) :
  List.NoDup l -> In x l ->
  S (length (List.filter (fun y => negb (Nat.eqb y x)) l)) = length l.
Proof.
  induction l as [|a l IH]; intros Hnd Hin; [destruct Hin|].
  inversion Hnd as [|? ? Hnot Hnd']; subst. simpl.
  destruct (Nat.eqb_spec a x) as [->|Hne]; simpl.
  - now rewrite filter_absent.
  - rewrite IH; [reflexivity|exact Hnd'|]. destruct Hin; [contradiction|assumption].
Qed.

(** X25.  [processCancellation] takes the token out of the list of its slot
    and lowers the slot's occupancy by one, changing no other slot and not
    the waiting queue; if the slot satisfied the slot invariant and listed
    the token exactly once, it still satisfies the invariant. *)
Theorem processCancellation_releases (now : Z) (tokenId : nat)
    (reason : option string) (db : DB) (token : Token.t) (slot : Slot.t) :
  tokens db !! tokenId = Some token ->
  slots db !! Token.slotId token = Some slot ->
  exists db' slot',
    CancellationService.processCancellation now tokenId reason db
    = (db', Ok tt)
    /\ slots db' !! Token.slotId token = Some slot'
    /\ ~ In tokenId (Slot.allocatedTokens slot')
    /\ Slot.currentOccupancy slot' = Slot.currentOccupancy slot - 1
    /\ Slot.maxCapacity slot' = Slot.maxCapacity slot
    /\ (forall j, j <> Token.slotId token -> slots db' !! j = slots db !! j)
    /\ waitings db' = waitings db
    /\ (slotInvariant slot = true ->
        List.NoDup (Slot.allocatedTokens slot) ->
        In tokenId (Slot.allocatedTokens slot) ->
        slotInvariant slot' = true).
Proof.
  intros Hl Hs. unfold CancellationService.processCancellation. rewrite Hl.
  unfold AllocationService.releaseWith. rewrite saveToken_slots, Hs.
  eexists _, _. split; [reflexivity|].
  destruct (reopenIfBelowCapacity_fields (Slot.remove tokenId slot))
    as (Hocc & Hcap & Htoks).
  split.
  { simpl. rewrite saveToken_slots. apply list_lookup_insert_eq.
    eapply lookup_lt_Some. exact Hs. }
  split.
  { rewrite Htoks. simpl. intros Hin. apply filter_In in Hin as [_ Hin].
    rewrite Nat.eqb_refl in Hin. discriminate. }
  split; [now rewrite Hocc|]. split; [now rewrite Hcap|]. split.
  { intros j Hne. simpl. rewrite saveToken_slots.
    apply list_lookup_insert_ne. congruence. }
  split; [simpl; apply saveToken_waitings|].
  intros Hinv Hnd Hin. unfold slotInvariant in *.
  rewrite Hocc, Hcap, Htoks. simpl.
  apply andb_prop in Hinv as [Heq Hle].
  apply Z.eqb_eq in Heq. apply Z.leb_le in Hle.
  pose proof (filter_remove_length tokenId _ Hnd Hin) as Hlen.
  apply andb_true_intro. split; [apply Z.eqb_eq|apply Z.leb_le]; lia.
Qed.

Lemma processCancellation_releases_witness :
  exists db' slot',
    CancellationService.processCancellation 5 0 None Examples.bookedToken
    = (db', Ok tt)
    /\ slots db' !! 0%nat = Some slot'
    /\ Slot.currentOccupancy slot' = 0
    /\ slotInvariant slot' = true.
Proof.
  destruct (processCancellation_releases 5 0 None Examples.bookedToken
              (Token.mk 5 1 0 "online" 40 Token.booked 100 false None None None
                 None 10)
              (Slot.mk 1 100 200 2 1 Slot.available 100 [0%nat])
              eq_refl eq_refl)
    as (db' & slot' & Hrun & Hslot & _ & Hocc & _ & _ & _ & Hinv).
  exists db', slot'. split; [exact Hrun|]. split; [exact Hslot|].
  split; [exact Hocc|]. apply Hinv.
  - reflexivity.
  - repeat constructor. simpl. tauto.
  - now left.
Defined.

(** X26.  In a queue numbered [1..N], [getQueuePosition] answers for a
    patient who is waiting for the doctor with a position between 1 and
    [N] and an estimated wait of 15 minutes for every patient in front,
    and it answers nothing exactly when the patient has no waiting entry
    for the doctor. *)
Theorem getQueuePosition_bounds (patientId doctorId : nat) (db : DB) :
  densePositions (waitingPositions db doctorId) ->
  match WaitingQueueService.getQueuePosition patientId doctorId db with
  | Some (position, estimatedWaitTime) =>
      1 <= position <= Z.of_nat (length (waitingPositions db doctorId))
      /\ estimatedWaitTime = 15 * (position - 1)
      /\ 0 <= estimatedWaitTime
      /\ exists i w,
           waitings db !! i = Some w
           /\ Waiting.patientId w = patientId
           /\ AllocationService.isWaitingFor doctorId w = true
           /\ Waiting.queuePosition w = position
  | None =>
      forall i w, waitings db !! i = Some w ->
        AllocationService.isWaitingFor doctorId w = true ->
        Waiting.patientId w <> patientId
  end.
Proof.
  intros Hd. unfold WaitingQueueService.getQueuePosition.
  destruct (Mongo.findOne _ _) as [[i w]|] eqn:Hfind.
  - apply findOne_Some in Hfind as [Hi Hq].
    apply andb_prop in Hq as [Hp Hw]. apply Nat.eqb_eq in Hp.
    pose proof (dense_bounds _ _ Hd (waiting_position_In db doctorId i w Hi Hw))
      as Hb.
    unfold WaitingQueueService.estimateWaitTime.
    split; [exact Hb|]. split; [lia|]. split; [lia|].
    exists i, w. tauto.
  - intros i w Hi Hw Hp.
    pose proof (findOne_None _ _ i w Hfind Hi) as Hq. simpl in Hq.
    rewrite Hw, andb_true_r in Hq. apply Nat.eqb_neq in Hq. contradiction.
Qed.

Lemma getQueuePosition_bounds_witness :
  WaitingQueueService.getQueuePosition 9 1 Examples.threeWaiting
  = Some (3, 30).
Proof.
  pose proof (getQueuePosition_bounds 9 1 Examples.threeWaiting
                ltac:(unfold densePositions; simpl; reflexivity)) as H.
  destruct (WaitingQueueService.getQueuePosition 9 1 Examples.threeWaiting)
    as [[position wait]|] eqn:E.
  - destruct H as (_ & -> & _ & _). vm_compute in E.
    injection E as <- _. reflexivity.
  - discriminate E.
Defined.

(** X27.  [getCurrentSlot] and the emergency paths agree on the slot in
    progress: when it reports a slot, that slot is stored for the doctor,
    [now] lies within its hours, the full flag says that the occupancy has
    reached the capacity, and [fastTrackEmergency] books; when it reports
    none, no stored slot of the doctor is in progress and both
    [fastTrackEmergency] and [handleEmergency] fail without writing. *)
Theorem getCurrentSlot_agrees (now : Z) (patientId doctorId : nat) (db : DB) :
  match EmergencyService.getCurrentSlot now doctorId db with
  | Some (sid, slot, isFull) =>
      (exists stored,
         slots db !! sid = Some stored
         /\ Slot.doctorId stored = doctorId
         /\ Slot.startTime stored <= now <= Slot.endTime stored
         /\ Slot.isAvailableOrFull stored = true
         /\ Slot.currentOccupancy slot = Slot.currentOccupancy stored
         /\ Slot.maxCapacity slot = Slot.maxCapacity stored
         /\ (isFull = true
             <-> Slot.maxCapacity stored <= Slot.currentOccupancy stored)
         /\ forall tid, In tid (Slot.allocatedTokens slot) <->
              In tid (Slot.allocatedTokens stored)
              /\ exists tk, tokens db !! tid = Some tk)
      /\ exists db' tid,
           EmergencyService.fastTrackEmergency now patientId doctorId db
           = (db', Ok tid)
  | None =>
      (forall i s, slots db !! i = Some s ->
                   AllocationService.isCurrentSlot now doctorId s = false)
      /\ (exists msg,
            EmergencyService.fastTrackEmergency now patientId doctorId db
            = (db, Err msg))
      /\ (exists msg,
            AllocationService.handleEmergency now patientId doctorId db
            = (db, Err msg))
  end.
Proof.
  unfold EmergencyService.getCurrentSlot,
    EmergencyService.fastTrackEmergency, AllocationService.handleEmergency.
  destruct (Mongo.findOne _ _) as [[sid cur]|] eqn:Hcur.
  - split.
    + apply findOne_Some in Hcur as [Hsid Hq].
      unfold AllocationService.isCurrentSlot in Hq.
      rewrite !andb_true_iff, Nat.eqb_eq, Z.geb_leb, !Z.leb_le in Hq.
      exists cur. split; [exact Hsid|]. split; [tauto|]. split; [lia|].
      split; [tauto|]. split; [reflexivity|]. split; [reflexivity|].
      split; [rewrite Z.geb_leb, Z.leb_le; tauto|].
      intros tid. simpl. apply populate_In.
    + unfold insertToken. cbv zeta.
      repeat case_match; simplify_eq; eexists _, _; reflexivity.
  - split; [|split; eexists; reflexivity].
    intros i s Hi. exact (findOne_None _ _ i s Hcur Hi).
Qed.

(** ** The properties above at concrete stores *)

Lemma updateQueuePositions_renumbers_witness :
  densePositions
    (waitingPositions
       (WaitingQueueService.updateQueuePositions 1
          (fst (WaitingQueueService.cleanExpiredEntries 10
                  Examples.threeWaiting))) 1)
  /\ Waiting.queuePosition
     <$> waitings
           (WaitingQueueService.updateQueuePositions 1
              (fst (WaitingQueueService.cleanExpiredEntries 10
                      Examples.threeWaiting))) !! 0%nat
     = Some 1.
Proof.
  pose proof (updateQueuePositions_renumbers 1
                (fst (WaitingQueueService.cleanExpiredEntries 10
                        Examples.threeWaiting))) as H.
  cbv zeta in H. destruct H as (Hd & _ & _ & _ & Hun).
  split; [exact Hd|].
  rewrite (Hun 0%nat
             (Waiting.mk 7 1 "walk_in" 20 None Waiting.expired 1 None 5 0));
    reflexivity.
Defined.

Lemma cancelWaiting_withdraws_witness :
  exists db',
    WaitingQueueService.cancelWaiting 0 (Some "left") Examples.threeWaiting
    = (db', Ok tt)
    /\ waitingStatusOf db' 0 = Some Waiting.cancelled
    /\ waitingPositions db' 1 = [1; 2].
Proof.
  pose proof (cancelWaiting_withdraws 0 (Some "left") Examples.threeWaiting)
    as H.
  simpl in H. destruct H as (db' & Hrun & Hl & _).
  exists db'. split; [exact Hrun|].
  split; [unfold waitingStatusOf; now rewrite Hl|].
  injection Hrun as <-. reflexivity.
Defined.

Lemma cleanExpiredEntries_sweeps_witness :
  waitingStatusOf
    (fst (WaitingQueueService.cleanExpiredEntries 10 Examples.twoWaiting)) 0
  = Some Waiting.expired
  /\ waitingStatusOf
       (fst (WaitingQueueService.cleanExpiredEntries 10 Examples.twoWaiting)) 1
     = Some Waiting.waiting.
Proof.
  pose proof (cleanExpiredEntries_sweeps 10 Examples.twoWaiting) as H.
  cbv zeta in H. destruct H as (_ & Hkeep & Hexp & _).
  split.
  - apply (Hexp 0%nat
             (Waiting.mk 7 1 "walk_in" 20 None Waiting.waiting 1 None 5 0));
      reflexivity.
  - unfold waitingStatusOf.
    rewrite (Hkeep 1%nat
               (Waiting.mk 8 1 "walk_in" 20 None Waiting.waiting 2 None
                  100 1)); reflexivity.
Defined.

Lemma bulkCancelSlot_cancels_listed_witness :
  exists db' cancelledTokenIds,
    CancellationService.bulkCancelSlot 5 0 (Some "doctor away")
      Examples.bookedToken
    = (db', Ok (Z.of_nat (length cancelledTokenIds)))
    /\ Token.status <$> tokens db' !! 0%nat = Some Token.cancelled
    /\ In 0%nat cancelledTokenIds.
Proof.
  pose proof (bulkCancelSlot_cancels_listed 5 0 (Some "doctor away")
                Examples.bookedToken) as H.
  simpl in H. destruct H as (db' & cs & Hrun & _ & _ & Hc & _ & _ & Hcs).
  exists db', cs. split; [exact Hrun|]. split.
  - rewrite (Hc 0%nat
               (Token.mk 5 1 0 "online" 40 Token.booked 100 false None None
                  None None 10)); [reflexivity|reflexivity|now left|reflexivity].
  - apply Hcs. split; [now left|].
    eexists. split; reflexivity.
Defined.

Lemma getSourceFromPriority_inverts_table_witness :
  Priority.getSourceFromPriority 80 = "paid_priority"
  /\ Priority.getSourceFromPriority 0 = "walk_in".
Proof.
  destruct getSourceFromPriority_inverts_table as (Hinv & _ & _ & Hdefault).
  split.
  - apply Hinv; reflexivity.
  - apply Hdefault. simpl. lia.
Defined.

Lemma updateTokenStatus_sets_witness :
  exists db' token',
    Controllers.updateTokenStatus 50 0 "cancelled" Examples.bookedToken
    = (db', Ok (Token.booked, Token.cancelled))
    /\ tokens db' !! 0%nat = Some token'
    /\ Token.status token' = Token.cancelled
    /\ slots db' = slots Examples.bookedToken.
Proof.
  pose proof (updateTokenStatus_sets 50 0 "cancelled" Examples.bookedToken)
    as H.
  change (Token.statusOfString "cancelled") with (Some Token.cancelled) in H.
  simpl in H.
  destruct H as (db' & token' & Hrun & Hl & Hst & _ & _ & _ & _ & Hs & _).
  exists db', token'. tauto.
Defined.
